(** * PacverseRoom: a shallow embedding of the room handlers

    The room class of [src/rooms/PacverseRoom.ts] is embedded handler by
    handler.  Client payloads are untyped in the source ([any]), so they are
    embedded as JavaScript values; numbers are IEEE-754 binary64 values
    (the Standard Library's [spec_float] at precision 53); a handler is a
    computation in a state-and-exception monad over the room object, so that
    a [TypeError] raised half-way leaves the mutations made so far in place,
    as it does in the source.

    What a handler sends, logs, or asks of the custom logic module is
    recorded in the room's [trace].  The module itself, the transport, and
    [generateId] are outside: a hook call is a trace entry, the generated id
    is an argument of [onCreateEntity], and the settling of
    [allowReconnection] is an argument of [onLeave_resume].  The handlers
    that only relay a payload to the other clients ([remoteFunctionCall],
    the chat and gesture messages) and console output are left out; they
    do not touch the room state.

    The request handlers [saveItem] and [loadItem] of the item controller
    are embedded after the room, in the module [Item], over any item
    service: the service itself is not among the sources. *)

From Stdlib Require Import ZArith NArith String Ascii List Bool Lia.
From Stdlib Require Import Floats.SpecFloat.
From stdpp Require Import base option list gmap strings pretty fin_maps.

Open Scope string_scope.
Open Scope list_scope.

(** ** Numbers *)

Module Number.

Definition t := spec_float.

Definition prec : Z := 53.
Definition emax : Z := 1024.

#[global] Instance spec_float_eq_dec : EqDecision spec_float.
Proof. solve_decision. Defined.

Definition NaN : t := S754_nan.
Definition zero : t := S754_zero false.

(** [x + y] on Numbers. *)
Definition add (x y : t) : t := SFadd prec emax x y.

(** The Number value for the decimal [m * 10^e10] (round to nearest, ties
    to even), computed on exact integers. *)
Definition of_decimal (neg : bool) (m : Z) (e10 : Z) : t :=
  if (m <=? 0)%Z then S754_zero neg
  else if (0 <=? e10)%Z
  then binary_normalize prec emax (cond_Zopp neg (m * 10 ^ e10)) 0 neg
  else
    let '(q, e, l) := SFdiv_core_binary prec emax m 0 (10 ^ (- e10)) 0 in
    binary_round_aux prec emax neg q e l.

(** *** [parseFloat] on a string: the longest prefix that is a
    [StrDecimalLiteral], after leading white space.  A string is the
    sequence of its code units, each below 256: the white space and line
    terminators among them are TAB, LF, VT, FF, CR, SP and the no-break
    space U+00A0. *)

Definition digit_of (c : ascii) : option Z :=
  let n := N_of_ascii c in
  if ((48 <=? n) && (n <=? 57))%N then Some (Z.of_N (n - 48)) else None.

Fixpoint take_digits (s : string) : list Z * string :=
  match s with
  | String c s' =>
      match digit_of c with
      | Some d => let '(ds, r) := take_digits s' in (d :: ds, r)
      | None => ([], s)
      end
  | EmptyString => ([], s)
  end.

Definition digits_value (ds : list Z) : Z :=
  fold_left (fun acc d => (10 * acc + d)%Z) ds 0%Z.

Definition is_white (c : ascii) : bool :=
  let n := N_of_ascii c in
  ((9 <=? n) && (n <=? 13) || (n =? 32) || (n =? 160))%N.

Fixpoint trim_start (s : string) : string :=
  match s with
  | String c s' => if is_white c then trim_start s' else s
  | EmptyString => s
  end.

(** The exponent part [e], [e+] or [e-] followed by digits; an incomplete
    exponent part is not part of the prefix. *)
Definition exponent_part (s : string) : Z :=
  match s with
  | String c s1 =>
      if (Ascii.eqb c "e" || Ascii.eqb c "E")%bool then
        match s1 with
        | String "+" s2 =>
            match take_digits s2 with
            | ([], _) => 0%Z
            | (ds, _) => digits_value ds
            end
        | String "-" s2 =>
            match take_digits s2 with
            | ([], _) => 0%Z
            | (ds, _) => (- digits_value ds)%Z
            end
        | _ =>
            match take_digits s1 with
            | ([], _) => 0%Z
            | (ds, _) => digits_value ds
            end
        end
      else 0%Z
  | EmptyString => 0%Z
  end.

Definition parse_unsigned (neg : bool) (s : string) : t :=
  if String.prefix "Infinity" s then S754_infinity neg
  else
    let '(ip, r1) := take_digits s in
    match r1 with
    | String "." r2 =>
        let '(fp, r3) := take_digits r2 in
        match ip, fp with
        | [], [] => NaN
        | _, _ =>
            of_decimal neg (digits_value (ip ++ fp))
              (exponent_part r3 - Z.of_nat (length fp))
        end
    | _ =>
        match ip with
        | [] => NaN
        | _ => of_decimal neg (digits_value ip) (exponent_part r1)
        end
    end.

Definition parse (s : string) : t :=
  match trim_start s with
  | String "+" r => parse_unsigned false r
  | String "-" r => parse_unsigned true r
  | r => parse_unsigned false r
  end.

(** *** [Number::toString] (radix 10): the shortest digit string that
    reads back as the same Number, laid out as ECMA-262 prescribes. *)

(** A positive finite value as an exact fraction [num / den]. *)
Definition fraction (m : positive) (e : Z) : Z * Z :=
  if (0 <=? e)%Z then (Z.pos m * 2 ^ e, 1)%Z else (Z.pos m, 2 ^ (- e))%Z.

(** [floor (num / den / 10^q)]. *)
Definition scaled_floor (num den q : Z) : Z :=
  if (0 <=? q)%Z then (num / (den * 10 ^ q))%Z
  else ((num * 10 ^ (- q)) / den)%Z.

(** Position of the decimal point: the [n] with
    [10^(n-1) <= num/den < 10^n]. *)
Fixpoint first_digit_below (fuel : nat) (num den : Z) (j : Z) : Z :=
  match fuel with
  | O => j
  | S fuel' =>
      if (den <=? num * 10 ^ j)%Z then j
      else first_digit_below fuel' num den (j + 1)
  end.

Definition decimal_point (num den : Z) : Z :=
  if (den <=? num)%Z
  then Z.of_nat (String.length (pretty (num / den)%Z))
  else 1 - first_digit_below (S (Z.to_nat (Z.log2 den))) num den 1.

(** Exact comparison of the distances of [lo * 10^q] and [(lo+1) * 10^q]
    to [num / den]: [true] when the lower candidate is at least as close
    (on a tie, when it is even). *)
Definition lower_is_closer (num den lo q : Z) : bool :=
  let '(a, b) :=
    if (0 <=? q)%Z then (num, den * 10 ^ q)%Z else (num * 10 ^ (- q), den)%Z in
  (* a/b lies in [lo, lo+1]; compare 2a/b - 2lo with 1 *)
  match (2 * a - 2 * lo * b ?= b)%Z with
  | Lt => true
  | Eq => Z.even lo
  | Gt => false
  end.

Fixpoint strip_zeros (fuel : nat) (s q : Z) : Z * Z :=
  match fuel with
  | O => (s, q)
  | S fuel' =>
      if ((0 <? s) && (s mod 10 =? 0))%Z
      then strip_zeros fuel' (s / 10) (q + 1)
      else (s, q)
  end.

(** The candidate with [k] digits, if one of the two neighbours of the
    value reads back as [v]. *)
Definition candidate (v : t) (num den n : Z) (k : Z) : option (Z * Z) :=
  let q := (n - k)%Z in
  let lo := scaled_floor num den q in
  let hi := (lo + 1)%Z in
  let ok_lo := bool_decide (of_decimal false lo q = v) in
  let ok_hi := bool_decide (of_decimal false hi q = v) in
  match ok_lo, ok_hi with
  | true, true => Some (if lower_is_closer num den lo q then lo else hi, q)
  | true, false => Some (lo, q)
  | false, true => Some (hi, q)
  | false, false => None
  end.

Fixpoint shortest (fuel : nat) (v : t) (num den n : Z) (k : Z) : Z * Z :=
  match fuel with
  | O =>
      let q := (n - k)%Z in
      let lo := scaled_floor num den q in
      (if lower_is_closer num den lo q then lo else lo + 1, q)%Z
  | S fuel' =>
      match candidate v num den n k with
      | Some r => r
      | None => shortest fuel' v num den n (k + 1)
      end
  end.

Definition zeros (n : Z) : string := String.concat "" (replicate (Z.to_nat n) "0").

(** The layout of ECMA-262, Number::toString steps 6 to 11, for the digit
    string [ds] of length [k] and the decimal point position [n]. *)
Definition layout (ds : string) (n : Z) : string :=
  let k := Z.of_nat (String.length ds) in
  if ((k <=? n) && (n <=? 21))%Z then ds +:+ zeros (n - k)
  else if ((0 <? n) && (n <=? 21))%Z then
    substring 0 (Z.to_nat n) ds +:+ "." +:+ substring (Z.to_nat n) (Z.to_nat (k - n)) ds
  else if ((-6 <? n) && (n <=? 0))%Z then "0." +:+ zeros (- n) +:+ ds
  else
    let e := (n - 1)%Z in
    let tail := "e" +:+ (if (e <? 0)%Z then "-" else "+") +:+ pretty (Z.abs e) in
    if (k =? 1)%Z then ds +:+ tail
    else substring 0 1 ds +:+ "." +:+ substring 1 (Z.to_nat (k - 1)) ds +:+ tail.

Definition positive_toString (m : positive) (e : Z) : string :=
  let v := S754_finite false m e in
  let '(num, den) := fraction m e in
  let n := decimal_point num den in
  let '(s0, q0) := shortest 16 v num den n 1 in
  let '(s, q) := strip_zeros 20 s0 q0 in
  let ds := pretty s in
  layout ds (q + Z.of_nat (String.length ds)).

Definition toString (x : t) : string :=
  match x with
  | S754_nan => "NaN"
  | S754_zero _ => "0"
  | S754_infinity false => "Infinity"
  | S754_infinity true => "-Infinity"
  | S754_finite false m e => positive_toString m e
  | S754_finite true m e => "-" +:+ positive_toString m e
  end.

(** Number literals of the source. *)
Definition of_Z (z : Z) : t := binary_normalize prec emax z 0 false.

End Number.

#[local] Set Warnings "-register-all".

(** ** JavaScript values

    Payloads arrive decoded from the wire: primitives, arrays and plain
    objects.  An object is the list of its own properties in insertion
    order; reading a property takes the first entry with that key.  A
    string is the sequence of its code units, each below 256. *)

Inductive JsVal :=
| VUndefined
| VNull
| VBool (b : bool)
| VNum (x : Number.t)
| VStr (s : string)
| VArr (l : list JsVal)
| VObj (l : list (string * JsVal)).

(** What a handler can throw: a [TypeError] of the language, or the
    [Error] that [MapSchema.set] raises on a value that is [null] or
    [undefined]. *)
Inductive Exn := TypeError | MapSchemaError.

Inductive outcome (A : Type) :=
| Ret (a : A)
| Throw (e : Exn).
Arguments Ret {A} a.
Arguments Throw {A} e.

#[global] Instance outcome_ret : MRet outcome := λ A a, Ret a.
#[global] Instance outcome_bind : MBind outcome := λ A B f m,
  match m with Ret a => f a | Throw e => Throw e end.

(** [v == null] *)
Definition nullish (v : JsVal) : bool :=
  match v with VUndefined | VNull => true | _ => false end.

(** ToBoolean, the test of [if (v)]. *)
Definition truthy (v : JsVal) : bool :=
  match v with
  | VUndefined | VNull => false
  | VBool b => b
  | VNum x =>
      match x with
      | S754_zero _ | S754_nan => false
      | _ => true
      end
  | VStr s => negb (String.eqb s "")
  | VArr _ | VObj _ => true
  end.

(** [a === b], between a value held by the room and a value of a message
    (or a literal): two objects or arrays are then never the same
    reference. *)
Definition strict_eq (a b : JsVal) : bool :=
  match a, b with
  | VUndefined, VUndefined => true
  | VNull, VNull => true
  | VBool x, VBool y => Bool.eqb x y
  | VNum x, VNum y => SFeqb x y
  | VStr x, VStr y => String.eqb x y
  | _, _ => false
  end.

Definition has_key (k : string) (l : list (string * JsVal)) : bool :=
  existsb (λ kv, String.eqb (fst kv) k) l.

Definition assoc (k : string) (l : list (string * JsVal)) : JsVal :=
  match find (λ kv, String.eqb (fst kv) k) l with
  | Some kv => snd kv
  | None => VUndefined
  end.

(** ToString.  A plain object answers ["[object Object]"] unless it carries
    an own property [toString], which cannot be a function in a decoded
    payload: the conversion then raises a TypeError.  An array is joined
    with commas, [undefined] and [null] elements giving the empty string. *)
Fixpoint js_toString (v : JsVal) : outcome string :=
  match v with
  | VUndefined => Ret "undefined"
  | VNull => Ret "null"
  | VBool true => Ret "true"
  | VBool false => Ret "false"
  | VNum x => Ret (Number.toString x)
  | VStr s => Ret s
  | VArr l =>
      (fix join (first : bool) (l : list JsVal) : outcome string :=
         match l with
         | [] => Ret ""
         | x :: l' =>
             match (if nullish x then Ret "" else js_toString x) with
             | Ret s =>
                 match join false l' with
                 | Ret r => Ret ((if first then "" else ",") +:+ s +:+ r)
                 | Throw e => Throw e
                 end
             | Throw e => Throw e
             end
         end) true l
  | VObj l => if has_key "toString" l then Throw TypeError else Ret "[object Object]"
  end.

(** [v.toString()]: as ToString, but [undefined] and [null] have no
    properties. *)
Definition method_toString (v : JsVal) : outcome string :=
  if nullish v then Throw TypeError else js_toString v.

(** [parseFloat(v)] *)
Definition parseFloat (v : JsVal) : outcome Number.t :=
  s ← js_toString v; mret (Number.parse s).

(** The indices of an array or a string, as property keys. *)
Definition index_keys (n : nat) : list string := (λ i : nat, pretty i) <$> seq 0 n.

Fixpoint nth_by_key {A} (i : nat) (l : list A) (k : string) : option A :=
  match l with
  | [] => None
  | x :: l' => if String.eqb (pretty i) k then Some x else nth_by_key (S i) l' k
  end.

(** [v[k]] and [v.k] for a key that is not a method name. *)
Definition js_get (v : JsVal) (k : string) : outcome JsVal :=
  match v with
  | VUndefined | VNull => Throw TypeError
  | VBool _ | VNum _ => Ret VUndefined
  | VStr s =>
      if String.eqb k "length" then Ret (VNum (Number.of_Z (Z.of_nat (String.length s))))
      else Ret (default VUndefined
                  ((λ c, VStr (String c EmptyString)) <$> nth_by_key 0 (list_ascii_of_string s) k))
  | VArr l =>
      if String.eqb k "length" then Ret (VNum (Number.of_Z (Z.of_nat (length l))))
      else Ret (default VUndefined (nth_by_key 0 l k))
  | VObj l => Ret (assoc k l)
  end.

Fixpoint dedup_keys (seen : list string) (l : list (string * JsVal)) : list string :=
  match l with
  | [] => []
  | (k, _) :: l' =>
      if existsb (String.eqb k) seen then dedup_keys seen l'
      else k :: dedup_keys (k :: seen) l'
  end.

(** The keys visited by [for (key in v)]; they are also [Object.keys(v)]
    when [v] is neither [undefined] nor [null].  The order of the keys of an
    object is the order of the list: the handlers only store under each key,
    so the order does not show in the result. *)
Definition own_keys (v : JsVal) : list string :=
  match v with
  | VObj l => dedup_keys [] l
  | VArr l => index_keys (length l)
  | VStr s => index_keys (String.length s)
  | _ => []
  end.

(** [data[i]] on an array. *)
Definition at_index (data : list JsVal) (i : nat) : JsVal := nth i data VUndefined.

(** ** Schema objects of the room state

    [ColyseusNetworkedEntity] and [ColyseusNetworkedUser] are objects whose
    fields the source reads and writes by name, and, in direct-field
    updates, by a name chosen by the client: they are embedded as maps from
    property names to values, next to the [attributes] map. *)

(** What [entity.attributes] holds: the attribute map, or whatever a
    direct-field update stored under the name [attributes]. *)
Inductive AttrSlot :=
| AMap (m : gmap string JsVal)
| ARaw (v : JsVal).

Module Entity.

Record t := mk {
  props : gmap string JsVal;
  attributes : AttrSlot
}.

(** [new ColyseusNetworkedEntity()]: no field assigned yet, and an empty
    attribute map (the handlers call [attributes.set] on a new entity). *)
Definition new : t := mk ∅ (AMap ∅).

(** [entity[p]] for a field name [p]. *)
Definition get (e : t) (p : string) : JsVal := default VUndefined (props e !! p).

(** [entity[p] = v] for a field name [p].  The name ["__proto__"] is not
    one (an assignment to it makes no field), and neither are the names in
    [_] or [$] that the schema library keeps for itself: the theorems on
    assigned fields leave these names out. *)
Definition assign (e : t) (p : string) (v : JsVal) : t :=
  if String.eqb p "attributes" then mk (props e) (ARaw v)
  else mk (<[p := v]> (props e)) (attributes e).

Definition id (e : t) : JsVal := get e "id".
Definition ownerId (e : t) : JsVal := get e "ownerId".
Definition timestamp (e : t) : JsVal := get e "timestamp".

(** [entity.attributes.get(k)] when [attributes] is the attribute map. *)
Definition attribute (e : t) (k : string) : option JsVal :=
  match attributes e with
  | AMap m => m !! k
  | ARaw _ => None
  end.

End Entity.

Module User.

Record t := mk {
  props : gmap string JsVal;
  attributes : gmap string JsVal
}.

(** Modelled from the spec: the class [ColyseusNetworkedUser] is declared
    in [./schema/ColyseusRoomState], which is not among the sources; the
    spec has a new user constructed with [connected = true], and
    [setAttribute] calls [attributes.set] on a stored user. *)
Definition new : t := mk {[ "connected" := VBool true ]} ∅.

Definition get (u : t) (p : string) : JsVal := default VUndefined (props u !! p).

Definition assign (u : t) (p : string) (v : JsVal) : t :=
  mk (<[p := v]> (props u)) (attributes u).

(** [user.assign({ p1: v1, ... })] *)
Definition assign_all (u : t) (fields : list (string * JsVal)) : t :=
  fold_left (λ u kv, assign u (fst kv) (snd kv)) fields u.

Definition account (u : t) : JsVal := get u "account".
Definition connected (u : t) : JsVal := get u "connected".
Definition timestamp (u : t) : JsVal := get u "timestamp".

End User.

Module Client.
Record t := mk { id : string; sessionId : string }.
End Client.

(** ** The room *)

Inductive LogLevel := Info | Debug | Silly | Error.

Inductive Payload :=
| PVal (v : JsVal)
| PUser (u : User.t).

(** Calls into the custom logic module.  What the module does is outside
    this development: a call is recorded, and taken to return without
    touching the room. *)
Inductive HookCall :=
| InitializeLogic (options : JsVal)
| ProcessLogic (dt : Number.t)
| ProcessMethod (client : Client.t) (request : JsVal)
| ProcessUserLeft.

(** What a handler does to the outside, in order. *)
Inductive Effect :=
| Send (client : Client.t) (type : JsVal) (payload : Payload)
| Log (level : LogLevel) (message : string)
| Hook (call : HookCall).

(** The module loaded by [getCustomLogic], by file name. *)
Inductive CustomLogic := LogicModule (fileName : JsVal).

Record Room := mkRoom {
  networkedEntities : gmap string Entity.t;  (* this.state.networkedEntities *)
  networkedUsers : gmap string User.t;       (* this.state.networkedUsers *)
  clientEntities : gmap string (list string);
  serverTime : Number.t;
  customMethodController : option CustomLogic;
  maxClients : nat;
  roomOptions : JsVal;
  roomId : JsVal;
  trace : list Effect
}.

Definition with_entities (f : gmap string Entity.t → gmap string Entity.t) (r : Room) : Room :=
  mkRoom (f (networkedEntities r)) (networkedUsers r) (clientEntities r) (serverTime r)
    (customMethodController r) (maxClients r) (roomOptions r) (roomId r) (trace r).

Definition with_users (f : gmap string User.t → gmap string User.t) (r : Room) : Room :=
  mkRoom (networkedEntities r) (f (networkedUsers r)) (clientEntities r) (serverTime r)
    (customMethodController r) (maxClients r) (roomOptions r) (roomId r) (trace r).

Definition with_clientEntities (f : gmap string (list string) → gmap string (list string))
    (r : Room) : Room :=
  mkRoom (networkedEntities r) (networkedUsers r) (f (clientEntities r)) (serverTime r)
    (customMethodController r) (maxClients r) (roomOptions r) (roomId r) (trace r).

Definition with_serverTime (f : Number.t → Number.t) (r : Room) : Room :=
  mkRoom (networkedEntities r) (networkedUsers r) (clientEntities r) (f (serverTime r))
    (customMethodController r) (maxClients r) (roomOptions r) (roomId r) (trace r).

Definition with_trace (f : list Effect → list Effect) (r : Room) : Room :=
  mkRoom (networkedEntities r) (networkedUsers r) (clientEntities r) (serverTime r)
    (customMethodController r) (maxClients r) (roomOptions r) (roomId r) (f (trace r)).

(** ** Handlers as computations on the room *)

Definition M (A : Type) : Type := Room → outcome A * Room.

#[global] Instance M_ret : MRet M := λ A a st, (Ret a, st).
#[global] Instance M_bind : MBind M := λ A B f m st,
  match m st with
  | (Ret a, st') => f a st'
  | (Throw e, st') => (Throw e, st')
  end.

Definition gets {A} (f : Room → A) : M A := λ st, (Ret (f st), st).
Definition modify (f : Room → Room) : M unit := λ st, (Ret tt, f st).
Definition throw {A} (e : Exn) : M A := λ st, (Throw e, st).
Definition liftO {A} (o : outcome A) : M A := λ st, (o, st).
Definition emit (e : Effect) : M unit := modify (with_trace (λ t, t ++ [e])).

(** The keys of the two state maps are strings.  Where the source writes
    the key as a template literal, or uses a token as a property name, the
    token is converted with ToString.  The name tokens of attribute-mode
    updates are converted too: the attribute maps of this embedding hold
    string keys only. *)
Definition key_of (v : JsVal) : M string := liftO (js_toString v).

(** The entity behind a reference obtained from [networkedEntities.get]. *)
Definition read_entity (key : string) : M Entity.t := λ st,
  match networkedEntities st !! key with
  | Some e => (Ret e, st)
  | None => (Throw TypeError, st)
  end.

Definition write_entity (key : string) (e : Entity.t) : M unit :=
  modify (with_entities <[key := e]>).

(** [entity.attributes.get(k)] *)
Definition entity_attributes_get (key : string) (k : string) : M JsVal :=
  e ← read_entity key;
  match Entity.attributes e with
  | AMap m => mret (default VUndefined (m !! k))
  | ARaw _ => throw TypeError
  end.

(** [entity.attributes.set(k, v)]; the map refuses a value that is [null]
    or [undefined]. *)
Definition entity_attributes_set (key : string) (k : string) (v : JsVal) : M unit :=
  e ← read_entity key;
  match Entity.attributes e with
  | AMap m =>
      if nullish v then throw MapSchemaError
      else write_entity key (Entity.mk (Entity.props e) (AMap (<[k := v]> m)))
  | ARaw _ => throw TypeError
  end.

(** [entity[p] = v] *)
Definition entity_assign (key : string) (p : string) (v : JsVal) : M unit :=
  e ← read_entity key;
  write_entity key (Entity.assign e p v).

(** [parseFloat(this.serverTime.toString())] *)
Definition now : M JsVal :=
  gets (λ st, VNum (Number.parse (Number.toString (serverTime st)))).

(** *** onCustomMethod *)
Definition onCustomMethod (client : Client.t) (request : JsVal) : M unit :=
  controller ← gets customMethodController;
  match controller with
  | Some _ => emit (Hook (ProcessMethod client request))
  | None => emit (Log Debug "NO Custom Method Logic Set")
  end.

(** *** onEntityUpdate *)

(** One round of the [for] loop at cursor [i]; the result is the cursor of
    the next round. *)
Definition update_round (key : string) (data : list JsVal) (startIndex i : nat) : M nat :=
  let property := at_index data i in
  let updateValue := at_index data (i + 1) in
  '(updateValue, i) ←
    (if strict_eq updateValue (VStr "inc") then
       let updateValue := at_index data (i + 2) in
       k ← key_of property;
       current ← entity_attributes_get key k;
       x ← liftO (parseFloat current);
       y ← liftO (parseFloat updateValue);
       mret (VNum (Number.add x y), (i + 1)%nat)
     else mret (updateValue, i));
  (if (startIndex =? 2)%nat then
     k ← key_of property;
     s ← liftO (method_toString updateValue);
     entity_attributes_set key k (VStr s)
   else
     p ← key_of property;
     entity_assign key p updateValue);;
  mret (i + 2)%nat.

(** The loop, one round per unit of fuel.  The cursor advances by two or
    three tokens a round, so [length data] rounds always reach the end of
    the array (lemma [update_loop_fuel]). *)
Fixpoint update_loop (fuel : nat) (key : string) (data : list JsVal)
    (startIndex i : nat) : M unit :=
  match fuel with
  | O => mret tt
  | S fuel' =>
      if negb (i <? length data)%nat then mret tt
      else
        i ← update_round key data startIndex i;
        update_loop fuel' key data startIndex i
  end.

(** [networkedEntities.get(data[0])] takes the token as it is: one that is
    not a string names no entity, and the first use of [stateToUpdate]
    then fails on [undefined]. *)
Definition onEntityUpdate (clientID : string) (data : list JsVal) : M unit :=
  key ← key_of (at_index data 0);
  entities ← gets networkedEntities;
  if negb (bool_decide (is_Some (entities !! key))) then mret tt
  else
    match at_index data 0 with
    | VStr stateToUpdate =>
        let startIndex :=
          if strict_eq (at_index data 1) (VStr "attributes") then 2%nat else 1%nat in
        update_loop (length data) stateToUpdate data startIndex startIndex;;
        t ← now;
        entity_assign stateToUpdate "timestamp" t
    | _ => throw TypeError
    end.

(** *** The message handlers installed by onCreate *)

(** "ping" *)
Definition onPing (client : Client.t) : M unit :=
  t ← gets serverTime;
  emit (Send client (VNum Number.zero) (PVal (VObj [("serverTime", VNum t)]))).

(** "entityUpdate" *)
Definition onEntityUpdateMessage (client : Client.t) (entityUpdateArray : list JsVal) : M unit :=
  key ← key_of (at_index entityUpdateArray 0);
  entities ← gets networkedEntities;
  if negb (bool_decide (is_Some (entities !! key))) then mret tt
  else onEntityUpdate (Client.id client) entityUpdateArray.

(** "removeEntity"; [has] and [delete] take [removeId] as it is, so a
    value that is not a string names no entity. *)
Definition onRemoveEntity (client : Client.t) (removeId : JsVal) : M unit :=
  match removeId with
  | VStr key =>
      entities ← gets networkedEntities;
      if bool_decide (is_Some (entities !! key))
      then modify (with_entities (delete key))
      else mret tt
  | _ => mret tt
  end.

(** The body of the [for (let key in creationMessage.attributes)] loop, on
    the entity under construction. *)
Definition creation_attribute (attributes : JsVal) (newEntity : Entity.t) (key : string)
    : outcome Entity.t :=
  value ← js_get attributes key;
  if String.eqb key "creationPos" then
    x ← js_get value "0" ≫= parseFloat;
    let newEntity := Entity.assign newEntity "xPos" (VNum x) in
    y ← js_get value "1" ≫= parseFloat;
    let newEntity := Entity.assign newEntity "yPos" (VNum y) in
    z ← js_get value "2" ≫= parseFloat;
    mret (Entity.assign newEntity "zPos" (VNum z))
  else if String.eqb key "creationRot" then
    x ← js_get value "0" ≫= parseFloat;
    let newEntity := Entity.assign newEntity "xRot" (VNum x) in
    y ← js_get value "1" ≫= parseFloat;
    let newEntity := Entity.assign newEntity "yRot" (VNum y) in
    z ← js_get value "2" ≫= parseFloat;
    let newEntity := Entity.assign newEntity "zRot" (VNum z) in
    w ← js_get value "3" ≫= parseFloat;
    mret (Entity.assign newEntity "wRot" (VNum w))
  else
    s ← method_toString value;
    match Entity.attributes newEntity with
    | AMap m => mret (Entity.mk (Entity.props newEntity) (AMap (<[key := VStr s]> m)))
    | ARaw _ => Throw TypeError
    end.

Fixpoint creation_attributes (attributes : JsVal) (keys : list string) (newEntity : Entity.t)
    : outcome Entity.t :=
  match keys with
  | [] => mret newEntity
  | key :: keys' =>
      newEntity ← creation_attribute attributes newEntity key;
      creation_attributes attributes keys' newEntity
  end.

(** "createEntity"; [entityViewID] is what [generateId()] returns. *)
Definition onCreateEntity (entityViewID : string) (client : Client.t) (creationMessage : JsVal)
    : M unit :=
  t ← gets serverTime;
  let newEntity :=
    Entity.assign (Entity.assign (Entity.assign Entity.new
      "id" (VStr entityViewID))
      "ownerId" (VStr (Client.id client)))
      "timestamp" (VNum t) in
  creationId ← liftO (js_get creationMessage "creationId");
  let newEntity :=
    if negb (nullish creationId) then Entity.assign newEntity "creationId" creationId
    else newEntity in
  t ← now;
  let newEntity := Entity.assign newEntity "timestamp" t in
  attributes ← liftO (js_get creationMessage "attributes");
  newEntity ← liftO (creation_attributes attributes (own_keys attributes) newEntity);
  modify (with_entities <[entityViewID := newEntity]>);;
  index ← gets clientEntities;
  match index !! Client.id client with
  | Some ids => modify (with_clientEntities <[Client.id client := ids ++ [entityViewID]]>)
  | None => modify (with_clientEntities <[Client.id client := [entityViewID]]>)
  end.

(** *** setAttribute *)

Definition dquote : string := String (ascii_of_nat 34) EmptyString.

Fixpoint entity_attributes_set_all (key : string) (attributesToSet : JsVal)
    (keys : list string) : M unit :=
  match keys with
  | [] => mret tt
  | k :: keys' =>
      value ← liftO (js_get attributesToSet k);
      entity_attributes_set key k value;;
      entity_attributes_set_all key attributesToSet keys'
  end.

Definition user_attributes_set (key : string) (k : string) (v : JsVal) : M unit := λ st,
  match networkedUsers st !! key with
  | Some u =>
      if nullish v then (Throw MapSchemaError, st)
      else
        (Ret tt,
         with_users <[key := User.mk (User.props u) (<[k := v]> (User.attributes u))]> st)
  | None => (Throw TypeError, st)
  end.

Fixpoint user_attributes_set_all (key : string) (attributesToSet : JsVal)
    (keys : list string) : M unit :=
  match keys with
  | [] => mret tt
  | k :: keys' =>
      value ← liftO (js_get attributesToSet k);
      user_attributes_set key k value;;
      user_attributes_set_all key attributesToSet keys'
  end.

Definition user_assign (key : string) (p : string) (v : JsVal) : M unit := λ st,
  match networkedUsers st !! key with
  | Some u => (Ret tt, with_users <[key := User.assign u p v]> st)
  | None => (Throw TypeError, st)
  end.

Definition setAttribute (client : Client.t) (attributeUpdateMessage : JsVal) : M unit :=
  if nullish attributeUpdateMessage then mret tt
  else
    entityId ← liftO (js_get attributeUpdateMessage "entityId");
    userId ← liftO (js_get attributeUpdateMessage "userId");
    attributesToSet ← liftO (js_get attributeUpdateMessage "attributesToSet");
    if (nullish entityId && nullish userId) || nullish attributesToSet then mret tt
    else if truthy entityId then
      key ← key_of entityId;
      entities ← gets networkedEntities;
      if negb (bool_decide (is_Some (entities !! key))) then mret tt
      else
        t ← now;
        entity_assign key "timestamp" t;;
        entity_attributes_set_all key attributesToSet (own_keys attributesToSet)
    else if truthy userId then
      key ← key_of userId;
      users ← gets networkedUsers;
      if negb (bool_decide (is_Some (users !! key))) then
        emit (Log Error
          ("Set Attribute - User Attribute - Room does not have networked user with Id - "
             +:+ dquote +:+ key +:+ dquote))
      else
        t ← now;
        user_assign key "timestamp" t;;
        user_attributes_set_all key attributesToSet (own_keys attributesToSet)
    else mret tt.

(** *** onJoin *)

Definition profile_fields : list string :=
  ["account"; "userName"; "headMat"; "headColor"; "hairMat"; "hairColor";
   "clothMat"; "clothColor"; "shoeMat"; "shoeColor"; "glassMat"; "glassColor";
   "maskMat"; "maskColor"].

Fixpoint read_fields (options : JsVal) (names : list string) : outcome (list (string * JsVal)) :=
  match names with
  | [] => mret []
  | p :: names' =>
      v ← js_get options p;
      rest ← read_fields options names';
      mret ((p, v) :: rest)
  end.

(** A field of a record as [toJSON()] gives it: a field that holds [null]
    or [undefined] is left out of the object, and reads as [undefined]. *)
Definition json_field (v : JsVal) : JsVal := if nullish v then VUndefined else v.

(** The scan of [networkedUsers.toJSON()] for a record with the account of
    the new user. *)
Definition account_taken (users : gmap string User.t) (newNetworkedUser : User.t) : bool :=
  existsb (λ kv, strict_eq (json_field (User.account (snd kv))) (User.account newNetworkedUser))
    (map_to_list users).

Definition onJoin (client : Client.t) (options : JsVal) : M unit :=
  emit (Log Info ("Client joined!- " +:+ Client.sessionId client +:+ " ***"));;
  profile ← liftO (read_fields options profile_fields);
  let newNetworkedUser :=
    User.assign_all User.new
      (("id", VStr (Client.id client)) :: ("sessionId", VStr (Client.sessionId client))
         :: profile) in
  users ← gets networkedUsers;
  if account_taken users newNetworkedUser then
    emit (Send client (VStr "WalletNotPass") (PVal (VStr "")))
  else
    modify (with_users <[Client.sessionId client := newNetworkedUser]>);;
    emit (Send client (VStr "onJoin") (PUser newNetworkedUser)).

(** *** onLeave

    [onLeave] is an [async] function: it runs up to
    [await this.allowReconnection(client, 10)] and is resumed later, when
    the promise settles, with other handlers running in between.  The two
    parts are [onLeave] and [onLeave_resume]; the body of the [catch] block
    is [onLeave_catch]. *)

Inductive LeaveStatus := Left | AwaitingReconnection.

(** How the promise of [allowReconnection] settles. *)
Inductive Reconnection :=
| Reconnected (newClient : Client.t)
| Expired.

Definition onLeave_catch (client : Client.t) : M unit :=
  emit (Log Info ("disconnected! client: " +:+ Client.id client));;
  emit (Log Silly ("*** Removing Networked User and Entity " +:+ Client.id client +:+ " ***"));;
  modify (with_users (delete (Client.sessionId client)));;
  index ← gets clientEntities;
  match index !! Client.id client with
  | Some allClientEntities =>
      modify (with_entities (λ entities,
        fold_left (λ entities element, delete element entities) allClientEntities entities));;
      modify (with_clientEntities (delete (Client.id client)));;
      controller ← gets customMethodController;
      match controller with
      | Some _ => emit (Hook ProcessUserLeft)
      | None => mret tt
      end
  | None =>
      emit (Log Error ("Can't remove entities for " +:+ Client.id client
                         +:+ " - No entry in Client Entities!"))
  end.

Definition onLeave (client : Client.t) (consented : bool) : M LeaveStatus :=
  networkedUser ← gets (λ st, networkedUsers st !! Client.sessionId client);
  match networkedUser with
  | Some u =>
      modify (with_users <[Client.sessionId client := User.assign u "connected" (VBool false)]>)
  | None => mret tt
  end;;
  emit (Log Silly ("*** User Leave - " +:+ Client.sessionId client +:+ " ***"));;
  if consented then
    onLeave_catch client;;
    mret Left
  else
    emit (Log Info ("let's wait for reconnection for client: " +:+ Client.sessionId client));;
    mret AwaitingReconnection.

Definition onLeave_resume (client : Client.t) (settled : Reconnection) : M unit :=
  match settled with
  | Reconnected newClient => emit (Log Info ("reconnected! client: " +:+ Client.id newClient))
  | Expired => onLeave_catch client
  end.

(** *** The simulation interval *)
Definition onSimulationInterval (dt : Number.t) : M unit :=
  modify (with_serverTime (λ t, Number.add t dt));;
  customLogic ← gets customMethodController;
  match customLogic with
  | Some _ => emit (Hook (ProcessLogic dt))
  | None => mret tt
  end.

(** *** onCreate

    [defaultRoomId] is the identifier the framework gave the room;
    [importError] is the error of the dynamic import of the logic file, if
    it failed. *)
Definition onCreate (defaultRoomId : JsVal) (importError : option string) (options : JsVal)
    : outcome Room :=
  id ← js_get options "roomId";
  logic ← js_get options "logic";
  let customLogic :=
    match importError with
    | None => Some (LogicModule logic)
    | Some _ => None
    end in
  mret (mkRoom ∅ ∅ ∅ Number.zero customLogic 25 options
          (if negb (nullish id) then id else defaultRoomId)
          ([Log Info "*********************** PACVERSE ROOM CREATED ***********************";
            Log Info "***********************"]
           ++ match importError with
              | None => [Hook (InitializeLogic options)]
              | Some e => [Log Error e; Log Debug "NO Custom Logic Set"]
              end)).

(** ** The room as a transition system *)

Inductive Event :=
| OnJoin (client : Client.t) (options : JsVal)
| OnLeave (client : Client.t) (consented : bool)
| OnLeaveSettled (client : Client.t) (settled : Reconnection)
| OnPing (client : Client.t)
| OnCustomMethod (client : Client.t) (request : JsVal)
| OnEntityUpdate (client : Client.t) (entityUpdateArray : list JsVal)
| OnSetAttribute (client : Client.t) (attributeUpdateMessage : JsVal)
| OnRemoveEntity (client : Client.t) (removeId : JsVal)
| OnCreateEntity (entityViewID : string) (client : Client.t) (creationMessage : JsVal)
| OnTick (dt : Number.t).

Definition handle (ev : Event) : M unit :=
  match ev with
  | OnJoin client options => onJoin client options
  | OnLeave client consented => onLeave client consented;; mret tt
  | OnLeaveSettled client settled => onLeave_resume client settled
  | OnPing client => onPing client
  | OnCustomMethod client request => onCustomMethod client request
  | OnEntityUpdate client data => onEntityUpdateMessage client data
  | OnSetAttribute client msg => setAttribute client msg
  | OnRemoveEntity client removeId => onRemoveEntity client removeId
  | OnCreateEntity entityViewID client msg => onCreateEntity entityViewID client msg
  | OnTick dt => onSimulationInterval dt
  end.

(** The room after an event, whether its handler returned or threw. *)
Definition after (ev : Event) (st : Room) : Room := snd (handle ev st).

Definition after_all (evs : list Event) (st : Room) : Room :=
  fold_left (λ st ev, after ev st) evs st.

Inductive reachable : Room → Prop :=
| reachable_created defaultRoomId importError options st :
    onCreate defaultRoomId importError options = Ret st → reachable st
| reachable_after ev st : reachable st → reachable (after ev st).

(** ** Invariants *)



(** Every entity owned by [c] is listed under [c]. *)
Definition index_covers (st : Room) (c : string) : Prop :=
  ∀ id e, networkedEntities st !! id = Some e → Entity.ownerId e = VStr c →
    ∃ ids, clientEntities st !! c = Some ids ∧ id ∈ ids.




(** No two admitted users have the same account (as [===] compares),
    unless the account of both is [null]. *)
Definition accounts_unique (st : Room) : Prop :=
  ∀ k1 k2 u1 u2, networkedUsers st !! k1 = Some u1 → networkedUsers st !! k2 = Some u2 →
    k1 ≠ k2 → strict_eq (User.account u1) (User.account u2) = true →
    User.account u1 = VNull ∧ User.account u2 = VNull.

(** ** A sample session, for the concrete instances below *)

Definition alice : Client.t := Client.mk "alice" "alice".
Definition bob : Client.t := Client.mk "bob" "bob".

Definition created : Room :=
  mkRoom ∅ ∅ ∅ Number.zero (Some (LogicModule (VStr "demo"))) 25
    (VObj [("logic", VStr "demo")]) (VStr "room-1")
    [Log Info "*********************** PACVERSE ROOM CREATED ***********************";
     Log Info "***********************";
     Hook (InitializeLogic (VObj [("logic", VStr "demo")]))].

Definition carol : Client.t := Client.mk "carol" "carol".

(** The room after alice joined and created the entity [e1] with a score of
    5, at server time 16.5. *)
Definition sample_attributes : gmap string JsVal := {[ "score" := VStr "5" ]}.

Definition sample_entity : Entity.t :=
  Entity.mk
    {[ "id" := VStr "e1"; "ownerId" := VStr "alice";
       "timestamp" := VNum (Number.parse "16.5") ]}
    (AMap sample_attributes).

Definition sample_user : User.t :=
  User.assign_all User.new
    [("id", VStr "alice"); ("sessionId", VStr "alice"); ("account", VStr "0xA")].

Definition sample_room : Room :=
  mkRoom {[ "e1" := sample_entity ]} {[ "alice" := sample_user ]} {[ "alice" := ["e1"] ]}
    (Number.parse "16.5") (Some (LogicModule (VStr "demo"))) 25
    (VObj [("logic", VStr "demo")]) (VStr "room-1") [].

(** The token sequence of the increment example, followed by [rest]. *)
Definition score_update (id : string) (rest : list JsVal) : list JsVal :=
  [VStr id; VStr "attributes"; VStr "score"; VStr "inc"; VStr "3"] ++ rest.

(** A handler leaves a view of the room as it found it, whether it returns
    or throws. *)
Definition keeps {A V} (view : Room → V) (m : M A) : Prop :=
  ∀ st, view (snd (m st)) = view st.

(** The message [{ entityId: "e1", userId: "alice", attributesToSet:
    { color: "red" } }], with both targets present. *)
Definition both_targets : JsVal :=
  VObj [("entityId", VStr "e1"); ("userId", VStr "alice");
        ("attributesToSet", VObj [("color", VStr "red")])].

(** [options.p], for options that are neither [undefined] nor [null]. *)
Definition field (v : JsVal) (k : string) : JsVal :=
  match js_get v k with
  | Ret r => r
  | Throw _ => VUndefined
  end.

(** The user record [onJoin] builds for a client and its options. *)
Definition joining_user (client : Client.t) (options : JsVal) : User.t :=
  User.assign_all User.new
    (("id", VStr (Client.id client)) :: ("sessionId", VStr (Client.sessionId client))
       :: ((λ p, (p, field options p)) <$> profile_fields)).

(** The trace a join leaves: the log line, then what is sent back. *)
Definition join_trace (client : Client.t) (type : string) (payload : Payload) : list Effect :=
  [Log Info ("Client joined!- " +:+ Client.sessionId client +:+ " ***");
   Send client (VStr type) payload].

(** The user record under key [k] is the only one whose account is [===]
    to [account]. *)
Definition only_holder (users : gmap string User.t) (account : JsVal) (k : string) : Prop :=
  (∃ u, users !! k = Some u ∧ strict_eq (User.account u) account = true)
  ∧ ∀ k' u', users !! k' = Some u' → strict_eq (User.account u') account = true → k' = k.

(** A room whose only user, alice, joined with the account [null], and
    her record. *)
Definition null_account_room : Room :=
  after (OnJoin alice (VObj [("account", VNull)])) created.

Definition null_account_user : User.t :=
  default User.new (networkedUsers null_account_room !! "alice").

(** The two log lines that open the [catch] block of [onLeave]. *)
Definition catch_log (client : Client.t) : list Effect :=
  [Log Info ("disconnected! client: " +:+ Client.id client);
   Log Silly ("*** Removing Networked User and Entity " +:+ Client.id client +:+ " ***")].

Definition no_entry_log (client : Client.t) : Effect :=
  Log Error ("Can't remove entities for " +:+ Client.id client
               +:+ " - No entry in Client Entities!").

Definition leave_log (client : Client.t) : Effect :=
  Log Silly ("*** User Leave - " +:+ Client.sessionId client +:+ " ***").

(** A reachable room in which the index and the owner ids disagree: bob
    created [e1], then set its field [ownerId] to alice's id. *)
Definition divergent_room : Room :=
  after_all
    [OnJoin alice (VObj [("account", VStr "0xA")]);
     OnJoin bob (VObj [("account", VStr "0xB")]);
     OnCreateEntity "e1" bob (VObj []);
     OnEntityUpdate bob [VStr "e1"; VStr "ownerId"; VStr "alice"]]
    created.

(** A room with a logic module in which bob has joined and owns nothing. *)
Definition lobby : Room :=
  after_all [OnJoin bob (VObj [("account", VStr "0xB")])] created.



(** What the account invariant looks at: the account of each user. *)
Definition accounts_view (st : Room) : gmap string JsVal :=
  User.account <$> networkedUsers st.

(** The tokens of a list of complete [key, value] pairs of strings. *)
Definition pair_tokens (pairs : list (string * string)) : list JsVal :=
  flat_map (λ kv, [VStr (fst kv); VStr (snd kv)]) pairs.

(** An attribute-mode update for [id]: complete pairs, then a property
    with no value token. *)
Definition odd_update (id : string) (pairs : list (string * string)) (property : string)
    : list JsVal :=
  VStr id :: VStr "attributes" :: pair_tokens pairs ++ [VStr property].

(** ** Which events can change which part of the room *)

(** Events whose handlers write the user collection. *)
Definition writes_users (ev : Event) : bool :=
  match ev with
  | OnJoin _ _ | OnLeave _ _ | OnLeaveSettled _ Expired | OnSetAttribute _ _ => true
  | _ => false
  end.

(** Events whose handlers write the Ownership Index. *)
Definition writes_index (ev : Event) : bool :=
  match ev with
  | OnCreateEntity _ _ _ | OnLeave _ true | OnLeaveSettled _ Expired => true
  | _ => false
  end.

Definition is_tick (ev : Event) : bool :=
  match ev with OnTick _ => true | _ => false end.

Definition is_createEntity (ev : Event) : bool :=
  match ev with OnCreateEntity _ _ _ => true | _ => false end.


(** The ids of the entities of the room. *)
Definition entity_ids (st : Room) : gset string := dom (networkedEntities st).


(** ** What an update stores *)

(** The reading of the clock that stamps entities and users:
    [parseFloat(this.serverTime.toString())]. *)
Definition clock (st : Room) : JsVal :=
  VNum (Number.parse (Number.toString (serverTime st))).

(** A value token that the update loop takes as a value: anything but the
    string ["inc"]. *)
Definition plain (v : JsVal) : bool := negb (strict_eq v (VStr "inc")).

(** A value that ToString converts without raising. *)
Definition convertible (v : JsVal) : bool :=
  match js_toString v with Ret _ => true | Throw _ => false end.

(** A value on which [toString()] can be called and returns. *)
Definition printable (v : JsVal) : bool := negb (nullish v) && convertible v.

(** The string of a convertible value. *)
Definition text (v : JsVal) : string :=
  match js_toString v with Ret s => s | Throw _ => "" end.

(** The names that belong to the language or to the schema library, not
    to the entity: ["__proto__"], and the names in [_] or [$] under which
    the library keeps the values of the declared fields and its change
    tree.  An assignment to one of them is not the making of a field of
    that name. *)
Definition internal_name (p : string) : bool :=
  match p with
  | String c _ => Ascii.eqb c "_" || Ascii.eqb c "$"
  | EmptyString => false
  end.

(** A string of ASCII characters only: its characters, its code units and
    its bytes are the same. *)
Definition ascii_only (s : string) : bool :=
  forallb (λ c, (N_of_ascii c <? 128)%N) (list_ascii_of_string s).

(** The tokens of a list of [name, value] pairs. *)
Definition field_tokens (fields : list (string * JsVal)) : list JsVal :=
  flat_map (λ kv, [VStr (fst kv); snd kv]) fields.

(** An attribute map after the pairs are stored in order, each value as
    its string. *)
Definition store_pairs (pairs : list (string * JsVal)) (m : gmap string JsVal)
    : gmap string JsVal :=
  fold_left (λ m kv, <[fst kv := VStr (text (snd kv))]> m) pairs m.

(** The fields of an entity after the pairs are assigned in order, each
    value as it came. *)
Definition assign_props (fields : list (string * JsVal)) (props : gmap string JsVal)
    : gmap string JsVal :=
  fold_left (λ props kv, <[fst kv := snd kv]> props) fields props.

(** An attribute map after [set(key, attributesToSet[key])] for each of the
    keys, in order. *)
Definition set_keys (attributesToSet : JsVal) (keys : list string) (m : gmap string JsVal)
    : gmap string JsVal :=
  fold_left (λ m k, <[k := field attributesToSet k]> m) keys m.

(** The error line of [setAttribute] for a user id that names no user. *)
Definition no_user_log (key : string) : Effect :=
  Log Error
    ("Set Attribute - User Attribute - Room does not have networked user with Id - "
       +:+ dquote +:+ key +:+ dquote).

(** ** What createEntity stores *)

(** The keys of [creationMessage.attributes] that do not become
    attributes. *)
Definition reserved (key : string) : bool :=
  String.eqb key "creationPos" || String.eqb key "creationRot".

(** [parseFloat(creationMessage.attributes[key][i])] *)
Definition coordinate (attributes : JsVal) (key i : string) : JsVal :=
  VNum (Number.parse (text (field (field attributes key) i))).

(** The fields of the new entity after the round of the loop on [key]. *)
Definition creation_props (attributes : JsVal) (props : gmap string JsVal) (key : string)
    : gmap string JsVal :=
  if String.eqb key "creationPos" then
    <["zPos" := coordinate attributes key "2"]>
      (<["yPos" := coordinate attributes key "1"]>
         (<["xPos" := coordinate attributes key "0"]> props))
  else if String.eqb key "creationRot" then
    <["wRot" := coordinate attributes key "3"]>
      (<["zRot" := coordinate attributes key "2"]>
         (<["yRot" := coordinate attributes key "1"]>
            (<["xRot" := coordinate attributes key "0"]> props)))
  else props.

(** Its attribute map after that round. *)
Definition creation_attrs (attributes : JsVal) (m : gmap string JsVal) (key : string)
    : gmap string JsVal :=
  if reserved key then m else <[key := VStr (text (field attributes key))]> m.

(** The fields [id], [ownerId], [timestamp] and [creationId] of a new
    entity, before the loop over the attributes. *)
Definition creation_header (st : Room) (entityViewID : string) (client : Client.t)
    (creationMessage : JsVal) : gmap string JsVal :=
  let props :=
    <["ownerId" := VStr (Client.id client)]> (<["id" := VStr entityViewID]> ∅) in
  <["timestamp" := clock st]>
    (if nullish (field creationMessage "creationId") then <["timestamp" := VNum (serverTime st)]> props
     else <["creationId" := field creationMessage "creationId"]>
            (<["timestamp" := VNum (serverTime st)]> props)).

(** A creation message with a creation id, a numeric attribute and a
    position of two components. *)
Definition spawn_message : JsVal :=
  VObj [("creationId", VStr "c1");
        ("attributes",
         VObj [("score", VNum (Number.of_Z 5));
               ("creationPos", VArr [VNum (Number.of_Z 1); VStr "2.5"])])].

(** The entity that [spawn_message] creates for bob in the sample room,
    under the id [e2]. *)
Definition spawned : Entity.t :=
  default Entity.new
    (networkedEntities (after (OnCreateEntity "e2" bob spawn_message) sample_room) !! "e2").

(** The entity [e1] of the sample room after bob's direct-field update
    [[e1, "timestamp", "0", "xPos"]]. *)
Definition restamped : Entity.t :=
  default Entity.new
    (networkedEntities
       (after (OnEntityUpdate bob [VStr "e1"; VStr "timestamp"; VStr "0"; VStr "xPos"])
          sample_room) !! "e1").

(** A creation message whose attribute [hp] is [null]. *)
Definition null_attribute_message : JsVal :=
  VObj [("attributes", VObj [("score", VStr "5"); ("hp", VNull)])].

(** What [onCreate] fixes for the life of the room. *)
Definition configuration (st : Room) : option CustomLogic * nat * JsVal * JsVal :=
  (customMethodController st, maxClients st, roomOptions st, roomId st).

(** The state of the room apart from its configuration and its trace. *)
Definition contents (st : Room)
    : gmap string Entity.t * gmap string User.t * gmap string (list string) * Number.t :=
  (networkedEntities st, networkedUsers st, clientEntities st, serverTime st).

(** The entity under an id, if there is one. *)
Definition entity_at (id : string) (st : Room) : option Entity.t :=
  networkedEntities st !! id.

(** ** What can change in a user record *)

(** The field [p] of every user record. *)
Definition user_field (p : string) (st : Room) : gmap string JsVal :=
  (λ u, User.get u p) <$> networkedUsers st.

(** A join under the session [k]. *)
Definition is_join_of (k : string) (ev : Event) : bool :=
  match ev with
  | OnJoin client _ => String.eqb (Client.sessionId client) k
  | _ => false
  end.

(** The sample room after alice left without consent, and her record in
    it. *)
Definition away : Room := after (OnLeave alice false) sample_room.

Definition away_user : User.t := default User.new (networkedUsers away !! "alice").

(** A [setAttribute] that names the fields [connected] and [account] of
    alice's record, and her record after bob has sent it. *)
Definition rewrite_user : Event :=
  OnSetAttribute bob
    (VObj [("userId", VStr "alice");
           ("attributesToSet", VObj [("connected", VBool true); ("account", VStr "0xB")])]).

Definition rewritten_user : User.t :=
  default User.new (networkedUsers (after rewrite_user away) !! "alice").

(** ** Runs that keep the owners *)



(** * The item controller

    [saveItem] and [loadItem] are request handlers over the item service
    of [../services/item], which is not among the sources: the handlers
    are embedded over any service, given as its two operations on a store
    of any type. *)

Module Item.

(** How an [await]ed call, or the handler itself, fails. *)
Inductive Failure :=
| Rejected (reason : JsVal)
| Thrown (e : Exn)
| ReferenceError (name : string).

(** What a handler does to the outside, in order. *)
Inductive Output :=
| ConsoleLog (v : JsVal)
| Json (v : JsVal).

Record Service (D : Type) := mkService {
  findItemByAccount : JsVal → D → (Failure + JsVal) * D;
  addItem : JsVal → D → (Failure + JsVal) * D
}.
Arguments findItemByAccount {D} _ _ _.
Arguments addItem {D} _ _ _.

(** The settled promise of a handler, the store, and what was logged and
    sent. *)
Definition Run (D : Type) : Type := (Failure + unit) * D * list Output.

(** [body] is [req.body]. *)
Definition saveItem {D} (itemService : Service D) (body : JsVal) (db : D) : Run D :=
  match js_get body "account" with
  | Throw e => (inl (Thrown e), db, [])
  | Ret account =>
      match findItemByAccount itemService account db with
      | (inl failure, db) => (inl failure, db, [ConsoleLog body])
      | (inr fuerniture, db) =>
          if negb (truthy fuerniture) then
            match addItem itemService body db with
            | (inl failure, db) => (inl failure, db, [ConsoleLog body])
            | (inr result, db) => (inr tt, db, [ConsoleLog body; Json result])
            end
          else
            (* [furnitureService] is declared nowhere *)
            (inl (ReferenceError "furnitureService"), db, [ConsoleLog body])
      end
  end.

Definition loadItem {D} (itemService : Service D) (body : JsVal) (db : D) : Run D :=
  match js_get body "account" with
  | Throw e => (inl (Thrown e), db, [])
  | Ret account =>
      match findItemByAccount itemService account db with
      | (inl failure, db) => (inl failure, db, [])
      | (inr result, db) => (inr tt, db, [Json result])
      end
  end.

(** A service finds what it has added: after [addItem(body)] is fulfilled,
    [findItemByAccount(body.account)] is fulfilled with an item. *)
Definition finds_what_it_added {D} (itemService : Service D) : Prop :=
  ∀ body db result db',
    addItem itemService body db = (inr result, db') →
    ∃ item db'',
      findItemByAccount itemService (field body "account") db' = (inr item, db'')
      ∧ truthy item = true.

(** A service that keeps one item document per account in a map. *)
Definition document (body : JsVal) : JsVal :=
  VObj [("account", field body "account"); ("item", body)].

Definition in_memory : Service (gmap string JsVal) :=
  mkService _
    (λ account db, (inr (default VNull (db !! text account)), db))
    (λ body db,
       (inr (document body), <[text (field body "account") := document body]> db)).

End Item.

(** * Properties *)

(** ** Running a handler step by step *)

Lemma bind_run {A B} (m : M A) (k : A → M B) st a st' :
  m st = (Ret a, st') → (m ≫= k) st = k a st'.
Proof. intros H. unfold mbind, M_bind. by rewrite H. Qed.

Lemma bind_throw {A B} (m : M A) (k : A → M B) st e st' :
  m st = (Throw e, st') → (m ≫= k) st = (Throw e, st').
Proof. intros H. unfold mbind, M_bind. by rewrite H. Qed.

Lemma read_entity_run st key e :
  networkedEntities st !! key = Some e → read_entity key st = (Ret e, st).
Proof. intros H. unfold read_entity. by rewrite H. Qed.

Lemma entity_attributes_get_run st key e m k :
  networkedEntities st !! key = Some e → Entity.attributes e = AMap m →
  entity_attributes_get key k st = (Ret (default VUndefined (m !! k)), st).
Proof.
  intros He Hm. unfold entity_attributes_get.
  rewrite (bind_run _ _ _ _ _ (read_entity_run _ _ _ He)). by rewrite Hm.
Qed.

Lemma entity_attributes_set_run st key e m k v :
  networkedEntities st !! key = Some e → Entity.attributes e = AMap m →
  nullish v = false →
  entity_attributes_set key k v st =
    (Ret tt, with_entities <[key := Entity.mk (Entity.props e) (AMap (<[k := v]> m))]> st).
Proof.
  intros He Hm Hv. unfold entity_attributes_set.
  rewrite (bind_run _ _ _ _ _ (read_entity_run _ _ _ He)). by rewrite Hm, Hv.
Qed.

Lemma entity_assign_run st key e p v :
  networkedEntities st !! key = Some e →
  entity_assign key p v st = (Ret tt, with_entities <[key := Entity.assign e p v]> st).
Proof.
  intros He. unfold entity_assign.
  by rewrite (bind_run _ _ _ _ _ (read_entity_run _ _ _ He)).
Qed.

Lemma update_loop_S fuel key data startIndex i :
  update_loop (S fuel) key data startIndex i =
    if negb (i <? length data)%nat then mret tt
    else update_round key data startIndex i ≫= update_loop fuel key data startIndex.
Proof. reflexivity. Qed.

Lemma with_entities_twice f g st :
  with_entities f (with_entities g st) = with_entities (f ∘ g) st.
Proof. reflexivity. Qed.

(** ** The attribute protocol *)

(** A round of the loop on [key, "inc", amount], in attribute mode. *)
Lemma inc_round st key e m data i k cur x y :
  networkedEntities st !! key = Some e → Entity.attributes e = AMap m →
  at_index data (i + 1) = VStr "inc" →
  js_toString (at_index data i) = Ret k →
  m !! k = Some cur →
  parseFloat cur = Ret x →
  parseFloat (at_index data (i + 2)) = Ret y →
  update_round key data 2 i st =
    (Ret (i + 3)%nat,
     with_entities <[key := Entity.mk (Entity.props e)
        (AMap (<[k := VStr (Number.toString (Number.add x y))]> m))]> st).
Proof.
  intros He Hm Hinc Hk Hcur Hx Hy. unfold update_round.
  rewrite Hinc. cbn [strict_eq String.eqb Ascii.eqb Bool.eqb Nat.eqb].
  unfold key_of. rewrite Hk, Hy.
  erewrite bind_run; cycle 1.
  { erewrite bind_run by reflexivity.
    erewrite bind_run by (apply (entity_attributes_get_run _ _ _ _ _ He Hm)).
    rewrite Hcur. change (default VUndefined (Some cur)) with cur. rewrite Hx.
    erewrite bind_run by reflexivity.
    erewrite bind_run by reflexivity. reflexivity. }
  cbn beta iota.
  erewrite bind_run; cycle 1.
  { erewrite bind_run by reflexivity.
    erewrite bind_run by reflexivity.
    by apply (entity_attributes_set_run _ _ _ _ _ _ He Hm). }
  unfold mret, M_ret. by replace (i + 1 + 2)%nat with (i + 3)%nat by lia.
Qed.

(** A round of the loop on [key, value] with a string value other than
    ["inc"], in attribute mode. *)
Lemma plain_round st key e m data i k v :
  networkedEntities st !! key = Some e → Entity.attributes e = AMap m →
  at_index data i = VStr k →
  at_index data (i + 1) = VStr v → v ≠ "inc" →
  update_round key data 2 i st =
    (Ret (i + 2)%nat,
     with_entities <[key := Entity.mk (Entity.props e) (AMap (<[k := VStr v]> m))]> st).
Proof.
  intros He Hm Hk Hv Hne. unfold update_round.
  rewrite Hk, Hv. cbn [strict_eq].
  rewrite (proj2 (String.eqb_neq v "inc")) by done.
  erewrite bind_run by reflexivity. cbn beta iota. cbn [Nat.eqb].
  erewrite bind_run; cycle 1.
  { unfold key_of. erewrite bind_run by reflexivity.
    erewrite bind_run by reflexivity.
    by apply (entity_attributes_set_run _ _ _ _ _ _ He Hm). }
  reflexivity.
Qed.

(** A round of the loop whose value token is missing, in attribute mode:
    [undefined.toString()]. *)
Lemma missing_value_round st key data i k :
  at_index data i = VStr k →
  at_index data (i + 1) = VUndefined →
  update_round key data 2 i st = (Throw TypeError, st).
Proof.
  intros Hk Hv. unfold update_round. rewrite Hk, Hv. cbn [strict_eq].
  erewrite bind_run by reflexivity. cbn beta iota. cbn [Nat.eqb].
  erewrite bind_throw; [reflexivity|].
  unfold key_of. erewrite bind_run by reflexivity.
  by erewrite bind_throw.
Qed.

Lemma five_plus_three :
  parseFloat (VStr "5") = Ret (Number.parse "5")
  ∧ parseFloat (VStr "3") = Ret (Number.parse "3")
  ∧ Number.toString (Number.add (Number.parse "5") (Number.parse "3")) = "8".
Proof. vm_compute. auto. Qed.

Lemma entity_get_assign_ne e p q v :
  p ≠ q → q ≠ "attributes" → Entity.get (Entity.assign e q v) p = Entity.get e p.
Proof.
  intros Hpq Hq. unfold Entity.assign, Entity.get.
  rewrite (proj2 (String.eqb_neq q "attributes")) by done.
  cbn. by rewrite lookup_insert_ne.
Qed.

Lemma entity_get_assign_eq e p v :
  p ≠ "attributes" → Entity.get (Entity.assign e p v) p = v.
Proof.
  intros Hp. unfold Entity.assign, Entity.get.
  rewrite (proj2 (String.eqb_neq p "attributes")) by done.
  cbn. by rewrite lookup_insert_eq.
Qed.

(** The start of [onEntityUpdate] on an existing entity, in attribute mode:
    the loop runs from cursor 2, then the entity is stamped. *)
Lemma onEntityUpdate_attribute_mode st clientID id e rest :
  networkedEntities st !! id = Some e →
  onEntityUpdate clientID (VStr id :: VStr "attributes" :: rest) st =
    (update_loop (S (S (length rest))) id (VStr id :: VStr "attributes" :: rest) 2 2;;
     t ← now; entity_assign id "timestamp" t) st.
Proof.
  intros He. unfold onEntityUpdate.
  cbn [at_index nth length strict_eq String.eqb Ascii.eqb Bool.eqb].
  unfold key_of. rewrite (bind_run _ _ st id st) by reflexivity.
  rewrite (bind_run _ _ st (networkedEntities st) st) by reflexivity.
  rewrite He. by rewrite bool_decide_eq_true_2 by eauto.
Qed.

(** The round of the increment example, whatever follows the amount. *)
Lemma score_round st id e m rest :
  networkedEntities st !! id = Some e → Entity.attributes e = AMap m →
  m !! "score" = Some (VStr "5") →
  update_round id (score_update id rest) 2 2 st
  = (Ret 5%nat,
     with_entities
       <[id := Entity.mk (Entity.props e) (AMap (<["score" := VStr "8"]> m))]> st).
Proof.
  intros He Hm Hs. destruct five_plus_three as (H5 & H3 & H8).
  rewrite <- H8. by apply (inc_round st id e m _ 2 "score" (VStr "5")).
Qed.

(** C4. On an entity whose attribute [score] holds ["5"], the update
    [[id, "attributes", "score", "inc", "3"]] returns and leaves [score] at
    ["8"] (5 and 3 parsed, added, printed), with nothing else in the
    attribute map, no other field and no other entity changed; the entity
    is stamped with [parseFloat(serverTime.toString())], which is the
    server time whenever the server time reads back from its own decimal
    form; a pair [k, v] that follows the amount token is read as a pair, so
    the amount token was skipped. *)
Theorem increment_adds_and_skips_amount (st : Room) (clientID id : string)
    (e : Entity.t) (m : gmap string JsVal) :
  networkedEntities st !! id = Some e →
  Entity.attributes e = AMap m →
  m !! "score" = Some (VStr "5") →
  (∃ e', onEntityUpdate clientID (score_update id []) st
           = (Ret tt, with_entities <[id := e']> st)
         ∧ Entity.attributes e' = AMap (<["score" := VStr "8"]> m)
         ∧ Entity.timestamp e' = VNum (Number.parse (Number.toString (serverTime st)))
         ∧ (Number.parse (Number.toString (serverTime st)) = serverTime st →
            Entity.timestamp e' = VNum (serverTime st))
         ∧ ∀ p, p ≠ "timestamp" → Entity.get e' p = Entity.get e p)
  ∧ (∀ k v, v ≠ "inc" →
       ∃ e', onEntityUpdate clientID (score_update id [VStr k; VStr v]) st
               = (Ret tt, with_entities <[id := e']> st)
             ∧ Entity.attributes e' = AMap (<[k := VStr v]> (<["score" := VStr "8"]> m))
             ∧ Entity.timestamp e' = VNum (Number.parse (Number.toString (serverTime st)))
             ∧ ∀ p, p ≠ "timestamp" → Entity.get e' p = Entity.get e p).
Proof.
  intros He Hm Hs. split.
  - eexists. split; [|split; [|split; [|split]]].
    + unfold score_update. cbn [app].
      rewrite (onEntityUpdate_attribute_mode _ _ _ _ _ He).
      erewrite bind_run; cycle 1.
      { rewrite update_loop_S. cbn [length Nat.ltb Nat.leb negb].
        erewrite bind_run by apply (score_round st id e m [] He Hm Hs).
        rewrite update_loop_S. by cbn [length Nat.ltb Nat.leb negb]. }
      erewrite bind_run by reflexivity.
      erewrite entity_assign_run by apply lookup_insert_eq.
      change (serverTime (with_entities _ st)) with (serverTime st).
      rewrite with_entities_twice. unfold with_entities, compose.
      by rewrite insert_insert_eq.
    + reflexivity.
    + by apply entity_get_assign_eq.
    + intros Ht. unfold Entity.timestamp. rewrite entity_get_assign_eq by done.
      by rewrite Ht.
    + intros p Hp. by rewrite entity_get_assign_ne.
  - intros k v Hv. eexists. split; [|split; [|split]].
    + unfold score_update. cbn [app].
      rewrite (onEntityUpdate_attribute_mode _ _ _ _ _ He).
      erewrite bind_run; cycle 1.
      { rewrite update_loop_S. cbn [length Nat.ltb Nat.leb negb].
        erewrite bind_run by apply (score_round st id e m [VStr k; VStr v] He Hm Hs).
        rewrite update_loop_S. cbn [length Nat.ltb Nat.leb negb].
        erewrite bind_run; cycle 1.
        { eapply (plain_round _ id _ _ _ 5 k v); [apply lookup_insert_eq| | | |];
            reflexivity || done. }
        rewrite update_loop_S. by cbn [length Nat.ltb Nat.leb negb]. }
      erewrite bind_run by reflexivity.
      erewrite entity_assign_run by apply lookup_insert_eq.
      change (serverTime (with_entities _ (with_entities _ st))) with (serverTime st).
      rewrite !with_entities_twice. unfold with_entities, compose.
      by rewrite !insert_insert_eq.
    + reflexivity.
    + by apply entity_get_assign_eq.
    + intros p Hp. by rewrite entity_get_assign_ne.
Qed.

Lemma increment_adds_and_skips_amount_witness :
  (∃ e', onEntityUpdate "bob" (score_update "e1" []) sample_room
           = (Ret tt, with_entities <["e1" := e']> sample_room)
         ∧ Entity.attributes e' = AMap (<["score" := VStr "8"]> sample_attributes)
         ∧ Entity.timestamp e' = VNum (serverTime sample_room)
         ∧ ∀ p, p ≠ "timestamp" → Entity.get e' p = Entity.get sample_entity p)
  ∧ (∃ e', onEntityUpdate "bob" (score_update "e1" [VStr "hp"; VStr "7"]) sample_room
             = (Ret tt, with_entities <["e1" := e']> sample_room)
           ∧ Entity.attributes e'
             = AMap (<["hp" := VStr "7"]> (<["score" := VStr "8"]> sample_attributes))).
Proof.
  destruct (increment_adds_and_skips_amount sample_room "bob" "e1" sample_entity
              sample_attributes eq_refl eq_refl eq_refl)
    as [(e1 & Hrun1 & Hattr1 & _ & Htime1 & Hrest1) Hpair].
  split.
  - exists e1. split; [exact Hrun1|]. split; [exact Hattr1|].
    split; [apply Htime1; vm_compute; reflexivity | exact Hrest1].
  - destruct (Hpair "hp" "7") as (e2 & Hrun2 & Hattr2 & _); [done|].
    exists e2. by split.
Defined.

(** ** Views that a handler leaves alone *)

Lemma keeps_ret {A V} (view : Room → V) (a : A) : keeps view (mret a).
Proof. by intros st. Qed.

Lemma keeps_bind {A B V} (view : Room → V) (m : M A) (k : A → M B) :
  keeps view m → (∀ a, keeps view (k a)) → keeps view (m ≫= k).
Proof.
  intros Hm Hk st. unfold mbind, M_bind.
  specialize (Hm st). destruct (m st) as [[a|e] st1]; cbn in *.
  - by rewrite Hk.
  - done.
Qed.

Lemma keeps_gets {A V} (view : Room → V) (f : Room → A) : keeps view (gets f).
Proof. by intros st. Qed.

Lemma keeps_liftO {A V} (view : Room → V) (o : outcome A) : keeps view (liftO o).
Proof. by intros st. Qed.

Lemma keeps_throw {A V} (view : Room → V) (e : Exn) : keeps view (throw (A := A) e).
Proof. by intros st. Qed.

Lemma keeps_modify {V} (view : Room → V) (f : Room → Room) :
  (∀ st, view (f st) = view st) → keeps view (modify f).
Proof. intros H st. apply H. Qed.

Lemma keeps_emit {V} (view : Room → V) (e : Effect) :
  (∀ f st, view (with_trace f st) = view st) → keeps view (emit e).
Proof. intros H. apply keeps_modify. intros st. apply H. Qed.

Ltac keeps_step :=
  lazymatch goal with
  | |- keeps _ (mret _) => apply keeps_ret
  | |- keeps _ (gets _) => apply keeps_gets
  | |- keeps _ (liftO _) => apply keeps_liftO
  | |- keeps _ (throw _) => apply keeps_throw
  | |- keeps _ (key_of _) => apply keeps_liftO
  | |- keeps _ now => apply keeps_gets
  | |- keeps _ (emit _) => apply keeps_emit; reflexivity
  | |- keeps _ (modify _) => apply keeps_modify; reflexivity
  | |- keeps _ (_ ≫= _) => apply keeps_bind; [|intros ?]
  | |- keeps _ (if ?b then _ else _) => destruct b
  | |- keeps _ (match ?x with _ => _ end) => destruct x
  end.

Lemma user_assign_keeps {V} (view : Room → V) key p v :
  (∀ f st, view (with_users f st) = view st) → keeps view (user_assign key p v).
Proof.
  intros H st. unfold user_assign. destruct (networkedUsers st !! key); cbn; [apply H|done].
Qed.

Lemma user_attributes_set_keeps {V} (view : Room → V) key k v :
  (∀ f st, view (with_users f st) = view st) → keeps view (user_attributes_set key k v).
Proof.
  intros H st. unfold user_attributes_set.
  destruct (networkedUsers st !! key); [|done].
  destruct (nullish v); cbn; [done|apply H].
Qed.

Lemma user_attributes_set_all_keeps {V} (view : Room → V) key a keys :
  (∀ f st, view (with_users f st) = view st) →
  keeps view (user_attributes_set_all key a keys).
Proof.
  intros H. induction keys as [|k keys IH]; cbn [user_attributes_set_all].
  - apply keeps_ret.
  - repeat keeps_step; [by apply user_attributes_set_keeps | done].
Qed.

(** ** setAttribute *)

Lemma js_get_not_nullish v k r : js_get v k = Ret r → nullish v = false.
Proof. by destruct v. Qed.

Lemma truthy_not_nullish v : truthy v = true → nullish v = false.
Proof. by destruct v. Qed.

(** [setAttribute] once the three fields of the message are read. *)
Lemma setAttribute_fields st client msg entityId userId attributesToSet :
  js_get msg "entityId" = Ret entityId →
  js_get msg "userId" = Ret userId →
  js_get msg "attributesToSet" = Ret attributesToSet →
  setAttribute client msg st =
    (if (nullish entityId && nullish userId) || nullish attributesToSet then mret tt
     else if truthy entityId then
       key ← key_of entityId;
       entities ← gets networkedEntities;
       if negb (bool_decide (is_Some (entities !! key))) then mret tt
       else
         t ← now;
         entity_assign key "timestamp" t;;
         entity_attributes_set_all key attributesToSet (own_keys attributesToSet)
     else if truthy userId then
       key ← key_of userId;
       users ← gets networkedUsers;
       if negb (bool_decide (is_Some (users !! key))) then
         emit (Log Error
           ("Set Attribute - User Attribute - Room does not have networked user with Id - "
              +:+ dquote +:+ key +:+ dquote))
       else
         t ← now;
         user_assign key "timestamp" t;;
         user_attributes_set_all key attributesToSet (own_keys attributesToSet)
     else mret tt) st.
Proof.
  intros He Hu Ha. unfold setAttribute.
  rewrite (js_get_not_nullish _ _ _ He), He, Hu, Ha.
  by repeat erewrite bind_run by reflexivity.
Qed.

(** C5, as the source has it.  A message with neither [entityId] nor
    [userId] (each [undefined] or [null]) changes nothing.  A message with
    both is not ignored: when [entityId] is truthy the entity branch runs,
    and the handler does what it does on the same message without
    [userId]. *)
Theorem setAttribute_neither_or_both (st : Room) (client : Client.t)
    (msg entityId userId attributesToSet : JsVal) :
  js_get msg "entityId" = Ret entityId →
  js_get msg "userId" = Ret userId →
  js_get msg "attributesToSet" = Ret attributesToSet →
  (nullish entityId = true → nullish userId = true →
     setAttribute client msg st = (Ret tt, st))
  ∧ (truthy entityId = true →
     setAttribute client msg st
     = setAttribute client
         (VObj [("entityId", entityId); ("attributesToSet", attributesToSet)]) st).
Proof.
  intros He Hu Ha. rewrite (setAttribute_fields _ _ _ _ _ _ He Hu Ha). split.
  - by intros -> ->.
  - intros Ht.
    rewrite (setAttribute_fields st client _ entityId VUndefined attributesToSet)
      by reflexivity.
    rewrite Ht, (truthy_not_nullish _ Ht). reflexivity.
Qed.

Lemma setAttribute_neither_or_both_witness :
  setAttribute bob (VObj [("attributesToSet", VObj [("color", VStr "red")])]) sample_room
    = (Ret tt, sample_room)
  ∧ setAttribute bob both_targets sample_room
    = setAttribute bob
        (VObj [("entityId", VStr "e1"); ("attributesToSet", VObj [("color", VStr "red")])])
        sample_room.
Proof.
  split.
  - refine (proj1 (setAttribute_neither_or_both sample_room bob
             (VObj [("attributesToSet", VObj [("color", VStr "red")])])
             VUndefined VUndefined (VObj [("color", VStr "red")]) _ _ _) _ _); reflexivity.
  - refine (proj2 (setAttribute_neither_or_both sample_room bob both_targets
             (VStr "e1") (VStr "alice") (VObj [("color", VStr "red")]) _ _ _) _); reflexivity.
Defined.

(** C5 as stated fails: with both targets present the entity is updated. *)
Lemma setAttribute_both_targets_updates_entity :
  js_get both_targets "entityId" = Ret (VStr "e1")
  ∧ js_get both_targets "userId" = Ret (VStr "alice")
  ∧ (e ← networkedEntities sample_room !! "e1"; Entity.attribute e "color") = None
  ∧ (e ← networkedEntities (snd (setAttribute bob both_targets sample_room)) !! "e1";
     Entity.attribute e "color") = Some (VStr "red").
Proof. vm_compute. auto. Qed.

(** C10. A message whose [entityId] is present but falsy (the empty string,
    zero) is handled as the same message without [entityId]: the entity
    branch is not taken and no entity changes, even if one is keyed by that
    id; the user branch runs when [userId] is truthy, and otherwise nothing
    changes at all. *)
Theorem setAttribute_falsy_entityId (st : Room) (client : Client.t)
    (msg entityId userId attributesToSet : JsVal) :
  js_get msg "entityId" = Ret entityId →
  js_get msg "userId" = Ret userId →
  js_get msg "attributesToSet" = Ret attributesToSet →
  nullish entityId = false → truthy entityId = false →
  setAttribute client msg st
    = setAttribute client
        (VObj [("userId", userId); ("attributesToSet", attributesToSet)]) st
  ∧ networkedEntities (snd (setAttribute client msg st)) = networkedEntities st
  ∧ (truthy userId = false → setAttribute client msg st = (Ret tt, st)).
Proof.
  intros He Hu Ha Hn Hf. rewrite (setAttribute_fields _ _ _ _ _ _ He Hu Ha).
  rewrite (setAttribute_fields st client _ VUndefined userId attributesToSet)
    by reflexivity.
  rewrite Hn, Hf. cbn [andb orb truthy nullish].
  split; [|split].
  - destruct (nullish userId) eqn:Hnu; [|done].
    cbn [andb orb]. destruct userId; try done; by destruct (nullish attributesToSet).
  - assert (keeps networkedEntities
      (if nullish attributesToSet then mret tt
       else if truthy userId then
         key ← key_of userId;
         users ← gets networkedUsers;
         if negb (bool_decide (is_Some (users !! key))) then
           emit (Log Error
             ("Set Attribute - User Attribute - Room does not have networked user with Id - "
                +:+ dquote +:+ key +:+ dquote))
         else
           t ← now;
           user_assign key "timestamp" t;;
           user_attributes_set_all key attributesToSet (own_keys attributesToSet)
       else mret tt)) as H.
    { repeat keeps_step.
      - by apply user_assign_keeps.
      - by apply user_attributes_set_all_keeps. }
    apply H.
  - intros ->. by destruct (nullish attributesToSet).
Qed.

Lemma setAttribute_falsy_entityId_witness :
  (setAttribute bob
     (VObj [("entityId", VStr ""); ("userId", VStr "alice");
            ("attributesToSet", VObj [("color", VStr "red")])]) sample_room
   = setAttribute bob
       (VObj [("userId", VStr "alice"); ("attributesToSet", VObj [("color", VStr "red")])])
       sample_room)
  ∧ (setAttribute bob
       (VObj [("entityId", VNum Number.zero); ("attributesToSet", VObj [("color", VStr "red")])])
       sample_room
     = (Ret tt, sample_room)).
Proof.
  split.
  - refine (proj1 (setAttribute_falsy_entityId sample_room bob _ (VStr "") (VStr "alice")
             (VObj [("color", VStr "red")]) _ _ _ _ _)); reflexivity.
  - refine (proj2 (proj2 (setAttribute_falsy_entityId sample_room bob _ (VNum Number.zero)
             VUndefined (VObj [("color", VStr "red")]) _ _ _ _ _)) _); reflexivity.
Defined.

(** ** onJoin *)

Lemma SFeqb_true x y :
  SFeqb x y = true →
  (∃ s1 s2, x = S754_zero s1 ∧ y = S754_zero s2) ∨ (x = y ∧ SFeqb x x = true).
Proof.
  unfold SFeqb.
  destruct x as [sx|sx| |sx mx ex], y as [sy|sy| |sy my ey]; cbn;
    try discriminate; try (destruct sx; discriminate); try (destruct sy; discriminate).
  - intros _. left. eauto.
  - destruct sx, sy; try discriminate; intros _; right; done.
  - destruct sx, sy; try discriminate.
    + change (Pos.compare_cont Eq mx my) with (Pos.compare mx my).
      destruct (Z.compare_spec ex ey) as [->| |]; try discriminate.
      destruct (Pos.compare_spec mx my) as [->| |]; cbn; try discriminate.
      intros _. right. split; [done|].
      change (Pos.compare_cont Eq my my) with (Pos.compare my my).
      by rewrite Z.compare_refl, Pos.compare_refl.
    + change (Pos.compare_cont Eq mx my) with (Pos.compare mx my).
      destruct (Z.compare_spec ex ey) as [->| |]; try discriminate.
      destruct (Pos.compare_spec mx my) as [->| |]; cbn; try discriminate.
      intros _. right. split; [done|].
      change (Pos.compare_cont Eq my my) with (Pos.compare my my).
      by rewrite Z.compare_refl, Pos.compare_refl.
Qed.

Lemma strict_eq_sym a b : strict_eq a b = true → strict_eq b a = true.
Proof.
  destruct a, b; cbn; try done.
  - by destruct b, b0.
  - intros H. destruct (SFeqb_true _ _ H) as [(s1 & s2 & -> & ->)|[-> ?]]; done.
  - rewrite !String.eqb_eq. done.
Qed.

Lemma strict_eq_trans a b c :
  strict_eq a b = true → strict_eq b c = true → strict_eq a c = true.
Proof.
  destruct a, b; cbn; try done; destruct c; cbn; try done.
  - by destruct b, b0, b1.
  - intros H1 H2.
    destruct (SFeqb_true _ _ H1) as [(s1 & s2 & -> & ->)|[-> ?]]; [|done].
    destruct (SFeqb_true _ _ H2) as [(s3 & s4 & _ & ->)|[<- ?]]; done.
  - rewrite !String.eqb_eq. congruence.
Qed.

Lemma account_taken_spec users u :
  account_taken users u = true ↔
  ∃ k u', users !! k = Some u'
          ∧ strict_eq (json_field (User.account u')) (User.account u) = true.
Proof.
  unfold account_taken. rewrite existsb_exists. split.
  - intros ([k u'] & Hin & Heq). exists k, u'. split; [|done].
    by apply elem_of_map_to_list, list_elem_of_In.
  - intros (k & u' & Hk & Heq). exists (k, u'). split; [|done].
    by apply list_elem_of_In, elem_of_map_to_list.
Qed.

Lemma json_field_not_null v : strict_eq (json_field v) VNull = false.
Proof. by destruct v. Qed.

Lemma json_field_undefined v : strict_eq (json_field v) VUndefined = nullish v.
Proof. by destruct v. Qed.

Lemma json_field_id v : nullish v = false → json_field v = v.
Proof. unfold json_field. by intros ->. Qed.

Lemma js_get_field v k r : js_get v k = Ret r → ∀ k', js_get v k' = Ret (field v k').
Proof. intros H k'. unfold field. destruct v; try done; cbn; by case_match. Qed.

Lemma read_profile options r :
  js_get options "account" = Ret r →
  read_fields options profile_fields = Ret ((λ p, (p, field options p)) <$> profile_fields).
Proof.
  intros H. unfold profile_fields. cbn [read_fields fmap list_fmap].
  rewrite !(js_get_field _ _ _ H). reflexivity.
Qed.

Lemma joining_user_fields client options :
  User.connected (joining_user client options) = VBool true
  ∧ User.account (joining_user client options) = field options "account"
  ∧ User.get (joining_user client options) "sessionId" = VStr (Client.sessionId client)
  ∧ User.get (joining_user client options) "id" = VStr (Client.id client).
Proof. vm_compute. auto. Qed.

Lemma with_trace_app st a b :
  with_trace (λ t, t ++ [b]) (with_trace (λ t, t ++ [a]) st)
  = with_trace (λ t, t ++ [a; b]) st.
Proof. unfold with_trace. cbn. by rewrite <- app_assoc. Qed.

(** What [onJoin] does, by the outcome of the account scan. *)
Lemma onJoin_run st client options r :
  js_get options "account" = Ret r →
  onJoin client options st =
    if account_taken (networkedUsers st) (joining_user client options)
    then (Ret tt, with_trace (λ t, t ++ join_trace client "WalletNotPass" (PVal (VStr ""))) st)
    else (Ret tt,
          with_trace
            (λ t, t ++ join_trace client "onJoin" (PUser (joining_user client options)))
            (with_users <[Client.sessionId client := joining_user client options]> st)).
Proof.
  intros H. unfold onJoin.
  erewrite bind_run by reflexivity.
  rewrite (read_profile _ _ H).
  erewrite bind_run by reflexivity.
  erewrite bind_run by reflexivity.
  change (networkedUsers (with_trace _ st)) with (networkedUsers st).
  fold (joining_user client options).
  destruct (account_taken _ _).
  - unfold emit, modify. by rewrite with_trace_app.
  - erewrite bind_run by reflexivity. unfold emit, modify.
    unfold with_trace, with_users, join_trace. cbn. by rewrite <- app_assoc.
Qed.

(** C7, on the source.  The scan for the account reads the admitted users
    through [toJSON()], which leaves out a field that holds [null]: the
    account of such a user reads as [undefined].  So a join whose account
    is [null] is admitted although an admitted user has the account
    [null], and two records then carry that account; and a join without
    an account is rejected with ["WalletNotPass"] by the same user, whose
    account is not [undefined]. *)
Theorem null_accounts_are_not_deduplicated (st : Room) (client : Client.t)
    (options : JsVal) (k : string) (u : User.t) :
  networkedUsers st !! k = Some u →
  User.account u = VNull →
  k ≠ Client.sessionId client →
  (js_get options "account" = Ret VNull →
   ∃ st' newUser,
     onJoin client options st = (Ret tt, st')
     ∧ networkedUsers st' = <[Client.sessionId client := newUser]> (networkedUsers st)
     ∧ trace st' = trace st ++ join_trace client "onJoin" (PUser newUser)
     ∧ User.account newUser = VNull
     ∧ networkedUsers st' !! k = Some u
     ∧ strict_eq (User.account u) (User.account newUser) = true)
  ∧ (js_get options "account" = Ret VUndefined →
     strict_eq (User.account u) VUndefined = false
     ∧ onJoin client options st
       = (Ret tt,
          with_trace (λ t, t ++ join_trace client "WalletNotPass" (PVal (VStr ""))) st)).
Proof.
  intros Hk Hnull Hne.
  destruct (joining_user_fields client options) as (_ & Hacc & _).
  split; intros Ha; rewrite (onJoin_run _ _ _ _ Ha);
    unfold field in Hacc; rewrite Ha in Hacc.
  - destruct (account_taken _ _) eqn:Htaken.
    + apply account_taken_spec in Htaken as (k' & u' & _ & Heq).
      by rewrite Hacc, json_field_not_null in Heq.
    + eexists _, _. split; [done|]. split; [done|]. split; [done|]. split; [done|].
      split; [cbn; by rewrite lookup_insert_ne|]. by rewrite Hacc, Hnull.
  - split; [by rewrite Hnull|].
    rewrite (proj2 (account_taken_spec _ _)); [done|].
    exists k, u. split; [done|]. by rewrite Hacc, Hnull.
Qed.

Lemma null_accounts_are_not_deduplicated_witness :
  (∃ st' newUser,
     onJoin bob (VObj [("account", VNull)]) null_account_room = (Ret tt, st')
     ∧ networkedUsers st' = <["bob" := newUser]> (networkedUsers null_account_room)
     ∧ User.account newUser = VNull
     ∧ networkedUsers st' !! "alice" = Some null_account_user)
  ∧ User.account null_account_user = VNull
  ∧ onJoin carol (VObj []) null_account_room
    = (Ret tt,
       with_trace (λ t, t ++ join_trace carol "WalletNotPass" (PVal (VStr "")))
         null_account_room).
Proof.
  assert (networkedUsers null_account_room !! "alice" = Some null_account_user) as Hk
    by (vm_compute; reflexivity).
  assert (User.account null_account_user = VNull) as Hnull by (vm_compute; reflexivity).
  split; [|split; [exact Hnull|]].
  - destruct (proj1 (null_accounts_are_not_deduplicated null_account_room bob
                       (VObj [("account", VNull)]) "alice" null_account_user Hk Hnull
                       ltac:(discriminate)) eq_refl)
      as (st' & newUser & Hrun & Husers & _ & Hacc & Hstill & _).
    exists st', newUser. split; [exact Hrun|]. split; [exact Husers|].
    split; [exact Hacc|exact Hstill].
  - apply (proj2 (null_accounts_are_not_deduplicated null_account_room carol
                    (VObj []) "alice" null_account_user Hk Hnull ltac:(discriminate))
             eq_refl).
Defined.

(** C9. Two joins whose options carry no [account]: whatever the first
    join did, the second is rejected with ["WalletNotPass"] and changes
    nothing else, because the account of the first reads as [undefined] and
    [undefined === undefined]; when every admitted user has an account
    (one that is neither [undefined] nor [null]), the first join is
    admitted, and its record is still there after the second. *)
Theorem accountless_joins_collide (st : Room) (c1 c2 : Client.t) (o1 o2 : JsVal) :
  js_get o1 "account" = Ret VUndefined →
  js_get o2 "account" = Ret VUndefined →
  ∃ st1 st2,
    onJoin c1 o1 st = (Ret tt, st1)
    ∧ onJoin c2 o2 st1 = (Ret tt, st2)
    ∧ st2 = with_trace (λ t, t ++ join_trace c2 "WalletNotPass" (PVal (VStr ""))) st1
    ∧ ((∀ k u, networkedUsers st !! k = Some u → nullish (User.account u) = false) →
       ∃ u1, networkedUsers st1 = <[Client.sessionId c1 := u1]> (networkedUsers st)
             ∧ User.account u1 = VUndefined
             ∧ networkedUsers st2 !! Client.sessionId c1 = Some u1).
Proof.
  intros H1 H2.
  destruct (joining_user_fields c1 o1) as (_ & Hacc1 & _).
  destruct (joining_user_fields c2 o2) as (_ & Hacc2 & _).
  assert (field o1 "account" = VUndefined) as Hf1 by (unfold field; by rewrite H1).
  assert (field o2 "account" = VUndefined) as Hf2 by (unfold field; by rewrite H2).
  rewrite Hf1 in Hacc1. rewrite Hf2 in Hacc2.
  rewrite (onJoin_run _ _ _ _ H1).
  destruct (account_taken (networkedUsers st) _) eqn:Htaken.
  - apply account_taken_spec in Htaken as (k & u & Hk & Heq). rewrite Hacc1 in Heq.
    eexists _, _. split; [done|]. rewrite (onJoin_run _ _ _ _ H2).
    rewrite (proj2 (account_taken_spec _ _)) by (exists k, u; by rewrite Hacc2).
    split; [done|]. split; [done|].
    intros Hfresh. by rewrite json_field_undefined, (Hfresh _ _ Hk) in Heq.
  - eexists _, _. split; [done|]. rewrite (onJoin_run _ _ _ _ H2).
    rewrite (proj2 (account_taken_spec _ _)).
    + split; [done|]. split; [done|]. intros _.
      exists (joining_user c1 o1). split; [done|]. split; [done|].
      cbn. apply lookup_insert_eq.
    + exists (Client.sessionId c1), (joining_user c1 o1). split.
      * cbn. apply lookup_insert_eq.
      * by rewrite Hacc1, Hacc2.
Qed.

Lemma accountless_joins_collide_witness :
  ∃ st1 st2,
    onJoin bob (VObj []) sample_room = (Ret tt, st1)
    ∧ onJoin carol (VObj [("userName", VStr "carol")]) st1 = (Ret tt, st2)
    ∧ st2 = with_trace (λ t, t ++ join_trace carol "WalletNotPass" (PVal (VStr ""))) st1
    ∧ ∃ u1, networkedUsers st1 = <["bob" := u1]> (networkedUsers sample_room)
            ∧ User.account u1 = VUndefined
            ∧ networkedUsers st2 !! "bob" = Some u1.
Proof.
  destruct (accountless_joins_collide sample_room bob carol (VObj [])
              (VObj [("userName", VStr "carol")]) eq_refl eq_refl)
    as (st1 & st2 & Hfirst & Hsecond & Hst2 & Hadmitted).
  exists st1, st2. split; [exact Hfirst|]. split; [exact Hsecond|]. split; [exact Hst2|].
  apply Hadmitted. intros k u Hk. unfold sample_room in Hk. cbn in Hk.
  apply lookup_singleton_Some in Hk as [_ <-]. by vm_compute.
Defined.

(** ** onLeave *)

Lemma fold_delete_lookup {V} (ids : list string) (m : gmap string V) (k : string) :
  fold_left (λ m id, delete id m) ids m !! k
  = if bool_decide (k ∈ ids) then None else m !! k.
Proof.
  revert m. induction ids as [|a ids IH]; intros m; cbn [fold_left].
  - by rewrite bool_decide_eq_false_2 by apply not_elem_of_nil.
  - rewrite IH. destruct (decide (k = a)) as [->|Hne].
    + rewrite lookup_delete_eq, (bool_decide_eq_true_2 (a ∈ a :: ids)) by left.
      by destruct (bool_decide (a ∈ ids)).
    + rewrite lookup_delete_ne by done.
      destruct (decide (k ∈ ids)) as [Hin|Hnin].
      * by rewrite !bool_decide_eq_true_2 by (done || by right).
      * rewrite !bool_decide_eq_false_2; [done| |done].
        by intros [?|?]%elem_of_cons.
Qed.

(** The [catch] block of [onLeave], field by field. *)
Lemma onLeave_catch_run st client :
  ∃ st', onLeave_catch client st = (Ret tt, st')
    ∧ networkedUsers st' = delete (Client.sessionId client) (networkedUsers st)
    ∧ clientEntities st' = delete (Client.id client) (clientEntities st)
    ∧ networkedEntities st' =
        match clientEntities st !! Client.id client with
        | Some ids => fold_left (λ m id, delete id m) ids (networkedEntities st)
        | None => networkedEntities st
        end
    ∧ trace st' =
        trace st ++ catch_log client ++
        match clientEntities st !! Client.id client, customMethodController st with
        | Some _, Some _ => [Hook ProcessUserLeft]
        | Some _, None => []
        | None, _ => [no_entry_log client]
        end.
Proof.
  unfold onLeave_catch.
  do 4 erewrite bind_run by reflexivity.
  cbn [clientEntities with_users with_trace].
  destruct (clientEntities st !! Client.id client) as [ids|] eqn:Hids.
  - do 3 erewrite bind_run by reflexivity.
    cbn [customMethodController with_users with_trace with_entities with_clientEntities].
    destruct (customMethodController st).
    + eexists. split; [reflexivity|]. cbn. rewrite <- !app_assoc. by repeat split.
    + eexists. split; [reflexivity|]. cbn. rewrite <- !app_assoc. by repeat split.
  - eexists. split; [reflexivity|]. cbn. rewrite <- !app_assoc.
    repeat split; try done. symmetry. by apply delete_id.
Qed.

(** [onLeave] up to the [catch] block or the [await]. *)
Lemma onLeave_run st client consented :
  onLeave client consented st =
    let st1 :=
      with_trace (λ t, t ++ [leave_log client])
        (match networkedUsers st !! Client.sessionId client with
         | Some u =>
             with_users
               <[Client.sessionId client := User.assign u "connected" (VBool false)]> st
         | None => st
         end) in
    if consented then (onLeave_catch client;; mret Left) st1
    else
      (Ret AwaitingReconnection,
       with_trace
         (λ t, t ++ [Log Info ("let's wait for reconnection for client: "
                                 +:+ Client.sessionId client)]) st1).
Proof.
  unfold onLeave. erewrite bind_run by reflexivity.
  destruct (networkedUsers st !! Client.sessionId client) as [u|];
    do 2 erewrite bind_run by reflexivity;
    destruct consented; try reflexivity; by erewrite bind_run by reflexivity.
Qed.

(** C8. A consented leave purges at once: the handler returns [Left]
    without reaching the [await], and afterwards the user record, every
    entity listed under the connection in the Ownership Index, and the
    index entry are gone. *)
Theorem consented_leave_purges_at_once (st : Room) (client : Client.t) :
  ∃ st', onLeave client true st = (Ret Left, st')
    ∧ networkedUsers st' !! Client.sessionId client = None
    ∧ (∀ ids id, clientEntities st !! Client.id client = Some ids → id ∈ ids →
         networkedEntities st' !! id = None)
    ∧ clientEntities st' !! Client.id client = None.
Proof.
  rewrite onLeave_run. cbn zeta.
  set (st1 := with_trace _ _).
  destruct (onLeave_catch_run st1 client) as (st' & Hrun & Hu & Hi & He & _).
  exists st'. split; [by erewrite bind_run by exact Hrun|].
  split; [by rewrite Hu, lookup_delete_eq|].
  split; [|by rewrite Hi, lookup_delete_eq].
  intros ids id Hids Hin. rewrite He.
  assert (clientEntities st1 = clientEntities st) as ->
    by (unfold st1; by destruct (networkedUsers st !! _)).
  rewrite Hids, fold_delete_lookup. by rewrite bool_decide_eq_true_2.
Qed.

(** C3, on the source.  With a logic module loaded and no Ownership Index
    entry for the connection, the purge (after a consented leave as after
    an expired wait) removes the user record and logs the error, and that
    is all: [ProcessUserLeft] is not called. *)
Theorem departure_hook_skipped_without_index_entry (st : Room) (client : Client.t)
    (logic : CustomLogic) :
  customMethodController st = Some logic →
  clientEntities st !! Client.id client = None →
  (∃ st', onLeave client true st = (Ret Left, st')
     ∧ networkedUsers st' !! Client.sessionId client = None
     ∧ trace st' = trace st ++ leave_log client :: catch_log client ++ [no_entry_log client])
  ∧ (∃ st', onLeave_resume client Expired st = (Ret tt, st')
       ∧ networkedUsers st' !! Client.sessionId client = None
       ∧ trace st' = trace st ++ catch_log client ++ [no_entry_log client]).
Proof.
  intros Hlogic Hnone. split.
  - rewrite onLeave_run. cbn zeta.
    set (st1 := with_trace _ _).
    assert (clientEntities st1 = clientEntities st) as Hi1
      by (unfold st1; by destruct (networkedUsers st !! _)).
    assert (trace st1 = trace st ++ [leave_log client]) as Ht1
      by (unfold st1; by destruct (networkedUsers st !! _)).
    destruct (onLeave_catch_run st1 client) as (st' & Hrun & Hu & _ & _ & Ht).
    exists st'. split; [by erewrite bind_run by exact Hrun|].
    split; [by rewrite Hu, lookup_delete_eq|].
    rewrite Ht, Hi1, Hnone, Ht1. by rewrite <- app_assoc.
  - cbn [onLeave_resume].
    destruct (onLeave_catch_run st client) as (st' & Hrun & Hu & _ & _ & Ht).
    exists st'. split; [done|]. split; [by rewrite Hu, lookup_delete_eq|].
    by rewrite Ht, Hnone.
Qed.

Lemma departure_hook_skipped_without_index_entry_witness :
  (∃ st', onLeave bob true lobby = (Ret Left, st')
     ∧ networkedUsers st' !! "bob" = None
     ∧ trace st' = trace lobby ++ leave_log bob :: catch_log bob ++ [no_entry_log bob])
  ∧ (∃ st', onLeave_resume bob Expired lobby = (Ret tt, st')
       ∧ networkedUsers st' !! "bob" = None
       ∧ trace st' = trace lobby ++ catch_log bob ++ [no_entry_log bob]).
Proof.
  apply (departure_hook_skipped_without_index_entry lobby bob (LogicModule (VStr "demo")));
    reflexivity.
Defined.

(** C1 as stated fails on a reachable room: after a non-consented leave and
    a reconnection, alice's record still has [connected = false]; and after
    an expired wait, the entity whose [ownerId] is alice's id, but which the
    index lists under bob, is still there. *)
Lemma reconnection_does_not_restore_connected :
  let left := after (OnLeave alice false) divergent_room in
  User.connected <$> networkedUsers divergent_room !! "alice" = Some (VBool true)
  ∧ User.connected
      <$> networkedUsers (after (OnLeaveSettled alice (Reconnected alice)) left) !! "alice"
    = Some (VBool false)
  ∧ Entity.ownerId <$> networkedEntities (after (OnLeaveSettled alice Expired) left) !! "e1"
    = Some (VStr "alice").
Proof. vm_compute. auto. Qed.

Lemma divergent_room_reachable : reachable divergent_room.
Proof.
  unfold divergent_room, after_all. cbn [fold_left].
  do 4 apply reachable_after.
  by apply (reachable_created (VStr "room-1") None (VObj [("logic", VStr "demo")])).
Qed.

(** C1, as the source has it.  A non-consented leave marks the user
    [connected = false], touches no entity and waits.  When the wait ends
    with a reconnection, in whatever room [st2] the other handlers have made
    meanwhile, nothing more happens: users, entities and index stay as they
    are (the user record is not set back to connected).  When it expires,
    the user record, every entity listed under the connection, and the index
    entry are removed; these are all the entities whose [ownerId] is the
    connection's id whenever the index lists all of those. *)
Theorem nonconsented_leave_then_settled (st st2 : Room) (client newClient : Client.t)
    (u : User.t) :
  networkedUsers st !! Client.sessionId client = Some u →
  (∃ st1, onLeave client false st = (Ret AwaitingReconnection, st1)
     ∧ networkedUsers st1
       = <[Client.sessionId client := User.assign u "connected" (VBool false)]>
           (networkedUsers st)
     ∧ networkedEntities st1 = networkedEntities st
     ∧ clientEntities st1 = clientEntities st)
  ∧ (∃ st3, onLeave_resume client (Reconnected newClient) st2 = (Ret tt, st3)
       ∧ networkedUsers st3 = networkedUsers st2
       ∧ networkedEntities st3 = networkedEntities st2
       ∧ clientEntities st3 = clientEntities st2)
  ∧ (∃ st3, onLeave_resume client Expired st2 = (Ret tt, st3)
       ∧ networkedUsers st3 !! Client.sessionId client = None
       ∧ (∀ ids id, clientEntities st2 !! Client.id client = Some ids → id ∈ ids →
            networkedEntities st3 !! id = None)
       ∧ clientEntities st3 !! Client.id client = None
       ∧ (index_covers st2 (Client.id client) →
          ∀ id e, networkedEntities st3 !! id = Some e →
            Entity.ownerId e ≠ VStr (Client.id client))).
Proof.
  intros Hu. split; [|split].
  - rewrite onLeave_run, Hu. cbn zeta. eexists. split; [reflexivity|]. by repeat split.
  - cbn [onLeave_resume]. eexists. split; [reflexivity|]. by repeat split.
  - cbn [onLeave_resume].
    destruct (onLeave_catch_run st2 client) as (st3 & Hrun & Hus & Hi & He & _).
    exists st3. split; [done|]. split; [by rewrite Hus, lookup_delete_eq|].
    assert (∀ ids id, clientEntities st2 !! Client.id client = Some ids → id ∈ ids →
              networkedEntities st3 !! id = None) as Hgone.
    { intros ids id Hids Hin. rewrite He, Hids, fold_delete_lookup.
      by rewrite bool_decide_eq_true_2. }
    split; [done|]. split; [by rewrite Hi, lookup_delete_eq|].
    intros Hcov id e Hid Howner.
    assert (networkedEntities st2 !! id = Some e) as Hid2.
    { rewrite He in Hid. destruct (clientEntities st2 !! Client.id client); [|done].
      rewrite fold_delete_lookup in Hid. by destruct (bool_decide _). }
    destruct (Hcov id e Hid2 Howner) as (ids & Hids & Hin).
    rewrite (Hgone ids id Hids Hin) in Hid. done.
Qed.

Lemma nonconsented_leave_then_settled_witness :
  let left := after (OnLeave alice false) sample_room in
  (∃ st1, onLeave alice false sample_room = (Ret AwaitingReconnection, st1)
     ∧ networkedUsers st1
       = <["alice" := User.assign sample_user "connected" (VBool false)]>
           (networkedUsers sample_room)
     ∧ networkedEntities st1 = networkedEntities sample_room
     ∧ clientEntities st1 = clientEntities sample_room)
  ∧ (∃ st3, onLeave_resume alice (Reconnected alice) left = (Ret tt, st3)
       ∧ networkedUsers st3 = networkedUsers left
       ∧ networkedEntities st3 = networkedEntities left
       ∧ clientEntities st3 = clientEntities left)
  ∧ (∃ st3, onLeave_resume alice Expired left = (Ret tt, st3)
       ∧ networkedUsers st3 !! "alice" = None
       ∧ networkedEntities st3 !! "e1" = None
       ∧ clientEntities st3 !! "alice" = None
       ∧ ∀ id e, networkedEntities st3 !! id = Some e → Entity.ownerId e ≠ VStr "alice").
Proof.
  cbn zeta.
  destruct (nonconsented_leave_then_settled sample_room
              (after (OnLeave alice false) sample_room) alice alice sample_user eq_refl)
    as (H1 & H2 & st3 & Hrun & Hu & Hgone & Hi & Hcov).
  split; [exact H1|]. split; [exact H2|].
  exists st3. split; [exact Hrun|]. split; [exact Hu|].
  split; [apply (Hgone ["e1"]); [reflexivity | by left]|].
  split; [exact Hi|].
  apply Hcov. intros id e Hid Howner. exists ["e1"]. split; [reflexivity|].
  change (networkedEntities (after (OnLeave alice false) sample_room))
    with (networkedEntities sample_room) in Hid.
  unfold sample_room in Hid. cbn in Hid.
  apply lookup_singleton_Some in Hid as [<- _]. by left.
Defined.

(** ** The Ownership Index *)




Lemma assign_same_owner e p v :
  p ≠ "ownerId" → Entity.ownerId (Entity.assign e p v) = Entity.ownerId e.
Proof.
  intros Hp. unfold Entity.ownerId, Entity.assign, Entity.get.
  destruct (String.eqb p "attributes"); [done|]. cbn. by rewrite lookup_insert_ne.
Qed.

Lemma read_entity_keeps {V} (view : Room → V) key : keeps view (read_entity key).
Proof. intros st. unfold read_entity. by destruct (networkedEntities st !! key). Qed.

Lemma entity_attributes_get_keeps {V} (view : Room → V) key k :
  keeps view (entity_attributes_get key k).
Proof.
  unfold entity_attributes_get. apply keeps_bind; [apply read_entity_keeps|].
  intros e. destruct (Entity.attributes e); [apply keeps_ret | apply keeps_throw].
Qed.














Lemma creation_attribute_owner attributes e key e' :
  creation_attribute attributes e key = Ret e' →
  Entity.ownerId e' = Entity.ownerId e.
Proof.
  unfold creation_attribute, mbind, outcome_bind, mret, outcome_ret.
  intros H. repeat case_match; simplify_eq; rewrite ?assign_same_owner by done; done.
Qed.

Lemma creation_attributes_owner attributes keys e e' :
  creation_attributes attributes keys e = Ret e' →
  Entity.ownerId e' = Entity.ownerId e.
Proof.
  revert e. induction keys as [|key keys IH]; intros e; cbn [creation_attributes].
  - by intros [= ->].
  - unfold mbind, outcome_bind.
    destruct (creation_attribute attributes e key) as [e1|] eqn:H1; [|done].
    intros H. rewrite (IH _ H). by eapply creation_attribute_owner.
Qed.

(** [createEntity] either throws before it stores anything, or stores an
    entity owned by the client and lists its id under the client. *)
Lemma onCreateEntity_run st entityViewID client creationMessage :
  (∃ x, onCreateEntity entityViewID client creationMessage st = (Throw x, st))
  ∨ ∃ e, Entity.ownerId e = VStr (Client.id client)
      ∧ onCreateEntity entityViewID client creationMessage st =
          (Ret tt,
           with_clientEntities
             <[Client.id client :=
                 default [] (clientEntities st !! Client.id client) ++ [entityViewID]]>
             (with_entities <[entityViewID := e]> st)).
Proof.
  unfold onCreateEntity.
  erewrite bind_run by reflexivity.
  destruct (js_get creationMessage "creationId") as [creationId|x] eqn:Hc;
    [|left; exists x; by erewrite bind_throw].
  erewrite bind_run by reflexivity. erewrite bind_run by reflexivity.
  destruct (js_get creationMessage "attributes") as [attributes|x] eqn:Ha;
    [|left; exists x; by erewrite bind_throw].
  erewrite bind_run by reflexivity.
  match goal with
  | |- context [creation_attributes attributes (own_keys attributes) ?e0] =>
      destruct (creation_attributes attributes (own_keys attributes) e0)
        as [e|x] eqn:He; [|left; exists x; by erewrite bind_throw];
      assert (Entity.ownerId e0 = VStr (Client.id client)) as Ho
  end.
  { rewrite assign_same_owner by done.
    destruct (negb (nullish creationId)); rewrite ?assign_same_owner by done; done. }
  right. exists e. split; [by rewrite (creation_attributes_owner _ _ _ _ He)|].
  erewrite bind_run by reflexivity. erewrite bind_run by reflexivity.
  erewrite bind_run by reflexivity.
  cbn [clientEntities with_entities].
  by destruct (clientEntities st !! Client.id client).
Qed.









(** ** The update loop never runs out of fuel *)

Lemma bind_ret_inv {A B} (m : M A) (k : A → M B) st b st' :
  (m ≫= k) st = (Ret b, st') → ∃ a st1, m st = (Ret a, st1) ∧ k a st1 = (Ret b, st').
Proof.
  unfold mbind, M_bind. destruct (m st) as [[a|e] st1]; [|done]. eauto.
Qed.

Lemma update_round_advances key data startIndex i st i' st' :
  update_round key data startIndex i st = (Ret i', st') → (i + 2 ≤ i')%nat.
Proof.
  unfold update_round. intros H.
  apply bind_ret_inv in H as ([updateValue j] & st1 & H1 & H2).
  apply bind_ret_inv in H2 as (? & st2 & _ & H2). injection H2 as <- _.
  destruct (strict_eq _ _).
  - apply bind_ret_inv in H1 as (? & ? & _ & H1).
    apply bind_ret_inv in H1 as (? & ? & _ & H1).
    apply bind_ret_inv in H1 as (? & ? & _ & H1).
    apply bind_ret_inv in H1 as (? & ? & _ & H1).
    injection H1 as _ <- _. lia.
  - injection H1 as _ <- _. lia.
Qed.

(** Any fuel that covers the rest of the array gives the same run; the
    fuel [length data] of [onEntityUpdate] does, from cursor 1 or 2. *)
Lemma update_loop_fuel fuel1 fuel2 key data startIndex i st :
  (length data ≤ i + 2 * fuel1)%nat → (length data ≤ i + 2 * fuel2)%nat →
  update_loop fuel1 key data startIndex i st = update_loop fuel2 key data startIndex i st.
Proof.
  revert fuel2 i st. induction fuel1 as [|fuel1 IH]; intros fuel2 i st H1 H2.
  - destruct fuel2 as [|fuel2]; [done|]. rewrite update_loop_S.
    by rewrite (proj2 (Nat.ltb_ge i (length data))) by lia.
  - rewrite update_loop_S. destruct (i <? length data)%nat eqn:Hlt; cbn [negb].
    + destruct fuel2 as [|fuel2]; [apply Nat.ltb_lt in Hlt; lia|].
      rewrite update_loop_S, Hlt. cbn [negb]. unfold mbind, M_bind.
      destruct (update_round key data startIndex i st) as [[i'|e] st'] eqn:Hr; [|done].
      apply update_round_advances in Hr. apply IH; lia.
    + destruct fuel2 as [|fuel2]; [done|]. by rewrite update_loop_S, Hlt.
Qed.

Lemma onEntityUpdate_fuel data key startIndex extra st :
  (1 ≤ startIndex)%nat →
  update_loop (length data) key data startIndex startIndex st
  = update_loop (length data + extra) key data startIndex startIndex st.
Proof. intros H. apply update_loop_fuel; lia. Qed.

(** ** Accounts stay unique *)

Section EntityHandlers.
  (** Handlers that write entities only leave alone whatever does not look
      at the entities, the index or the trace. *)
  Context {V : Type} (view : Room → V).
  Hypothesis view_entities : ∀ f st, view (with_entities f st) = view st.
  Hypothesis view_index : ∀ f st, view (with_clientEntities f st) = view st.
  Hypothesis view_trace : ∀ f st, view (with_trace f st) = view st.
  Hypothesis view_time : ∀ f st, view (with_serverTime f st) = view st.

Lemma write_entity_frame key e : keeps view (write_entity key e).
Proof. intros st. apply view_entities. Qed.

Lemma entity_assign_frame key p v : keeps view (entity_assign key p v).
Proof.
  unfold entity_assign. apply keeps_bind; [apply read_entity_keeps|].
  intros e. apply write_entity_frame.
Qed.

Lemma entity_attributes_set_frame key k v : keeps view (entity_attributes_set key k v).
Proof.
  unfold entity_attributes_set. apply keeps_bind; [apply read_entity_keeps|].
  intros e. destruct (Entity.attributes e); [|apply keeps_throw].
  destruct (nullish v); [apply keeps_throw | apply write_entity_frame].
Qed.

Lemma entity_attributes_set_all_frame key a keys :
  keeps view (entity_attributes_set_all key a keys).
Proof.
  induction keys as [|k keys IH]; cbn [entity_attributes_set_all].
  - apply keeps_ret.
  - repeat keeps_step; [apply entity_attributes_set_frame | done].
Qed.

Lemma update_round_frame key data startIndex i :
  keeps view (update_round key data startIndex i).
Proof.
  unfold update_round. repeat keeps_step;
    first [ apply entity_attributes_get_keeps | apply entity_attributes_set_frame
          | apply entity_assign_frame ].
Qed.

Lemma update_loop_frame fuel key data startIndex i :
  keeps view (update_loop fuel key data startIndex i).
Proof.
  revert i. induction fuel as [|fuel IH]; intros i.
  - apply keeps_ret.
  - rewrite update_loop_S. destruct (negb _); [apply keeps_ret|].
    apply keeps_bind; [apply update_round_frame | done].
Qed.

Lemma onEntityUpdateMessage_frame client data :
  keeps view (onEntityUpdateMessage client data).
Proof.
  unfold onEntityUpdateMessage, onEntityUpdate. repeat keeps_step;
    first [ apply update_loop_frame | apply entity_assign_frame ].
Qed.

Lemma onRemoveEntity_frame client removeId : keeps view (onRemoveEntity client removeId).
Proof.
  unfold onRemoveEntity. repeat keeps_step. apply keeps_modify. apply view_entities.
Qed.

Lemma onCreateEntity_frame entityViewID client creationMessage :
  keeps view (onCreateEntity entityViewID client creationMessage).
Proof.
  unfold onCreateEntity. repeat keeps_step; apply keeps_modify;
    first [ apply view_entities | apply view_index ].
Qed.

Lemma onPing_frame client : keeps view (onPing client).
Proof. unfold onPing. repeat keeps_step. apply keeps_modify. apply view_trace. Qed.

Lemma onCustomMethod_frame client request : keeps view (onCustomMethod client request).
Proof.
  unfold onCustomMethod. repeat keeps_step; apply keeps_modify; apply view_trace.
Qed.

Lemma onSimulationInterval_frame dt : keeps view (onSimulationInterval dt).
Proof.
  unfold onSimulationInterval. repeat keeps_step; apply keeps_modify;
    first [ apply view_time | apply view_trace ].
Qed.

End EntityHandlers.

Lemma accounts_unique_view st st' :
  accounts_view st' = accounts_view st → accounts_unique st → accounts_unique st'.
Proof.
  unfold accounts_view. intros Hv Huniq k1 k2 u1 u2 H1 H2 Hne.
  assert (∀ k u, networkedUsers st' !! k = Some u →
            ∃ u0, networkedUsers st !! k = Some u0 ∧ User.account u0 = User.account u) as H.
  { intros k u Hk.
    assert ((User.account <$> networkedUsers st) !! k = Some (User.account u)) as H
      by (by rewrite <- Hv, lookup_fmap, Hk).
    rewrite lookup_fmap in H. destruct (networkedUsers st !! k) as [u0|]; [|done].
    injection H as H. eauto. }
  destruct (H _ _ H1) as (v1 & Hv1 & <-). destruct (H _ _ H2) as (v2 & Hv2 & <-).
  by apply (Huniq k1 k2).
Qed.

Lemma accounts_unique_shrink st st' :
  (∀ k u, networkedUsers st' !! k = Some u → networkedUsers st !! k = Some u) →
  accounts_unique st → accounts_unique st'.
Proof. intros H Huniq k1 k2 u1 u2 H1 H2. apply Huniq; by apply H. Qed.

Lemma write_same_account st key u u' :
  networkedUsers st !! key = Some u → User.account u' = User.account u →
  accounts_view (with_users <[key := u']> st) = accounts_view st.
Proof.
  intros Hu Ha. unfold accounts_view. cbn.
  rewrite fmap_insert, Ha. apply insert_id. by rewrite lookup_fmap, Hu.
Qed.

Lemma user_assign_account key p v :
  p ≠ "account" → keeps accounts_view (user_assign key p v).
Proof.
  intros Hp st. unfold user_assign. destruct (networkedUsers st !! key) as [u|] eqn:Hu;
    [|done].
  cbn. apply (write_same_account _ _ u); [done|].
  unfold User.account, User.get, User.assign. cbn. by rewrite lookup_insert_ne.
Qed.

Lemma user_attributes_set_account key k v :
  keeps accounts_view (user_attributes_set key k v).
Proof.
  intros st. unfold user_attributes_set.
  destruct (networkedUsers st !! key) as [u|] eqn:Hu; [|done].
  destruct (nullish v); [done|]. cbn. by apply (write_same_account _ _ u).
Qed.

Lemma user_attributes_set_all_account key a keys :
  keeps accounts_view (user_attributes_set_all key a keys).
Proof.
  induction keys as [|k keys IH]; cbn [user_attributes_set_all].
  - apply keeps_ret.
  - repeat keeps_step; [apply user_attributes_set_account | done].
Qed.

Lemma setAttribute_account client msg : keeps accounts_view (setAttribute client msg).
Proof.
  unfold setAttribute. repeat keeps_step.
  - by apply entity_assign_frame.
  - by apply entity_attributes_set_all_frame.
  - by apply user_assign_account.
  - apply user_attributes_set_all_account.
Qed.

(** An account that the scan of [onJoin] does not find, and that is yet
    [===] to a stored one: both are [null]. *)
Lemma json_field_fresh a b :
  strict_eq (json_field a) b = false → strict_eq a b = true → a = VNull ∧ b = VNull.
Proof. destruct a, b; cbn; intros H1 H2; try done; congruence. Qed.

Lemma onJoin_unique st client options :
  accounts_unique st → accounts_unique (snd (onJoin client options st)).
Proof.
  intros Huniq.
  destruct (js_get options "account") as [r|x] eqn:Ha.
  - rewrite (onJoin_run _ _ _ _ Ha).
    destruct (account_taken _ _) eqn:Htaken; [done|]. cbn [snd].
    assert (∀ k u, networkedUsers st !! k = Some u →
              strict_eq (json_field (User.account u))
                (User.account (joining_user client options)) = false) as Hfresh.
    { intros k u Hk. destruct (strict_eq _ _) eqn:Heq; [|done].
      rewrite (proj2 (account_taken_spec _ _)) in Htaken; [done|eauto]. }
    intros k1 k2 u1 u2 H1 H2 Hne Heq. cbn in H1, H2.
    destruct (decide (k1 = Client.sessionId client)) as [->|Hk1].
    + rewrite lookup_insert_eq in H1. injection H1 as <-.
      rewrite lookup_insert_ne in H2 by done.
      apply strict_eq_sym in Heq.
      by destruct (json_field_fresh _ _ (Hfresh k2 u2 H2) Heq).
    + rewrite lookup_insert_ne in H1 by done.
      destruct (decide (k2 = Client.sessionId client)) as [->|Hk2].
      * rewrite lookup_insert_eq in H2. injection H2 as <-.
        by apply (json_field_fresh _ _ (Hfresh k1 u1 H1)).
      * rewrite lookup_insert_ne in H2 by done. by apply (Huniq k1 k2).
  - unfold onJoin. erewrite bind_run by reflexivity.
    assert (read_fields options profile_fields = Throw x) as ->
      by (unfold profile_fields; cbn [read_fields]; by rewrite Ha).
    erewrite bind_throw by reflexivity. by apply (accounts_unique_view st).
Qed.

Lemma onLeave_catch_unique st client :
  accounts_unique st → accounts_unique (snd (onLeave_catch client st)).
Proof.
  intros Huniq.
  destruct (onLeave_catch_run st client) as (st' & -> & Hu & _).
  cbn [snd]. apply (accounts_unique_shrink st); [|done].
  intros k u. rewrite Hu. by intros [_ ?]%lookup_delete_Some.
Qed.

Lemma onLeave_unique st client consented :
  accounts_unique st → accounts_unique (snd (onLeave client consented st)).
Proof.
  intros Huniq. rewrite onLeave_run. cbn zeta.
  set (st1 := with_trace _ _).
  assert (accounts_unique st1) as H1.
  { apply (accounts_unique_view st); [|done]. unfold st1.
    destruct (networkedUsers st !! Client.sessionId client) as [u|] eqn:Hu; [|done].
    change (accounts_view (with_trace ?f ?s)) with (accounts_view s).
    apply (write_same_account _ _ u); [done|].
    unfold User.account, User.get, User.assign. cbn. by rewrite lookup_insert_ne. }
  destruct consented; [|done].
  pose proof (onLeave_catch_unique st1 client H1) as H.
  unfold mbind, M_bind. by destruct (onLeave_catch client st1) as [[[]|e] st'].
Qed.

Lemma after_unique st ev : accounts_unique st → accounts_unique (after ev st).
Proof.
  intros Huniq. unfold after.
  destruct ev as [client options|client consented|client settled|client|client request
                 |client data|client msg|client removeId|entityViewID client msg|dt];
    cbn [handle].
  - by apply onJoin_unique.
  - pose proof (onLeave_unique st client consented Huniq) as H.
    unfold mbind, M_bind. by destruct (onLeave client consented st) as [[?|?] ?].
  - destruct settled as [newClient|]; cbn [onLeave_resume].
    + by apply (accounts_unique_view st).
    + by apply onLeave_catch_unique.
  - apply (accounts_unique_view st); [|done].
    by apply onPing_frame.
  - apply (accounts_unique_view st); [|done].
    by apply onCustomMethod_frame.
  - by apply (accounts_unique_view st); [apply onEntityUpdateMessage_frame|].
  - by apply (accounts_unique_view st); [apply setAttribute_account|].
  - by apply (accounts_unique_view st); [apply onRemoveEntity_frame|].
  - by apply (accounts_unique_view st); [apply onCreateEntity_frame|].
  - apply (accounts_unique_view st); [|done].
    by apply onSimulationInterval_frame.
Qed.

(** Every room the handlers can produce has unique accounts: two user
    records whose accounts are [===] both hold [null], the one account
    that the scan of [onJoin] does not see. *)
Lemma reachable_accounts_unique st : reachable st → accounts_unique st.
Proof.
  induction 1 as [defaultRoomId importError options st Hcreate|ev st _ IH].
  - unfold onCreate, mbind, outcome_bind, mret, outcome_ret in Hcreate.
    destruct (js_get options "roomId"); [|done].
    destruct (js_get options "logic"); [|done].
    injection Hcreate as <-. intros k1 k2 u1 u2 H1. cbn in H1.
    by rewrite lookup_empty in H1.
  - by apply after_unique.
Qed.

(** ** Updates that end on a property without a value *)

Lemma pair_tokens_length pairs : length (pair_tokens pairs) = (2 * length pairs)%nat.
Proof.
  unfold pair_tokens. induction pairs as [|[k v] pairs IH]; [done|].
  cbn [flat_map app length]. rewrite IH. lia.
Qed.

Lemma pair_tokens_app p1 p2 : pair_tokens (p1 ++ p2) = pair_tokens p1 ++ pair_tokens p2.
Proof. unfold pair_tokens. by rewrite flat_map_app. Qed.

Lemma at_index_app_r pre post i :
  at_index (pre ++ post) (length pre + i) = at_index post i.
Proof. unfold at_index. rewrite app_nth2 by lia. f_equal. lia. Qed.

(** A round of the loop in attribute mode when [attributes] is no longer
    the attribute map. *)
Lemma raw_round st key e raw data i k v :
  networkedEntities st !! key = Some e → Entity.attributes e = ARaw raw →
  at_index data i = VStr k →
  at_index data (i + 1) = VStr v → v ≠ "inc" →
  update_round key data 2 i st = (Throw TypeError, st).
Proof.
  intros He Hraw Hk Hv Hne. unfold update_round.
  rewrite Hk, Hv. cbn [strict_eq].
  rewrite (proj2 (String.eqb_neq v "inc")) by done.
  erewrite bind_run by reflexivity. cbn beta iota. cbn [Nat.eqb].
  erewrite bind_throw; [reflexivity|].
  unfold key_of. erewrite bind_run by reflexivity.
  erewrite bind_run by reflexivity.
  unfold entity_attributes_set.
  erewrite bind_run by apply (read_entity_run _ _ _ He). by rewrite Hraw.
Qed.

Lemma odd_update_loop id property rest :
  Forall (λ kv, snd kv ≠ "inc") rest →
  ∀ done st fuel,
    (length rest < fuel)%nat →
    is_Some (networkedEntities st !! id) →
    ∃ st',
      update_loop fuel id (odd_update id (done ++ rest) property) 2
        (2 + 2 * length done) st = (Throw TypeError, st')
      ∧ Entity.timestamp <$> networkedEntities st' !! id
        = Entity.timestamp <$> networkedEntities st !! id
      ∧ (rest = [] → st' = st).
Proof.
  induction 1 as [|[k v] rest Hne _ IH]; intros done st fuel Hfuel [e He];
    (destruct fuel as [|fuel]; [cbn [length] in Hfuel; lia|]).
  - rewrite app_nil_r. exists st. split; [|done].
    rewrite update_loop_S.
    assert (length (odd_update id done property) = (2 + 2 * length done + 1)%nat) as Hlen.
    { unfold odd_update. cbn [length]. rewrite length_app, pair_tokens_length. cbn. lia. }
    rewrite (proj2 (Nat.ltb_lt _ _)) by lia. cbn [negb].
    erewrite bind_throw; [reflexivity|].
    apply (missing_value_round _ _ _ _ property).
    + unfold odd_update.
      change (VStr id :: VStr "attributes" :: pair_tokens done ++ [VStr property])
        with ([VStr id; VStr "attributes"] ++ pair_tokens done ++ [VStr property]).
      rewrite (at_index_app_r [_; _] _ (2 * length done)).
      rewrite <- pair_tokens_length, <- (Nat.add_0_r (length (pair_tokens done))).
      by rewrite at_index_app_r.
    + unfold at_index. by rewrite nth_overflow by lia.
  - cbn [snd] in Hne.
    assert (odd_update id (done ++ (k, v) :: rest) property
            = ([VStr id; VStr "attributes"] ++ pair_tokens done)
              ++ VStr k :: VStr v :: pair_tokens rest ++ [VStr property]) as Hdata.
    { unfold odd_update. rewrite pair_tokens_app. cbn. by rewrite <- app_assoc. }
    assert (length ([VStr id; VStr "attributes"] ++ pair_tokens done)
            = (2 + 2 * length done)%nat) as Hpre
      by (rewrite length_app, pair_tokens_length; cbn; lia).
    assert (at_index (odd_update id (done ++ (k, v) :: rest) property)
              (2 + 2 * length done) = VStr k) as Hk.
    { rewrite Hdata, <- Hpre, <- (Nat.add_0_r (length _)). by rewrite at_index_app_r. }
    assert (at_index (odd_update id (done ++ (k, v) :: rest) property)
              (2 + 2 * length done + 1) = VStr v) as Hv
      by (rewrite Hdata, <- Hpre; by rewrite at_index_app_r).
    rewrite update_loop_S.
    assert ((2 + 2 * length done <? length (odd_update id (done ++ (k, v) :: rest) property))%nat
            = true) as ->.
    { apply Nat.ltb_lt. rewrite Hdata, length_app, Hpre. cbn. lia. }
    cbn [negb].
    destruct (Entity.attributes e) as [m|raw] eqn:Hattr.
    + erewrite bind_run by apply (plain_round _ _ _ _ _ _ k v He Hattr Hk Hv Hne).
      destruct (IH (done ++ [(k, v)])
                  (with_entities
                     <[id := Entity.mk (Entity.props e) (AMap (<[k := VStr v]> m))]> st)
                  fuel) as (st' & Hrun & Htime & _).
      { cbn [length] in Hfuel. lia. }
      { cbn. rewrite lookup_insert_eq. eauto. }
      exists st'. rewrite <- app_assoc in Hrun. cbn [app] in Hrun.
      rewrite length_app in Hrun. cbn [length] in Hrun.
      replace (2 + 2 * (length done + 1))%nat with (2 + 2 * length done + 2)%nat
        in Hrun by lia.
      split; [exact Hrun|]. split; [|done].
      rewrite Htime. cbn. by rewrite lookup_insert_eq, He.
    + exists st. split; [|done].
      by erewrite bind_throw by apply (raw_round _ _ _ _ _ _ k v He Hattr Hk Hv Hne).
Qed.

(** C6.  An [entityUpdate] that names an existing entity in attribute mode
    and ends, after any number of complete pairs of strings, on a property
    with no value token is not dropped: the handler throws a TypeError
    ([undefined.toString()]) and the entity does not get its new time
    stamp; the pairs before the fault are written, and with no pair
    before it the room is left as it was. *)
Theorem entityUpdate_missing_value_throws (st : Room) (client : Client.t) (id : string)
    (pairs : list (string * string)) (property : string) :
  is_Some (networkedEntities st !! id) →
  Forall (λ kv, snd kv ≠ "inc") pairs →
  ∃ st',
    onEntityUpdateMessage client (odd_update id pairs property) st = (Throw TypeError, st')
    ∧ Entity.timestamp <$> networkedEntities st' !! id
      = Entity.timestamp <$> networkedEntities st !! id
    ∧ (pairs = [] → st' = st).
Proof.
  intros [e He] Hpairs.
  destruct (odd_update_loop id property pairs Hpairs [] st
              (S (S (length (pair_tokens pairs ++ [VStr property])))))
    as (st' & Hloop & Htime & Hsame).
  { rewrite length_app, pair_tokens_length. cbn. lia. }
  { eauto. }
  exists st'. split; [|done].
  unfold onEntityUpdateMessage, odd_update.
  cbn [at_index nth]. unfold key_of.
  rewrite (bind_run _ _ st id st) by reflexivity.
  rewrite (bind_run _ _ st (networkedEntities st) st) by reflexivity.
  rewrite He. rewrite bool_decide_eq_true_2 by eauto. cbn [negb].
  rewrite (onEntityUpdate_attribute_mode _ _ _ _ _ He).
  by erewrite bind_throw by exact Hloop.
Qed.

Lemma entityUpdate_missing_value_throws_witness :
  (∃ st',
     onEntityUpdateMessage bob (odd_update "e1" [("hp", "7")] "score") sample_room
       = (Throw TypeError, st')
     ∧ Entity.timestamp <$> networkedEntities st' !! "e1"
       = Entity.timestamp <$> networkedEntities sample_room !! "e1")
  ∧ onEntityUpdateMessage bob (odd_update "e1" [] "score") sample_room
    = (Throw TypeError, sample_room).
Proof.
  split.
  - destruct (entityUpdate_missing_value_throws sample_room bob "e1" [("hp", "7")] "score")
      as (st' & Hrun & Htime & _).
    + vm_compute. eauto.
    + by repeat constructor.
    + exists st'. by split.
  - destruct (entityUpdate_missing_value_throws sample_room bob "e1" [] "score")
      as (st' & Hrun & _ & Hsame).
    + vm_compute. eauto.
    + constructor.
    + rewrite Hrun. by rewrite (Hsame eq_refl).
Defined.

(** The pair before the fault is written. *)
Example entityUpdate_throws_half_way :
  let '(result, st') :=
    onEntityUpdateMessage bob (odd_update "e1" [("hp", "7")] "score") sample_room in
  result = Throw TypeError
  ∧ (e ← networkedEntities st' !! "e1"; Entity.attribute e "hp") = Some (VStr "7")
  ∧ (e ← networkedEntities sample_room !! "e1"; Entity.attribute e "hp") = None.
Proof. vm_compute. auto. Qed.

(** * Further properties of the handlers *)

(** ** What each event leaves alone *)

Section Frames.
  (** A view of the room, and what it does not look at. *)
  Context {V : Type} (view : Room → V).
  Hypothesis view_trace : ∀ f st, view (with_trace f st) = view st.
  Hypothesis view_users : ∀ f st, view (with_users f st) = view st.
  Hypothesis view_entities : ∀ f st, view (with_entities f st) = view st.
  Hypothesis view_index : ∀ f st, view (with_clientEntities f st) = view st.

Lemma onJoin_frame client options : keeps view (onJoin client options).
Proof.
  unfold onJoin. repeat keeps_step; apply keeps_modify;
    first [ apply view_trace | apply view_users ].
Qed.

Lemma setAttribute_frame client msg : keeps view (setAttribute client msg).
Proof.
  unfold setAttribute. repeat keeps_step.
  - by apply entity_assign_frame.
  - by apply entity_attributes_set_all_frame.
  - apply keeps_modify. apply view_trace.
  - by apply user_assign_keeps.
  - by apply user_attributes_set_all_keeps.
Qed.

Lemma onLeave_catch_frame client : keeps view (onLeave_catch client).
Proof.
  unfold onLeave_catch. repeat keeps_step; apply keeps_modify;
    first [ apply view_trace | apply view_users | apply view_entities | apply view_index ].
Qed.

Lemma onLeave_frame client consented : keeps view (onLeave client consented).
Proof.
  unfold onLeave. repeat keeps_step;
    first [ apply onLeave_catch_frame
          | apply keeps_modify; first [ apply view_trace | apply view_users ] ].
Qed.

Lemma onLeave_resume_frame client settled : keeps view (onLeave_resume client settled).
Proof.
  destruct settled; cbn [onLeave_resume].
  - apply keeps_modify. apply view_trace.
  - apply onLeave_catch_frame.
Qed.

End Frames.

(** The user collection is written by join, leave, an expired wait and
    [setAttribute] only: no other event changes any user record. *)
Theorem users_written_by_join_leave_setAttribute_only (st : Room) (ev : Event) :
  writes_users ev = false → networkedUsers (after ev st) = networkedUsers st.
Proof.
  intros Hev. unfold after.
  destruct ev as [client options|client consented|client [newClient|]|client|client request
                 |client data|client msg|client removeId|entityViewID client msg|dt];
    try discriminate Hev; cbn [handle].
  - reflexivity.
  - by apply onPing_frame.
  - by apply onCustomMethod_frame.
  - by apply onEntityUpdateMessage_frame.
  - by apply onRemoveEntity_frame.
  - by apply onCreateEntity_frame.
  - by apply onSimulationInterval_frame.
Qed.

Lemma users_written_by_join_leave_setAttribute_only_witness :
  networkedUsers
    (after (OnEntityUpdate bob [VStr "e1"; VStr "sessionId"; VStr "mallory"]) sample_room)
  = networkedUsers sample_room.
Proof.
  by apply (users_written_by_join_leave_setAttribute_only sample_room
              (OnEntityUpdate bob [VStr "e1"; VStr "sessionId"; VStr "mallory"])).
Defined.

(** The Ownership Index is written by [createEntity] and by the purge (a
    consented leave, an expired wait) only; in particular [removeEntity]
    never takes an id out of it. *)
Theorem index_written_by_create_and_purge_only (st : Room) (ev : Event) :
  writes_index ev = false → clientEntities (after ev st) = clientEntities st.
Proof.
  intros Hev. unfold after.
  destruct ev as [client options|client [|]|client [newClient|]|client|client request
                 |client data|client msg|client removeId|entityViewID client msg|dt];
    try discriminate Hev; cbn [handle].
  - by apply onJoin_frame.
  - apply (keeps_bind clientEntities); [|intros; apply keeps_ret].
    unfold onLeave. repeat keeps_step.
  - reflexivity.
  - by apply onPing_frame.
  - by apply onCustomMethod_frame.
  - by apply onEntityUpdateMessage_frame.
  - by apply setAttribute_frame.
  - by apply onRemoveEntity_frame.
  - by apply onSimulationInterval_frame.
Qed.

Lemma index_written_by_create_and_purge_only_witness :
  clientEntities (after (OnRemoveEntity bob (VStr "e1")) sample_room)
  = clientEntities sample_room.
Proof.
  by apply (index_written_by_create_and_purge_only sample_room
              (OnRemoveEntity bob (VStr "e1"))).
Defined.

(** The server time moves on a simulation tick and on nothing else: no
    message of a client can change the clock that stamps the entities. *)
Theorem serverTime_moves_on_tick_only (st : Room) (ev : Event) :
  is_tick ev = false → serverTime (after ev st) = serverTime st.
Proof.
  intros Hev. unfold after.
  destruct ev as [client options|client consented|client settled|client|client request
                 |client data|client msg|client removeId|entityViewID client msg|dt];
    try discriminate Hev; cbn [handle].
  - by apply onJoin_frame.
  - apply (keeps_bind serverTime); [by apply onLeave_frame|intros; apply keeps_ret].
  - by apply onLeave_resume_frame.
  - by apply onPing_frame.
  - by apply onCustomMethod_frame.
  - by apply onEntityUpdateMessage_frame.
  - by apply setAttribute_frame.
  - by apply onRemoveEntity_frame.
  - by apply onCreateEntity_frame.
Qed.

Lemma serverTime_moves_on_tick_only_witness :
  serverTime
    (after (OnEntityUpdate bob [VStr "e1"; VStr "serverTime"; VStr "0"]) sample_room)
  = serverTime sample_room.
Proof.
  by apply (serverTime_moves_on_tick_only sample_room
              (OnEntityUpdate bob [VStr "e1"; VStr "serverTime"; VStr "0"])).
Defined.

(** ** Entities come from createEntity only *)

Section Overwrites.
  (** Views that do not change when an entity that is there is replaced. *)
  Context {V : Type} (view : Room → V).
  Hypothesis view_overwrite : ∀ st key e e',
    networkedEntities st !! key = Some e → view (with_entities <[key := e']> st) = view st.
  Hypothesis view_trace : ∀ f st, view (with_trace f st) = view st.
  Hypothesis view_users : ∀ f st, view (with_users f st) = view st.

Lemma entity_assign_over key p v : keeps view (entity_assign key p v).
Proof.
  intros st. unfold entity_assign, mbind, M_bind, read_entity.
  destruct (networkedEntities st !! key) as [e|] eqn:He; [|done]. cbn.
  by apply (view_overwrite _ _ e).
Qed.

Lemma entity_attributes_set_over key k v : keeps view (entity_attributes_set key k v).
Proof.
  intros st. unfold entity_attributes_set, mbind, M_bind, read_entity.
  destruct (networkedEntities st !! key) as [e|] eqn:He; [|done].
  destruct (Entity.attributes e); [|done]. destruct (nullish v); [done|]. cbn.
  by apply (view_overwrite _ _ e).
Qed.

Lemma entity_attributes_set_all_over key a keys :
  keeps view (entity_attributes_set_all key a keys).
Proof.
  induction keys as [|k keys IH]; cbn [entity_attributes_set_all].
  - apply keeps_ret.
  - repeat keeps_step; [apply entity_attributes_set_over | done].
Qed.

Lemma update_round_over key data startIndex i :
  keeps view (update_round key data startIndex i).
Proof.
  unfold update_round. repeat keeps_step;
    first [ apply entity_attributes_get_keeps | apply entity_attributes_set_over
          | apply entity_assign_over ].
Qed.

Lemma update_loop_over fuel key data startIndex i :
  keeps view (update_loop fuel key data startIndex i).
Proof.
  revert i. induction fuel as [|fuel IH]; intros i.
  - apply keeps_ret.
  - rewrite update_loop_S. destruct (negb _); [apply keeps_ret|].
    apply keeps_bind; [apply update_round_over | done].
Qed.

Lemma onEntityUpdateMessage_over client data :
  keeps view (onEntityUpdateMessage client data).
Proof.
  unfold onEntityUpdateMessage, onEntityUpdate. repeat keeps_step;
    first [ apply update_loop_over | apply entity_assign_over ].
Qed.

Lemma setAttribute_over client msg : keeps view (setAttribute client msg).
Proof.
  unfold setAttribute. repeat keeps_step.
  - apply entity_assign_over.
  - apply entity_attributes_set_all_over.
  - apply keeps_modify. apply view_trace.
  - by apply user_assign_keeps.
  - by apply user_attributes_set_all_keeps.
Qed.

End Overwrites.

Lemma entity_ids_overwrite st key e e' :
  networkedEntities st !! key = Some e →
  entity_ids (with_entities <[key := e']> st) = entity_ids st.
Proof.
  intros He. unfold entity_ids. cbn. rewrite dom_insert_L.
  apply subseteq_union_1_L, singleton_subseteq_l, elem_of_dom. eauto.
Qed.

Lemma fold_delete_dom {A} (ids : list string) (m : gmap string A) :
  dom (fold_left (λ m id, delete id m) ids m) ⊆ dom m.
Proof.
  intros k Hk. apply elem_of_dom in Hk as [x Hx]. rewrite fold_delete_lookup in Hx.
  destruct (bool_decide _); [done|]. apply elem_of_dom. eauto.
Qed.

Lemma onLeave_catch_ids st client :
  entity_ids (snd (onLeave_catch client st)) ⊆ entity_ids st.
Proof.
  destruct (onLeave_catch_run st client) as (st' & -> & _ & _ & He & _).
  unfold entity_ids. cbn [snd]. rewrite He.
  destruct (clientEntities st !! Client.id client); [apply fold_delete_dom|done].
Qed.

Lemma onLeave_ids st client consented :
  entity_ids (snd (onLeave client consented st)) ⊆ entity_ids st.
Proof.
  rewrite onLeave_run. cbn zeta. set (st1 := with_trace _ _).
  assert (entity_ids st1 = entity_ids st) as <-
    by (unfold st1; by destruct (networkedUsers st !! _)).
  destruct consented; [|done].
  pose proof (onLeave_catch_ids st1 client) as H.
  unfold mbind, M_bind. by destruct (onLeave_catch client st1) as [[[]|e] st'].
Qed.

(** No event but [createEntity] adds an entity: after any other event
    (an update, a [setAttribute], a removal, a purge, whatever its payload
    and whether its handler threw) every entity id of the room was one
    before. *)
Theorem entities_come_from_createEntity_only (st : Room) (ev : Event) :
  is_createEntity ev = false → entity_ids (after ev st) ⊆ entity_ids st.
Proof.
  intros Hev. unfold after.
  destruct ev as [client options|client consented|client [newClient|]|client|client request
                 |client data|client msg|client removeId|entityViewID client msg|dt];
    try discriminate Hev; cbn [handle].
  - by rewrite (onJoin_frame entity_ids).
  - pose proof (onLeave_ids st client consented) as H.
    unfold mbind, M_bind. by destruct (onLeave client consented st) as [[?|?] ?].
  - done.
  - apply onLeave_catch_ids.
  - by rewrite (onPing_frame entity_ids).
  - by rewrite (onCustomMethod_frame entity_ids).
  - rewrite (onEntityUpdateMessage_over entity_ids); [done|].
    apply entity_ids_overwrite.
  - rewrite (setAttribute_over entity_ids); [done|apply entity_ids_overwrite|done..].
  - unfold onRemoveEntity, key_of, mbind, M_bind, liftO, gets.
    destruct removeId as [| | | |key| |]; try done.
    destruct (bool_decide _); [|done]. unfold entity_ids. cbn.
    rewrite dom_delete_L. by apply subseteq_difference_l.
  - by rewrite (onSimulationInterval_frame entity_ids).
Qed.

Lemma entities_come_from_createEntity_only_witness :
  networkedEntities sample_room !! "e9" = None
  ∧ entity_ids
      (after (OnSetAttribute bob
         (VObj [("entityId", VStr "e9"); ("attributesToSet", VObj [("hp", VStr "1")])]))
         sample_room)
    ⊆ entity_ids sample_room.
Proof.
  split; [reflexivity|].
  by apply (entities_come_from_createEntity_only sample_room
              (OnSetAttribute bob
                 (VObj [("entityId", VStr "e9");
                        ("attributesToSet", VObj [("hp", VStr "1")])]))).
Defined.

(** ** The purge reaches every entity of the connection *)












Lemma bind_ret_snd {A B} (m : M A) (b : B) st :
  snd ((m;; mret b) st) = snd (m st).
Proof. unfold mbind, M_bind. by destruct (m st) as [[?|?] ?]. Qed.




(** ** Accounts stay unique, on a reachable room *)

Lemma reachable_accounts_unique_witness :
  reachable divergent_room ∧ accounts_unique divergent_room.
Proof.
  split; [apply divergent_room_reachable|].
  apply (reachable_accounts_unique divergent_room divergent_room_reachable).
Defined.

(** ** The accounts a join is refused for *)

(** [onJoin] compares the account of the request with the accounts as
    [toJSON()] gives them: the account of each admitted user, [undefined]
    standing for one that is [null].  On a match the requester is sent
    ["WalletNotPass"] and the room is otherwise as before; when the
    account of the request is neither [undefined] nor [null], exactly one
    record carries it.  Without a match the new user is stored under the
    session id, with [connected = true] and that account, and is sent
    back. *)
Theorem join_compares_accounts_as_toJSON_reads_them (st : Room) (client : Client.t)
    (options account : JsVal) :
  js_get options "account" = Ret account →
  accounts_unique st →
  ((∃ k u, networkedUsers st !! k = Some u
           ∧ strict_eq (json_field (User.account u)) account = true) →
   onJoin client options st
   = (Ret tt, with_trace (λ t, t ++ join_trace client "WalletNotPass" (PVal (VStr ""))) st)
   ∧ (nullish account = false → ∃ k, only_holder (networkedUsers st) account k))
  ∧ ((∀ k u, networkedUsers st !! k = Some u
             → strict_eq (json_field (User.account u)) account = false) →
     ∃ st' newUser, onJoin client options st = (Ret tt, st')
       ∧ networkedUsers st' = <[Client.sessionId client := newUser]> (networkedUsers st)
       ∧ trace st' = trace st ++ join_trace client "onJoin" (PUser newUser)
       ∧ User.connected newUser = VBool true
       ∧ User.account newUser = account
       ∧ User.get newUser "sessionId" = VStr (Client.sessionId client)).
Proof.
  intros Ha Huniq.
  destruct (joining_user_fields client options) as (Hc & Hacc & Hsid & _).
  assert (field options "account" = account) as Hf by (unfold field; by rewrite Ha).
  rewrite Hf in Hacc.
  rewrite (onJoin_run _ _ _ _ Ha). split.
  - intros (k & u & Hk & Heq).
    rewrite (proj2 (account_taken_spec _ _)) by (exists k, u; by rewrite Hacc).
    split; [done|]. intros Hnn.
    assert (nullish (User.account u) = false) as Hu.
    { destruct (nullish (User.account u)) eqn:Hn; [|done].
      unfold json_field in Heq. rewrite Hn in Heq. by destruct account. }
    rewrite (json_field_id _ Hu) in Heq.
    exists k. split; [by exists u|].
    intros k' u' Hk' Heq'. destruct (decide (k' = k)) as [|Hne]; [done|].
    destruct (Huniq k' k u' u Hk' Hk Hne
                (strict_eq_trans _ _ _ Heq' (strict_eq_sym _ _ Heq))) as [_ Hnull].
    by rewrite Hnull in Hu.
  - intros Hfresh.
    destruct (account_taken _ _) eqn:Htaken.
    + apply account_taken_spec in Htaken as (k & u & Hk & Heq).
      rewrite Hacc, (Hfresh _ _ Hk) in Heq. done.
    + eexists _, _. split; [done|]. by repeat split.
Qed.

Lemma join_compares_accounts_as_toJSON_reads_them_witness :
  (onJoin bob (VObj [("account", VStr "0xA")]) sample_room
   = (Ret tt,
      with_trace (λ t, t ++ join_trace bob "WalletNotPass" (PVal (VStr ""))) sample_room)
   ∧ ∃ k, only_holder (networkedUsers sample_room) (VStr "0xA") k)
  ∧ (∃ st' newUser, onJoin bob (VObj [("account", VStr "0xB")]) sample_room = (Ret tt, st')
       ∧ networkedUsers st' = <["bob" := newUser]> (networkedUsers sample_room)
       ∧ trace st' = trace sample_room ++ join_trace bob "onJoin" (PUser newUser)
       ∧ User.connected newUser = VBool true
       ∧ User.account newUser = VStr "0xB"
       ∧ User.get newUser "sessionId" = VStr "bob").
Proof.
  assert (accounts_unique sample_room) as Huniq.
  { intros k1 k2 u1 u2 H1 H2 Hne. unfold sample_room in *. cbn in H1, H2.
    apply lookup_singleton_Some in H1 as [<- _].
    apply lookup_singleton_Some in H2 as [<- _]. done. }
  split.
  - destruct (proj1 (join_compares_accounts_as_toJSON_reads_them sample_room bob
                       (VObj [("account", VStr "0xA")]) (VStr "0xA") eq_refl Huniq))
      as [Hrun Hholder].
    + exists "alice", sample_user. split; reflexivity.
    + split; [exact Hrun|]. apply Hholder. reflexivity.
  - refine (proj2 (join_compares_accounts_as_toJSON_reads_them sample_room bob
              (VObj [("account", VStr "0xB")]) (VStr "0xB") eq_refl Huniq) _).
    intros k u Hk. unfold sample_room in Hk. cbn in Hk.
    apply lookup_singleton_Some in Hk as [_ <-]. reflexivity.
Defined.

(** ** What an update stores *)

Lemma with_entities_same st key e :
  networkedEntities st !! key = Some e → with_entities <[key := e]> st = st.
Proof. intros H. destruct st. unfold with_entities. cbn in *. by rewrite insert_id. Qed.

Lemma field_tokens_length fields : length (field_tokens fields) = (2 * length fields)%nat.
Proof.
  unfold field_tokens. induction fields as [|[k v] fields IH]; [done|].
  cbn [flat_map app length]. rewrite IH. lia.
Qed.

Lemma field_tokens_app f1 f2 : field_tokens (f1 ++ f2) = field_tokens f1 ++ field_tokens f2.
Proof. unfold field_tokens. by rewrite flat_map_app. Qed.

Section Pairs.
  (** The loop over complete [name, value] pairs, when a round on a pair
      replaces the entity by [step] of it. *)
  Context (startIndex : nat) (step : Entity.t → string * JsVal → Entity.t).
  Context (ok : Entity.t → string * JsVal → Prop).
  Hypothesis round : ∀ st key e data i kv,
    networkedEntities st !! key = Some e →
    at_index data i = VStr (fst kv) → at_index data (i + 1) = snd kv → ok e kv →
    update_round key data startIndex i st
    = (Ret (i + 2)%nat, with_entities <[key := step e kv]> st).
  Hypothesis ok_step : ∀ e kv kv', ok e kv' → ok (step e kv) kv'.

Lemma pairs_loop key prefix rest :
  length prefix = startIndex →
  ∀ done st fuel e,
    Forall (ok e) rest →
    (length rest < fuel)%nat →
    networkedEntities st !! key = Some e →
    update_loop fuel key (prefix ++ field_tokens (done ++ rest)) startIndex
      (startIndex + 2 * length done) st
    = (Ret tt, with_entities <[key := fold_left step rest e]> st).
Proof.
  intros Hprefix. induction rest as [|[k v] rest IH]; intros done st fuel e Hok Hfuel He;
    (destruct fuel as [|fuel]; [cbn [length] in Hfuel; lia|]); rewrite update_loop_S.
  - rewrite app_nil_r, length_app, field_tokens_length, Hprefix.
    rewrite (proj2 (Nat.ltb_ge _ _)) by lia. cbn [negb fold_left].
    by rewrite with_entities_same.
  - apply Forall_cons in Hok as [Hkv Hok].
    assert (prefix ++ field_tokens (done ++ (k, v) :: rest)
            = (prefix ++ field_tokens done) ++ VStr k :: v :: field_tokens rest) as Hdata.
    { rewrite field_tokens_app. cbn. by rewrite <- app_assoc. }
    assert (length (prefix ++ field_tokens done) = (startIndex + 2 * length done)%nat) as Hpre
      by (rewrite length_app, field_tokens_length; lia).
    assert (at_index (prefix ++ field_tokens (done ++ (k, v) :: rest))
              (startIndex + 2 * length done) = VStr k) as Hk.
    { rewrite Hdata, <- Hpre, <- (Nat.add_0_r (length _)). by rewrite at_index_app_r. }
    assert (at_index (prefix ++ field_tokens (done ++ (k, v) :: rest))
              (startIndex + 2 * length done + 1) = v) as Hv
      by (rewrite Hdata, <- Hpre; by rewrite at_index_app_r).
    assert ((startIndex + 2 * length done
             <? length (prefix ++ field_tokens (done ++ (k, v) :: rest)))%nat = true) as ->.
    { apply Nat.ltb_lt. rewrite Hdata, length_app, Hpre. cbn. lia. }
    cbn [negb].
    erewrite bind_run by apply (round st key e _ _ (k, v) He Hk Hv Hkv).
    specialize (IH (done ++ [(k, v)]) (with_entities <[key := step e (k, v)]> st) fuel
                  (step e (k, v))).
    rewrite <- app_assoc in IH. cbn [app] in IH.
    rewrite length_app in IH. cbn [length] in IH.
    replace (startIndex + 2 * (length done + 1))%nat
      with (startIndex + 2 * length done + 2)%nat in IH by lia.
    rewrite IH.
    + cbn [fold_left]. rewrite with_entities_twice. unfold with_entities, compose. cbn.
      by rewrite insert_insert_eq.
    + eapply Forall_impl; [exact Hok|]. intros kv'. apply ok_step.
    + cbn [length] in Hfuel. lia.
    + cbn. by rewrite lookup_insert_eq.
Qed.

End Pairs.

Lemma printable_text v : printable v = true → method_toString v = Ret (text v).
Proof.
  unfold printable, convertible, method_toString, text.
  intros [Hn Hc]%andb_prop. apply negb_true_iff in Hn. rewrite Hn.
  by destruct (js_toString v).
Qed.

Lemma convertible_text v : convertible v = true → js_toString v = Ret (text v).
Proof. unfold convertible, text. by destruct (js_toString v). Qed.

(** A round of the loop on [name, value] in attribute mode, for a value
    that can be printed. *)
Lemma attribute_round st key e data i kv :
  networkedEntities st !! key = Some e →
  at_index data i = VStr (fst kv) → at_index data (i + 1) = snd kv →
  (∃ m, Entity.attributes e = AMap m) ∧ plain (snd kv) && printable (snd kv) = true →
  update_round key data 2 i st
  = (Ret (i + 2)%nat,
     with_entities
       <[key := Entity.mk (Entity.props e)
                  match Entity.attributes e with
                  | AMap m => AMap (<[fst kv := VStr (text (snd kv))]> m)
                  | ARaw v => ARaw v
                  end]> st).
Proof.
  intros He Hk Hv [[m Hm] [Hplain Hprint]%andb_prop]. unfold update_round.
  rewrite Hk, Hv. unfold plain in Hplain. apply negb_true_iff in Hplain. rewrite Hplain.
  erewrite bind_run by reflexivity. cbn beta iota. cbn [Nat.eqb].
  rewrite (printable_text _ Hprint), Hm.
  erewrite bind_run; cycle 1.
  { unfold key_of. erewrite bind_run by reflexivity.
    erewrite bind_run by reflexivity.
    by apply (entity_attributes_set_run _ _ _ _ _ _ He Hm). }
  reflexivity.
Qed.

(** A round of the loop on [name, value] in direct-field mode. *)
Lemma direct_round st key e data i kv :
  networkedEntities st !! key = Some e →
  at_index data i = VStr (fst kv) → at_index data (i + 1) = snd kv →
  plain (snd kv) = true →
  update_round key data 1 i st
  = (Ret (i + 2)%nat, with_entities <[key := Entity.assign e (fst kv) (snd kv)]> st).
Proof.
  intros He Hk Hv Hplain. unfold update_round.
  rewrite Hk, Hv. unfold plain in Hplain. apply negb_true_iff in Hplain. rewrite Hplain.
  erewrite bind_run by reflexivity. cbn beta iota. cbn [Nat.eqb].
  erewrite bind_run; cycle 1.
  { unfold key_of. erewrite bind_run by reflexivity.
    apply (entity_assign_run _ _ _ _ _ He). }
  reflexivity.
Qed.

Lemma store_pairs_fold pairs e m :
  Entity.attributes e = AMap m →
  fold_left
    (λ e kv, Entity.mk (Entity.props e)
               match Entity.attributes e with
               | AMap m => AMap (<[fst kv := VStr (text (snd kv))]> m)
               | ARaw v => ARaw v
               end) pairs e
  = Entity.mk (Entity.props e) (AMap (store_pairs pairs m)).
Proof.
  revert e m. induction pairs as [|kv pairs IH]; intros e m Hm; cbn [fold_left store_pairs].
  - destruct e. cbn in *. by rewrite Hm.
  - rewrite (IH _ (<[fst kv := VStr (text (snd kv))]> m)) by (cbn; by rewrite Hm). done.
Qed.

Lemma assign_props_fold fields e :
  Forall (λ kv, fst kv ≠ "attributes") fields →
  fold_left (λ e kv, Entity.assign e (fst kv) (snd kv)) fields e
  = Entity.mk (assign_props fields (Entity.props e)) (Entity.attributes e).
Proof.
  intros H. revert e. induction H as [|kv fields Hkv _ IH]; intros e;
    cbn [fold_left assign_props].
  - by destruct e.
  - rewrite IH. unfold Entity.assign.
    by rewrite (proj2 (String.eqb_neq (fst kv) "attributes")) by done.
Qed.

(** The entry of [onEntityUpdateMessage] on an entity that exists. *)
Lemma onEntityUpdateMessage_run st client id e rest :
  networkedEntities st !! id = Some e →
  onEntityUpdateMessage client (VStr id :: rest) st
  = (let startIndex :=
       if strict_eq (at_index (VStr id :: rest) 1) (VStr "attributes") then 2%nat else 1%nat in
     update_loop (S (S (length rest))) id (VStr id :: rest) startIndex startIndex;;
     t ← now; entity_assign id "timestamp" t) st.
Proof.
  intros He. unfold onEntityUpdateMessage, onEntityUpdate.
  cbn [at_index nth]. unfold key_of.
  rewrite (bind_run _ _ st id st) by reflexivity.
  rewrite (bind_run _ _ st (networkedEntities st) st) by reflexivity.
  rewrite He. rewrite bool_decide_eq_true_2 by eauto. cbn [negb].
  rewrite (bind_run _ _ st id st) by reflexivity.
  rewrite (bind_run _ _ st (networkedEntities st) st) by reflexivity.
  rewrite He. rewrite bool_decide_eq_true_2 by eauto. cbn [negb].
  cbn zeta. unfold mbind, M_bind.
  by rewrite (update_loop_fuel (length (VStr id :: rest)) (S (S (length rest))))
    by (destruct (strict_eq _ _); cbn [length]; lia).
Qed.

(** The stamp that ends an update. *)
Lemma stamp_run st id e :
  networkedEntities st !! id = Some e →
  (t ← now; entity_assign id "timestamp" t) st
  = (Ret tt,
     with_entities
       <[id := Entity.mk (<["timestamp" := clock st]> (Entity.props e)) (Entity.attributes e)]>
       st).
Proof.
  intros He. erewrite bind_run by reflexivity.
  by erewrite entity_assign_run by exact He.
Qed.

(** In attribute mode, an [entityUpdate] of complete pairs returns and
    stores every value as the string [toString()] gives for it (a number 7
    as ["7"]), a later pair for the same name winning over an earlier
    one; the entity is stamped with the clock, and nothing else in the
    room changes.  The sender is not looked at. *)
Theorem entityUpdate_stores_attributes_as_strings (st : Room) (client : Client.t)
    (id : string) (e : Entity.t) (m : gmap string JsVal) (pairs : list (string * JsVal)) :
  networkedEntities st !! id = Some e →
  Entity.attributes e = AMap m →
  Forall (λ kv, plain (snd kv) && printable (snd kv) = true) pairs →
  onEntityUpdateMessage client (VStr id :: VStr "attributes" :: field_tokens pairs) st
  = (Ret tt,
     with_entities
       <[id := Entity.mk (<["timestamp" := clock st]> (Entity.props e))
                 (AMap (store_pairs pairs m))]> st).
Proof.
  intros He Hm Hpairs.
  rewrite (onEntityUpdateMessage_run _ _ _ _ _ He).
  cbn [at_index nth strict_eq String.eqb Ascii.eqb Bool.eqb]. cbn zeta.
  erewrite bind_run; cycle 1.
  { apply (pairs_loop 2 _ _ attribute_round) with (prefix := [VStr id; VStr "attributes"])
                                                   (done := []) (e := e).
    - intros e0 kv kv' [[m0 Hm0] Hkv]. split; [|done]. cbn. rewrite Hm0. eauto.
    - done.
    - eapply Forall_impl; [exact Hpairs|]. intros kv Hkv. split; [eauto|done].
    - cbn [length]. rewrite field_tokens_length. lia.
    - done. }
  rewrite (store_pairs_fold _ _ _ Hm).
  erewrite stamp_run by (cbn; apply lookup_insert_eq).
  rewrite with_entities_twice. unfold with_entities, compose. cbn.
  by rewrite insert_insert_eq.
Qed.

Lemma entityUpdate_stores_attributes_as_strings_witness :
  onEntityUpdateMessage bob
    [VStr "e1"; VStr "attributes"; VStr "hp"; VNum (Number.of_Z 7); VStr "score"; VStr "9";
     VStr "hp"; VBool true] sample_room
  = (Ret tt,
     with_entities
       <["e1" := Entity.mk (<["timestamp" := clock sample_room]> (Entity.props sample_entity))
                   (AMap {[ "hp" := VStr "true"; "score" := VStr "9" ]})]> sample_room).
Proof.
  refine (eq_trans
    (entityUpdate_stores_attributes_as_strings sample_room bob "e1" sample_entity
       sample_attributes
       [("hp", VNum (Number.of_Z 7)); ("score", VStr "9"); ("hp", VBool true)]
       eq_refl eq_refl _) _).
  - by repeat constructor.
  - vm_compute. reflexivity.
Defined.

(** In direct-field mode, an [entityUpdate] of complete pairs whose names
    are not [attributes] and do not start with [_] or [$] (as [__proto__]
    and the names the schema library keeps for itself do) returns and
    assigns every value as it came to the
    field of that name, whoever sent it and whichever field it is ([id]
    and [ownerId] included); the time stamp is then set to the clock, also
    when the message named [timestamp]; the attribute map and the rest of
    the room do not change. *)
Theorem entityUpdate_assigns_fields (st : Room) (client : Client.t)
    (id : string) (e : Entity.t) (fields : list (string * JsVal)) :
  networkedEntities st !! id = Some e →
  Forall (λ kv, fst kv ≠ "attributes") fields →
  Forall (λ kv, internal_name (fst kv) = false) fields →
  Forall (λ kv, plain (snd kv) = true) fields →
  onEntityUpdateMessage client (VStr id :: field_tokens fields) st
  = (Ret tt,
     with_entities
       <[id := Entity.mk (<["timestamp" := clock st]> (assign_props fields (Entity.props e)))
                 (Entity.attributes e)]> st).
Proof.
  intros He Hnames _ Hplain.
  rewrite (onEntityUpdateMessage_run _ _ _ _ _ He).
  assert (strict_eq (at_index (VStr id :: field_tokens fields) 1) (VStr "attributes") = false)
    as ->.
  { destruct Hnames as [|[k v] fields Hk _]; [done|]. cbn in *. by apply String.eqb_neq. }
  cbn zeta.
  erewrite bind_run; cycle 1.
  { apply (pairs_loop 1 _ (λ _ kv, plain (snd kv) = true) direct_round)
      with (prefix := [VStr id]) (done := []) (e := e).
    - done.
    - done.
    - done.
    - cbn [length]. rewrite field_tokens_length. lia.
    - done. }
  rewrite (assign_props_fold _ _ Hnames).
  erewrite stamp_run by (cbn; apply lookup_insert_eq).
  rewrite with_entities_twice. unfold with_entities, compose. cbn.
  by rewrite insert_insert_eq.
Qed.

Lemma entityUpdate_assigns_fields_witness :
  onEntityUpdateMessage bob
    [VStr "e1"; VStr "ownerId"; VStr "bob"; VStr "xPos"; VStr "4.5"; VStr "timestamp"; VNull]
    sample_room
  = (Ret tt,
     with_entities
       <["e1" := Entity.mk
                   {[ "id" := VStr "e1"; "ownerId" := VStr "bob"; "xPos" := VStr "4.5";
                      "timestamp" := clock sample_room ]}
                   (AMap sample_attributes)]> sample_room).
Proof.
  refine (eq_trans
    (entityUpdate_assigns_fields sample_room bob "e1" sample_entity
       [("ownerId", VStr "bob"); ("xPos", VStr "4.5"); ("timestamp", VNull)] eq_refl _ _ _) _).
  - by repeat constructor.
  - by repeat constructor.
  - by repeat constructor.
  - vm_compute. reflexivity.
Defined.

(** ** Increments without a number *)

(** [parseFloat] skips the white space before the number, the no-break
    space (code unit 160) included. *)
Lemma parse_skips_white_space :
  Number.parse (String (ascii_of_N 160) (String (ascii_of_N 9) " 2.5")) = Number.parse "2.5".
Proof. vm_compute. reflexivity. Qed.

Lemma add_NaN_l y : Number.add Number.NaN y = Number.NaN.
Proof. by destruct y. Qed.

Lemma add_NaN_r x : Number.add x Number.NaN = Number.NaN.
Proof. by destruct x. Qed.

Lemma parseFloat_convertible v : convertible v = true → ∃ x, parseFloat v = Ret x.
Proof.
  unfold convertible, parseFloat. destruct (js_toString v) as [s|]; [|done]. cbn. eauto.
Qed.

(** A round on [name, "inc", amount] in attribute mode, whether or not the
    attribute is there. *)
Lemma inc_attribute_round st key e m data i k x y :
  networkedEntities st !! key = Some e → Entity.attributes e = AMap m →
  at_index data i = VStr k →
  at_index data (i + 1) = VStr "inc" →
  parseFloat (default VUndefined (m !! k)) = Ret x →
  parseFloat (at_index data (i + 2)) = Ret y →
  update_round key data 2 i st =
    (Ret (i + 3)%nat,
     with_entities <[key := Entity.mk (Entity.props e)
        (AMap (<[k := VStr (Number.toString (Number.add x y))]> m))]> st).
Proof.
  intros He Hm Hk Hinc Hx Hy. unfold update_round.
  rewrite Hinc, Hk. cbn [strict_eq String.eqb Ascii.eqb Bool.eqb Nat.eqb].
  unfold key_of. rewrite Hy.
  erewrite bind_run; cycle 1.
  { erewrite bind_run by reflexivity.
    erewrite bind_run by (apply (entity_attributes_get_run _ _ _ _ _ He Hm)).
    rewrite Hx.
    erewrite bind_run by reflexivity.
    erewrite bind_run by reflexivity. reflexivity. }
  cbn beta iota.
  erewrite bind_run; cycle 1.
  { erewrite bind_run by reflexivity.
    erewrite bind_run by reflexivity.
    by apply (entity_attributes_set_run _ _ _ _ _ _ He Hm). }
  unfold mret, M_ret. by replace (i + 1 + 2)%nat with (i + 3)%nat by lia.
Qed.

(** The same round in direct-field mode: the sum goes to the field. *)
Lemma inc_direct_round st key e m data i p x y :
  networkedEntities st !! key = Some e → Entity.attributes e = AMap m →
  at_index data i = VStr p →
  at_index data (i + 1) = VStr "inc" →
  parseFloat (default VUndefined (m !! p)) = Ret x →
  parseFloat (at_index data (i + 2)) = Ret y →
  update_round key data 1 i st =
    (Ret (i + 3)%nat,
     with_entities <[key := Entity.assign e p (VNum (Number.add x y))]> st).
Proof.
  intros He Hm Hp Hinc Hx Hy. unfold update_round.
  rewrite Hinc, Hp. cbn [strict_eq String.eqb Ascii.eqb Bool.eqb Nat.eqb].
  unfold key_of. rewrite Hy.
  erewrite bind_run; cycle 1.
  { erewrite bind_run by reflexivity.
    erewrite bind_run by (apply (entity_attributes_get_run _ _ _ _ _ He Hm)).
    rewrite Hx.
    erewrite bind_run by reflexivity.
    erewrite bind_run by reflexivity. reflexivity. }
  cbn beta iota.
  erewrite bind_run; cycle 1.
  { erewrite bind_run by reflexivity.
    apply (entity_assign_run _ _ _ _ _ He). }
  unfold mret, M_ret. by replace (i + 1 + 2)%nat with (i + 3)%nat by lia.
Qed.

(** An update of one increment, in attribute mode. *)
Lemma inc_attribute_run st client id e m k x y tail :
  networkedEntities st !! id = Some e → Entity.attributes e = AMap m →
  (length tail ≤ 1)%nat →
  parseFloat (default VUndefined (m !! k)) = Ret x →
  parseFloat (at_index tail 0) = Ret y →
  onEntityUpdateMessage client (VStr id :: VStr "attributes" :: VStr k :: VStr "inc" :: tail) st
  = (Ret tt,
     with_entities
       <[id := Entity.mk (<["timestamp" := clock st]> (Entity.props e))
                 (AMap (<[k := VStr (Number.toString (Number.add x y))]> m))]> st).
Proof.
  intros He Hm Htail Hx Hy.
  rewrite (onEntityUpdateMessage_run _ _ _ _ _ He).
  cbn [at_index nth strict_eq String.eqb Ascii.eqb Bool.eqb]. cbn zeta.
  erewrite bind_run; cycle 1.
  { rewrite update_loop_S. cbn [length Nat.ltb Nat.leb negb].
    erewrite bind_run by (by apply (inc_attribute_round st id e m _ 2 k x y)).
    rewrite update_loop_S.
    rewrite (proj2 (Nat.ltb_ge _ _)) by (cbn [length Nat.add]; lia). reflexivity. }
  erewrite stamp_run by (cbn; apply lookup_insert_eq).
  rewrite with_entities_twice. unfold with_entities, compose. cbn.
  by rewrite insert_insert_eq.
Qed.

(** ["inc"] does not start from zero.  On an entity that has no attribute
    of the name, [[id, "attributes", name, "inc", amount]] stores the
    string ["NaN"] under the name, whatever the amount; and when the amount
    token is missing, it stores ["NaN"] over whatever the attribute held.
    In both cases the handler returns and the entity is stamped. *)
Theorem inc_without_a_number_stores_NaN (st : Room) (client : Client.t) (id : string)
    (e : Entity.t) (m : gmap string JsVal) (k : string) :
  networkedEntities st !! id = Some e →
  Entity.attributes e = AMap m →
  (∀ amount, m !! k = None → convertible amount = true →
     onEntityUpdateMessage client [VStr id; VStr "attributes"; VStr k; VStr "inc"; amount] st
     = (Ret tt,
        with_entities
          <[id := Entity.mk (<["timestamp" := clock st]> (Entity.props e))
                    (AMap (<[k := VStr "NaN"]> m))]> st))
  ∧ (convertible (default VUndefined (m !! k)) = true →
     onEntityUpdateMessage client [VStr id; VStr "attributes"; VStr k; VStr "inc"] st
     = (Ret tt,
        with_entities
          <[id := Entity.mk (<["timestamp" := clock st]> (Entity.props e))
                    (AMap (<[k := VStr "NaN"]> m))]> st)).
Proof.
  intros He Hm. split.
  - intros amount Hk [y Hy]%parseFloat_convertible.
    rewrite (inc_attribute_run st client id e m k Number.NaN y [amount] He Hm);
      [by rewrite add_NaN_l|cbn; lia|by rewrite Hk|done].
  - intros [x Hx]%parseFloat_convertible.
    rewrite (inc_attribute_run st client id e m k x Number.NaN [] He Hm);
      [by rewrite add_NaN_r|cbn; lia|done|done].
Qed.

Lemma inc_without_a_number_stores_NaN_witness :
  onEntityUpdateMessage bob [VStr "e1"; VStr "attributes"; VStr "hp"; VStr "inc"; VStr "3"]
    sample_room
  = (Ret tt,
     with_entities
       <["e1" := Entity.mk (<["timestamp" := clock sample_room]> (Entity.props sample_entity))
                   (AMap (<["hp" := VStr "NaN"]> sample_attributes))]> sample_room)
  ∧ onEntityUpdateMessage bob [VStr "e1"; VStr "attributes"; VStr "score"; VStr "inc"]
      sample_room
    = (Ret tt,
       with_entities
         <["e1" := Entity.mk (<["timestamp" := clock sample_room]> (Entity.props sample_entity))
                     (AMap (<["score" := VStr "NaN"]> sample_attributes))]> sample_room).
Proof.
  split.
  - apply (proj1 (inc_without_a_number_stores_NaN sample_room bob "e1" sample_entity
                    sample_attributes "hp" eq_refl eq_refl) (VStr "3")); reflexivity.
  - apply (proj2 (inc_without_a_number_stores_NaN sample_room bob "e1" sample_entity
                    sample_attributes "score" eq_refl eq_refl)); reflexivity.
Defined.

(** In direct-field mode, ["inc"] adds the amount to the attribute of the
    name, not to the field: [[id, field, "inc", amount]] assigns
    [parseFloat(attributes.get(field)) + parseFloat(amount)] to the field,
    as a number; what the field held plays no part, and on an entity with
    no attribute of that name the field becomes [NaN].  The name of the
    field is not [attributes] and does not start with [_] or [$] (as
    [__proto__] and the names the schema library keeps for itself do),
    and the amount and the attribute read as ASCII text. *)
Theorem direct_inc_reads_the_attribute (st : Room) (client : Client.t) (id : string)
    (e : Entity.t) (m : gmap string JsVal) (p : string) (amount : JsVal) (x y : Number.t) :
  networkedEntities st !! id = Some e →
  Entity.attributes e = AMap m →
  p ≠ "attributes" →
  internal_name p = false →
  ascii_only (text (default VUndefined (m !! p))) = true →
  ascii_only (text amount) = true →
  parseFloat (default VUndefined (m !! p)) = Ret x →
  parseFloat amount = Ret y →
  onEntityUpdateMessage client [VStr id; VStr p; VStr "inc"; amount] st
  = (Ret tt,
     with_entities
       <[id := Entity.mk
                 (<["timestamp" := clock st]> (<[p := VNum (Number.add x y)]> (Entity.props e)))
                 (AMap m)]> st)
  ∧ (m !! p = None → Number.add x y = Number.NaN).
Proof.
  intros He Hm Hp _ _ _ Hx Hy. split.
  - rewrite (onEntityUpdateMessage_run _ _ _ _ _ He).
    cbn [at_index nth strict_eq]. rewrite (proj2 (String.eqb_neq p "attributes")) by done.
    cbn zeta.
    erewrite bind_run; cycle 1.
    { rewrite update_loop_S. cbn [length Nat.ltb Nat.leb negb].
      erewrite bind_run by (by apply (inc_direct_round st id e m _ 1 p x y)).
      rewrite update_loop_S. reflexivity. }
    erewrite stamp_run by (cbn; apply lookup_insert_eq).
    rewrite with_entities_twice. unfold with_entities, compose. cbn.
    rewrite insert_insert_eq. unfold Entity.assign.
    rewrite (proj2 (String.eqb_neq p "attributes")) by done. cbn. by rewrite Hm.
  - intros Hnone. rewrite Hnone in Hx. injection Hx as <-. apply add_NaN_l.
Qed.

Lemma direct_inc_reads_the_attribute_witness :
  onEntityUpdateMessage bob [VStr "e1"; VStr "xPos"; VStr "inc"; VStr "2"]
    (with_entities <["e1" := Entity.assign sample_entity "xPos" (VNum (Number.of_Z 1))]>
       sample_room)
  = (Ret tt,
     with_entities
       <["e1" := Entity.mk
                   {[ "id" := VStr "e1"; "ownerId" := VStr "alice";
                      "xPos" := VNum Number.NaN; "timestamp" := clock sample_room ]}
                   (AMap sample_attributes)]> sample_room).
Proof.
  refine (eq_trans
    (proj1 (direct_inc_reads_the_attribute
       (with_entities <["e1" := Entity.assign sample_entity "xPos" (VNum (Number.of_Z 1))]>
          sample_room)
       bob "e1" (Entity.assign sample_entity "xPos" (VNum (Number.of_Z 1)))
       sample_attributes "xPos" (VStr "2") Number.NaN (Number.parse "2")
       eq_refl eq_refl _ _ eq_refl eq_refl eq_refl eq_refl)) _).
  - done.
  - done.
  - vm_compute. reflexivity.
Defined.

(** ** Commands that name no entity *)

(** An [entityUpdate], a [removeEntity] or a [setAttribute] whose entity id
    names no entity of the room returns at once: nothing is stored, logged
    or sent, whatever else the message holds. *)
Theorem unknown_entity_commands_change_nothing (st : Room) (client : Client.t)
    (id : string) :
  networkedEntities st !! id = None →
  (∀ rest, onEntityUpdateMessage client (VStr id :: rest) st = (Ret tt, st))
  ∧ onRemoveEntity client (VStr id) st = (Ret tt, st)
  ∧ (∀ msg, js_get msg "entityId" = Ret (VStr id) → id ≠ "" →
       setAttribute client msg st = (Ret tt, st)).
Proof.
  intros Hnone. split; [|split].
  - intros rest. unfold onEntityUpdateMessage. cbn [at_index nth]. unfold key_of.
    rewrite (bind_run _ _ st id st) by reflexivity.
    rewrite (bind_run _ _ st (networkedEntities st) st) by reflexivity.
    rewrite Hnone. by rewrite bool_decide_eq_false_2 by (by intros [? ?]).
  - unfold onRemoveEntity.
    rewrite (bind_run _ _ st (networkedEntities st) st) by reflexivity.
    rewrite Hnone. by rewrite bool_decide_eq_false_2 by (by intros [? ?]).
  - intros msg He Hid.
    rewrite (setAttribute_fields st client msg _ _ _ He
               (js_get_field _ _ _ He "userId") (js_get_field _ _ _ He "attributesToSet")).
    cbn [nullish andb orb truthy].
    rewrite (proj2 (String.eqb_neq id "")) by done. cbn [negb].
    destruct (nullish (field msg "attributesToSet")); [done|].
    unfold key_of. rewrite (bind_run _ _ st id st) by reflexivity.
    rewrite (bind_run _ _ st (networkedEntities st) st) by reflexivity.
    rewrite Hnone. by rewrite bool_decide_eq_false_2 by (by intros [? ?]).
Qed.

Lemma unknown_entity_commands_change_nothing_witness :
  onEntityUpdateMessage bob [VStr "e9"; VStr "ownerId"; VStr "bob"] sample_room
  = (Ret tt, sample_room)
  ∧ onRemoveEntity bob (VStr "e9") sample_room = (Ret tt, sample_room)
  ∧ setAttribute bob
      (VObj [("entityId", VStr "e9"); ("userId", VStr "alice");
             ("attributesToSet", VObj [("hp", VStr "1")])]) sample_room
    = (Ret tt, sample_room).
Proof.
  destruct (unknown_entity_commands_change_nothing sample_room bob "e9" eq_refl)
    as (Hupdate & Hremove & Hset).
  split; [apply Hupdate|]. split; [apply Hremove|]. by apply Hset.
Defined.

(** ** What setAttribute stores *)

Lemma js_get_total v k : nullish v = false → js_get v k = Ret (field v k).
Proof. intros H. unfold field. destruct v; try done; cbn; by case_match. Qed.

Lemma set_keys_lookup a keys m k :
  set_keys a keys m !! k = if bool_decide (k ∈ keys) then Some (field a k) else m !! k.
Proof.
  unfold set_keys. revert m. induction keys as [|k0 keys IH]; intros m; cbn [fold_left].
  - by rewrite bool_decide_eq_false_2 by apply not_elem_of_nil.
  - rewrite IH. destruct (decide (k ∈ keys)) as [Hin|Hnin].
    + by rewrite !bool_decide_eq_true_2 by (done || by right).
    + rewrite (bool_decide_eq_false_2 (k ∈ keys)) by done.
      destruct (decide (k = k0)) as [->|Hne].
      * by rewrite lookup_insert_eq, bool_decide_eq_true_2 by left.
      * rewrite lookup_insert_ne by done.
        rewrite bool_decide_eq_false_2; [done|]. by intros [?|?]%elem_of_cons.
Qed.

Lemma entity_attributes_set_all_run a keys : nullish a = false →
  Forall (λ k, nullish (field a k) = false) keys →
  ∀ st id e m,
    networkedEntities st !! id = Some e → Entity.attributes e = AMap m →
    entity_attributes_set_all id a keys st
    = (Ret tt,
       with_entities <[id := Entity.mk (Entity.props e) (AMap (set_keys a keys m))]> st).
Proof.
  intros Ha. induction keys as [|k keys IH]; intros Hkeys st id e m He Hm;
    cbn [entity_attributes_set_all].
  - unfold set_keys. cbn [fold_left]. rewrite with_entities_same; [done|].
    rewrite He. f_equal. destruct e. cbn in *. by rewrite Hm.
  - apply Forall_cons in Hkeys as [Hk Hkeys].
    rewrite (js_get_total _ k Ha). erewrite bind_run by reflexivity.
    erewrite bind_run by apply (entity_attributes_set_run _ _ _ _ _ _ He Hm Hk).
    erewrite IH; [|done|cbn; apply lookup_insert_eq|reflexivity].
    rewrite with_entities_twice. unfold with_entities, compose. cbn.
    by rewrite insert_insert_eq.
Qed.

Lemma with_users_same st key u :
  networkedUsers st !! key = Some u → with_users <[key := u]> st = st.
Proof. intros H. destruct st. unfold with_users. cbn in *. by rewrite insert_id. Qed.

Lemma user_attributes_set_all_run a keys : nullish a = false →
  Forall (λ k, nullish (field a k) = false) keys →
  ∀ st key u,
    networkedUsers st !! key = Some u →
    user_attributes_set_all key a keys st
    = (Ret tt,
       with_users
         <[key := User.mk (User.props u) (set_keys a keys (User.attributes u))]> st).
Proof.
  intros Ha. induction keys as [|k keys IH]; intros Hkeys st key u Hu;
    cbn [user_attributes_set_all].
  - unfold set_keys. cbn [fold_left]. rewrite with_users_same; [done|].
    rewrite Hu. f_equal. by destruct u.
  - apply Forall_cons in Hkeys as [Hk Hkeys].
    rewrite (js_get_total _ k Ha). erewrite bind_run by reflexivity.
    erewrite bind_run; cycle 1.
    { unfold user_attributes_set. by rewrite Hu, Hk. }
    erewrite IH; [|done|cbn; apply lookup_insert_eq].
    unfold with_users. cbn. by rewrite insert_insert_eq.
Qed.

(** [setAttribute] on an entity: with a truthy [entityId] that names an
    entity and an [attributesToSet] that is not null and holds no [null]
    or [undefined] under its own keys (on such a value [MapSchema.set]
    throws), the handler returns; the entity is stamped with the clock
    and, for every own key of [attributesToSet], the attribute of that
    name holds the value of the message as it came (not its string);
    every other attribute, every other field of the entity and the rest
    of the room are as before, whoever the sender is and whatever
    [userId] holds. *)
Theorem setAttribute_stores_raw_values (st : Room) (client : Client.t)
    (msg entityId attributesToSet : JsVal) (id : string) (e : Entity.t)
    (m : gmap string JsVal) :
  js_get msg "entityId" = Ret entityId →
  js_get msg "attributesToSet" = Ret attributesToSet →
  truthy entityId = true →
  nullish attributesToSet = false →
  Forall (λ k, nullish (field attributesToSet k) = false) (own_keys attributesToSet) →
  js_toString entityId = Ret id →
  networkedEntities st !! id = Some e →
  Entity.attributes e = AMap m →
  setAttribute client msg st
  = (Ret tt,
     with_entities
       <[id := Entity.mk (<["timestamp" := clock st]> (Entity.props e))
                 (AMap (set_keys attributesToSet (own_keys attributesToSet) m))]> st)
  ∧ ∀ k, set_keys attributesToSet (own_keys attributesToSet) m !! k
         = if bool_decide (k ∈ own_keys attributesToSet)
           then Some (field attributesToSet k) else m !! k.
Proof.
  intros He Ha Ht Hnn Hvalues Hid Hent Hm. split; [|intros k; apply set_keys_lookup].
  rewrite (setAttribute_fields st client msg _ _ _ He (js_get_field _ _ _ He "userId") Ha).
  rewrite (truthy_not_nullish _ Ht), Hnn, Ht. cbn [andb orb].
  unfold key_of. rewrite Hid. rewrite (bind_run _ _ st id st) by reflexivity.
  rewrite (bind_run _ _ st (networkedEntities st) st) by reflexivity.
  rewrite Hent. rewrite bool_decide_eq_true_2 by eauto. cbn [negb].
  erewrite bind_run by reflexivity.
  erewrite bind_run by apply (entity_assign_run _ _ _ _ _ Hent).
  erewrite (entity_attributes_set_all_run _ _ Hnn Hvalues);
    [|cbn; apply lookup_insert_eq|exact Hm].
  rewrite with_entities_twice. unfold with_entities, compose. cbn.
  by rewrite insert_insert_eq.
Qed.

Lemma setAttribute_stores_raw_values_witness :
  setAttribute bob
    (VObj [("entityId", VStr "e1");
           ("attributesToSet", VObj [("score", VNum (Number.of_Z 7)); ("tags", VArr [])])])
    sample_room
  = (Ret tt,
     with_entities
       <["e1" := Entity.mk (<["timestamp" := clock sample_room]> (Entity.props sample_entity))
                   (AMap {[ "score" := VNum (Number.of_Z 7); "tags" := VArr [] ]})]>
       sample_room).
Proof.
  refine (eq_trans
    (proj1 (setAttribute_stores_raw_values sample_room bob
       (VObj [("entityId", VStr "e1");
              ("attributesToSet", VObj [("score", VNum (Number.of_Z 7)); ("tags", VArr [])])])
       (VStr "e1") (VObj [("score", VNum (Number.of_Z 7)); ("tags", VArr [])])
       "e1" sample_entity sample_attributes
       eq_refl eq_refl eq_refl eq_refl _ eq_refl eq_refl eq_refl)) _).
  - repeat constructor.
  - vm_compute. reflexivity.
Defined.

(** [setAttribute] on a user: with no truthy [entityId], a truthy [userId]
    and an [attributesToSet] that is not null and holds no [null] or
    [undefined] under its own keys (on such a value [MapSchema.set]
    throws), the handler returns.  When
    [userId] names a user, the record is stamped with the clock and gets
    the values of the message under the own keys of [attributesToSet];
    its other fields ([account], [connected], [id]) and its other
    attributes stay, and so does the rest of the room; any client can do
    this to any user.  When [userId] names no user, the handler logs an
    error and changes nothing. *)
Theorem setAttribute_on_user (st : Room) (client : Client.t)
    (msg entityId userId attributesToSet : JsVal) (key : string) :
  js_get msg "entityId" = Ret entityId →
  js_get msg "userId" = Ret userId →
  js_get msg "attributesToSet" = Ret attributesToSet →
  truthy entityId = false →
  truthy userId = true →
  nullish attributesToSet = false →
  Forall (λ k, nullish (field attributesToSet k) = false) (own_keys attributesToSet) →
  js_toString userId = Ret key →
  setAttribute client msg st
  = match networkedUsers st !! key with
    | Some u =>
        (Ret tt,
         with_users
           <[key := User.mk (<["timestamp" := clock st]> (User.props u))
                      (set_keys attributesToSet (own_keys attributesToSet)
                         (User.attributes u))]> st)
    | None => (Ret tt, with_trace (λ t, t ++ [no_user_log key]) st)
    end.
Proof.
  intros He Hu Ha Hte Htu Hnn Hvalues Hkey.
  rewrite (setAttribute_fields st client msg _ _ _ He Hu Ha).
  rewrite (truthy_not_nullish _ Htu), Hnn, Hte, Htu, andb_false_r. cbn [orb].
  unfold key_of. rewrite Hkey. rewrite (bind_run _ _ st key st) by reflexivity.
  rewrite (bind_run _ _ st (networkedUsers st) st) by reflexivity.
  destruct (networkedUsers st !! key) as [u|] eqn:Huser.
  - rewrite bool_decide_eq_true_2 by eauto. cbn [negb].
    erewrite bind_run by reflexivity.
    erewrite bind_run; cycle 1.
    { unfold user_assign. by rewrite Huser. }
    erewrite (user_attributes_set_all_run _ _ Hnn Hvalues) by (cbn; apply lookup_insert_eq).
    unfold with_users. cbn. by rewrite insert_insert_eq.
  - by rewrite bool_decide_eq_false_2 by (by intros [? ?]).
Qed.

Lemma setAttribute_on_user_witness :
  setAttribute bob
    (VObj [("entityId", VStr ""); ("userId", VStr "alice");
           ("attributesToSet", VObj [("account", VStr "0xB")])]) sample_room
  = (Ret tt,
     with_users
       <["alice" := User.mk (<["timestamp" := clock sample_room]> (User.props sample_user))
                      {[ "account" := VStr "0xB" ]}]> sample_room)
  ∧ User.account
      (User.mk (<["timestamp" := clock sample_room]> (User.props sample_user))
         {[ "account" := VStr "0xB" ]}) = VStr "0xA"
  ∧ setAttribute bob
      (VObj [("userId", VStr "zed"); ("attributesToSet", VObj [("hp", VStr "1")])])
      sample_room
    = (Ret tt, with_trace (λ t, t ++ [no_user_log "zed"]) sample_room).
Proof.
  split; [|split].
  - refine (eq_trans
      (setAttribute_on_user sample_room bob
         (VObj [("entityId", VStr ""); ("userId", VStr "alice");
                ("attributesToSet", VObj [("account", VStr "0xB")])])
         (VStr "") (VStr "alice") (VObj [("account", VStr "0xB")]) "alice"
         eq_refl eq_refl eq_refl eq_refl eq_refl eq_refl _ eq_refl) _).
    + repeat constructor.
    + vm_compute. reflexivity.
  - vm_compute. reflexivity.
  - refine (eq_trans
      (setAttribute_on_user sample_room bob
         (VObj [("userId", VStr "zed"); ("attributesToSet", VObj [("hp", VStr "1")])])
         VUndefined (VStr "zed") (VObj [("hp", VStr "1")]) "zed"
         eq_refl eq_refl eq_refl eq_refl eq_refl eq_refl _ eq_refl) _).
    + repeat constructor.
    + vm_compute. reflexivity.
Defined.

(** ** What createEntity stores *)

Lemma js_get_ret v k r : js_get v k = Ret r → r = field v k.
Proof. intros H. unfold field. by rewrite H. Qed.

Lemma parseFloat_ret v x : parseFloat v = Ret x → x = Number.parse (text v).
Proof.
  unfold parseFloat, text, mbind, outcome_bind. destruct (js_toString v); [|done].
  by intros [= <-].
Qed.

Lemma method_toString_ret v s : method_toString v = Ret s → s = text v.
Proof.
  unfold method_toString, text. destruct (nullish v); [done|].
  intros H. by rewrite H.
Qed.

(** A round of the loop over [creationMessage.attributes] that returns. *)
Lemma creation_attribute_run a e m key e' :
  Entity.attributes e = AMap m →
  creation_attribute a e key = Ret e' →
  e' = Entity.mk (creation_props a (Entity.props e) key) (AMap (creation_attrs a m key)).
Proof.
  intros Hm H. unfold creation_attribute, mbind, outcome_bind, mret, outcome_ret in H.
  unfold creation_props, creation_attrs, reserved, coordinate.
  destruct (js_get a key) as [value|] eqn:Hvalue; [|done].
  apply js_get_ret in Hvalue as ->.
  destruct (String.eqb key "creationPos") eqn:Hpos; [|destruct (String.eqb key "creationRot")].
  - repeat case_match; simplify_eq.
    repeat match goal with
           | H : js_get _ _ = Ret _ |- _ => apply js_get_ret in H as ->
           | H : parseFloat _ = Ret _ |- _ => apply parseFloat_ret in H as ->
           end.
    unfold Entity.assign. cbn. by rewrite Hm.
  - repeat case_match; simplify_eq.
    repeat match goal with
           | H : js_get _ _ = Ret _ |- _ => apply js_get_ret in H as ->
           | H : parseFloat _ = Ret _ |- _ => apply parseFloat_ret in H as ->
           end.
    unfold Entity.assign. cbn. by rewrite Hm.
  - destruct (method_toString _) as [s|] eqn:Hs; [|done].
    apply method_toString_ret in Hs as ->. rewrite Hm in H. cbn [orb]. by injection H as <-.
Qed.

Lemma creation_attributes_run a keys e m e' :
  Entity.attributes e = AMap m →
  creation_attributes a keys e = Ret e' →
  e' = Entity.mk (fold_left (creation_props a) keys (Entity.props e))
         (AMap (fold_left (creation_attrs a) keys m)).
Proof.
  revert e m. induction keys as [|key keys IH]; intros e m Hm; cbn [creation_attributes fold_left].
  - intros [= <-]. destruct e. cbn in *. by rewrite Hm.
  - unfold mbind, outcome_bind.
    destruct (creation_attribute a e key) as [e1|] eqn:H1; [|done].
    apply (creation_attribute_run _ _ _ _ _ Hm) in H1 as ->.
    intros H. by apply (IH (Entity.mk _ _) _ eq_refl) in H.
Qed.

(** [createEntity], when it returns. *)
Lemma onCreateEntity_ret st entityViewID client creationMessage st' :
  onCreateEntity entityViewID client creationMessage st = (Ret tt, st') →
  let a := field creationMessage "attributes" in
  st' =
    with_clientEntities
      <[Client.id client :=
          default [] (clientEntities st !! Client.id client) ++ [entityViewID]]>
      (with_entities
         <[entityViewID :=
             Entity.mk
               (fold_left (creation_props a) (own_keys a)
                  (creation_header st entityViewID client creationMessage))
               (AMap (fold_left (creation_attrs a) (own_keys a) ∅))]> st).
Proof.
  unfold onCreateEntity. intros H.
  erewrite bind_run in H by reflexivity.
  destruct (js_get creationMessage "creationId") as [creationId|x] eqn:Hc;
    [|by erewrite bind_throw in H].
  apply js_get_ret in Hc as ->.
  erewrite bind_run in H by reflexivity. erewrite bind_run in H by reflexivity.
  destruct (js_get creationMessage "attributes") as [attributes|x] eqn:Ha;
    [|by erewrite bind_throw in H].
  apply js_get_ret in Ha as ->.
  erewrite bind_run in H by reflexivity.
  match type of H with
  | context [creation_attributes ?a ?keys ?e0] =>
      destruct (creation_attributes a keys e0) as [e|x] eqn:He;
        [|by erewrite bind_throw in H];
      apply (creation_attributes_run a keys e0 ∅) in He as ->;
        [|by destruct (nullish (field creationMessage "creationId"))]
  end.
  erewrite bind_run in H by reflexivity. erewrite bind_run in H by reflexivity.
  erewrite bind_run in H by reflexivity.
  cbn [clientEntities with_entities] in H. cbn zeta.
  assert (∀ st1,
            (match clientEntities st !! Client.id client with
             | Some ids =>
                 modify (with_clientEntities <[Client.id client := ids ++ [entityViewID]]>)
             | None => modify (with_clientEntities <[Client.id client := [entityViewID]]>)
             end) st1
            = (Ret tt,
               with_clientEntities
                 <[Client.id client :=
                     default [] (clientEntities st !! Client.id client) ++ [entityViewID]]>
                 st1)) as Hindex
    by (intros; by destruct (clientEntities st !! Client.id client)).
  rewrite Hindex in H. injection H as <-.
  unfold creation_header, clock.
  by destruct (nullish (field creationMessage "creationId")).
Qed.

Lemma creation_props_other a keys props p :
  p ∉ ["xPos"; "yPos"; "zPos"; "xRot"; "yRot"; "zRot"; "wRot"] →
  fold_left (creation_props a) keys props !! p = props !! p.
Proof.
  intros Hp. revert props. induction keys as [|key keys IH]; intros props; cbn [fold_left].
  - done.
  - rewrite IH. unfold creation_props.
    repeat case_match; rewrite ?lookup_insert_ne; try done;
      intros Heq; apply Hp; rewrite <- Heq; set_solver.
Qed.

Lemma creation_attrs_lookup a keys m k :
  fold_left (creation_attrs a) keys m !! k
  = if bool_decide (k ∈ keys) && negb (reserved k)
    then Some (VStr (text (field a k))) else m !! k.
Proof.
  revert m. induction keys as [|k0 keys IH]; intros m; cbn [fold_left].
  - by rewrite bool_decide_eq_false_2 by apply not_elem_of_nil.
  - rewrite IH. unfold creation_attrs. destruct (decide (k = k0)) as [->|Hne].
    + rewrite (bool_decide_eq_true_2 (k0 ∈ k0 :: keys)) by left.
      destruct (reserved k0); cbn [andb negb].
      * by rewrite andb_false_r.
      * rewrite andb_true_r, lookup_insert_eq. by destruct (bool_decide _).
    + rewrite (bool_decide_ext (k ∈ k0 :: keys) (k ∈ keys))
        by (rewrite elem_of_cons; split; [by intros [?|?]|by right]).
      destruct (reserved k0); [done|]. by rewrite lookup_insert_ne.
Qed.

(** A [createEntity] that returns has stored, under the generated id, an
    entity whose [id] is that id, whose [ownerId] is the id of the sender
    (nothing in the message can choose another owner), stamped with the
    clock, with [creationId] as sent when it is not null; it has appended
    the id to the sender's list in the Ownership Index, and changed
    nothing else in the room.  The attributes of the entity are the own
    keys of [creationMessage.attributes] other than [creationPos] and
    [creationRot], each holding the string of the value sent. *)
Theorem createEntity_stores_owned_entity (st : Room) (entityViewID : string)
    (client : Client.t) (creationMessage : JsVal) (st' : Room) :
  onCreateEntity entityViewID client creationMessage st = (Ret tt, st') →
  ∃ e m,
    st' = with_clientEntities
            <[Client.id client :=
                default [] (clientEntities st !! Client.id client) ++ [entityViewID]]>
            (with_entities <[entityViewID := e]> st)
    ∧ Entity.id e = VStr entityViewID
    ∧ Entity.ownerId e = VStr (Client.id client)
    ∧ Entity.timestamp e = clock st
    ∧ Entity.get e "creationId"
      = (if nullish (field creationMessage "creationId") then VUndefined
         else field creationMessage "creationId")
    ∧ Entity.attributes e = AMap m
    ∧ ∀ k, m !! k
           = if bool_decide (k ∈ own_keys (field creationMessage "attributes"))
                && negb (reserved k)
             then Some (VStr (text (field (field creationMessage "attributes") k)))
             else None.
Proof.
  intros H. apply onCreateEntity_ret in H. cbn zeta in H.
  eexists _, _. split; [exact H|].
  assert (∀ p, p ∉ ["xPos"; "yPos"; "zPos"; "xRot"; "yRot"; "zRot"; "wRot"] →
            Entity.get
              (Entity.mk
                 (fold_left (creation_props (field creationMessage "attributes"))
                    (own_keys (field creationMessage "attributes"))
                    (creation_header st entityViewID client creationMessage))
                 (AMap (fold_left (creation_attrs (field creationMessage "attributes"))
                          (own_keys (field creationMessage "attributes")) ∅))) p
            = default VUndefined
                (creation_header st entityViewID client creationMessage !! p)) as Hget.
  { intros p Hp. unfold Entity.get. cbn. by rewrite creation_props_other. }
  assert (∀ p : string, p ∈ ["id"; "ownerId"; "timestamp"; "creationId"] →
            p ∉ ["xPos"; "yPos"; "zPos"; "xRot"; "yRot"; "zRot"; "wRot"]) as Hother.
  { intros p Hp Hq. repeat (apply elem_of_cons in Hp as [->|Hp]);
      try (by apply elem_of_nil in Hp);
      repeat (apply elem_of_cons in Hq as [Hq|Hq]; [discriminate Hq|]);
      by apply elem_of_nil in Hq. }
  unfold Entity.id, Entity.ownerId, Entity.timestamp.
  rewrite !Hget by (apply Hother; repeat constructor).
  unfold creation_header. cbn zeta.
  repeat split;
    try (destruct (nullish _);
         by repeat (rewrite lookup_insert_eq || rewrite lookup_insert_ne by done)).
  intros k. rewrite creation_attrs_lookup. by rewrite lookup_empty.
Qed.

Lemma createEntity_stores_owned_entity_witness :
  ∃ e m,
    after (OnCreateEntity "e2" bob spawn_message) sample_room
    = with_clientEntities <["bob" := ["e2"]]> (with_entities <["e2" := e]> sample_room)
    ∧ Entity.id e = VStr "e2"
    ∧ Entity.ownerId e = VStr "bob"
    ∧ Entity.timestamp e = clock sample_room
    ∧ Entity.get e "creationId" = VStr "c1"
    ∧ Entity.attributes e = AMap m
    ∧ m !! "score" = Some (VStr "5")
    ∧ m !! "creationPos" = None.
Proof.
  assert (onCreateEntity "e2" bob spawn_message sample_room
          = (Ret tt, after (OnCreateEntity "e2" bob spawn_message) sample_room)) as Hrun
    by (vm_compute; reflexivity).
  destruct (createEntity_stores_owned_entity _ _ _ _ _ Hrun)
    as (e & m & Hst & Hid & Ho & Ht & Hc & Hm & Hlook).
  exists e, m. repeat split; try done; by rewrite Hlook.
Defined.

Lemma creation_props_position a keys props :
  "creationPos" ∈ keys →
  fold_left (creation_props a) keys props !! "xPos" = Some (coordinate a "creationPos" "0")
  ∧ fold_left (creation_props a) keys props !! "yPos" = Some (coordinate a "creationPos" "1")
  ∧ fold_left (creation_props a) keys props !! "zPos" = Some (coordinate a "creationPos" "2").
Proof.
  induction keys as [|key keys IH] using rev_ind; [by intros ?%elem_of_nil|].
  intros Hin. rewrite fold_left_app. cbn [fold_left]. unfold creation_props at 1 3 5.
  destruct (String.eqb key "creationPos") eqn:Hpos.
  - apply String.eqb_eq in Hpos as ->.
    repeat split; by repeat (rewrite lookup_insert_eq || rewrite lookup_insert_ne by done).
  - apply elem_of_app in Hin as [Hin|Hin%list_elem_of_singleton];
      [|apply String.eqb_neq in Hpos; by destruct Hpos].
    destruct (String.eqb key "creationRot"); [|by apply IH].
    rewrite !lookup_insert_ne by done. by apply IH.
Qed.

Lemma creation_props_rotation a keys props :
  "creationRot" ∈ keys →
  fold_left (creation_props a) keys props !! "xRot" = Some (coordinate a "creationRot" "0")
  ∧ fold_left (creation_props a) keys props !! "yRot" = Some (coordinate a "creationRot" "1")
  ∧ fold_left (creation_props a) keys props !! "zRot" = Some (coordinate a "creationRot" "2")
  ∧ fold_left (creation_props a) keys props !! "wRot" = Some (coordinate a "creationRot" "3").
Proof.
  induction keys as [|key keys IH] using rev_ind; [by intros ?%elem_of_nil|].
  intros Hin. rewrite fold_left_app. cbn [fold_left]. unfold creation_props at 1 3 5 7.
  destruct (String.eqb key "creationPos") eqn:Hpos.
  - apply String.eqb_eq in Hpos as ->.
    apply elem_of_app in Hin as [Hin|Hin%list_elem_of_singleton]; [|done].
    rewrite !lookup_insert_ne by done. by apply IH.
  - destruct (String.eqb key "creationRot") eqn:Hrot.
    + apply String.eqb_eq in Hrot as ->.
      repeat split; by repeat (rewrite lookup_insert_eq || rewrite lookup_insert_ne by done).
    + apply elem_of_app in Hin as [Hin|Hin%list_elem_of_singleton];
        [by apply IH|apply String.eqb_neq in Hrot; by destruct Hrot].
Qed.

(** The keys [creationPos] and [creationRot] of
    [creationMessage.attributes] set the position and the rotation of the
    new entity: each component is [parseFloat] of the element of that index,
    so a component that is missing or is not a number becomes [NaN]; the
    components read as ASCII text. *)
Theorem creationPos_and_creationRot_set_the_pose (st : Room) (entityViewID : string)
    (client : Client.t) (creationMessage : JsVal) (st' : Room) (e : Entity.t) :
  onCreateEntity entityViewID client creationMessage st = (Ret tt, st') →
  networkedEntities st' !! entityViewID = Some e →
  ("creationPos" ∈ own_keys (field creationMessage "attributes") →
   Forall (λ i, ascii_only
                  (text (field (field (field creationMessage "attributes") "creationPos") i))
                = true) ["0"; "1"; "2"] →
   Entity.get e "xPos" = coordinate (field creationMessage "attributes") "creationPos" "0"
   ∧ Entity.get e "yPos" = coordinate (field creationMessage "attributes") "creationPos" "1"
   ∧ Entity.get e "zPos" = coordinate (field creationMessage "attributes") "creationPos" "2")
  ∧ ("creationRot" ∈ own_keys (field creationMessage "attributes") →
     Forall (λ i, ascii_only
                    (text (field (field (field creationMessage "attributes") "creationRot") i))
                  = true) ["0"; "1"; "2"; "3"] →
     Entity.get e "xRot" = coordinate (field creationMessage "attributes") "creationRot" "0"
     ∧ Entity.get e "yRot" = coordinate (field creationMessage "attributes") "creationRot" "1"
     ∧ Entity.get e "zRot" = coordinate (field creationMessage "attributes") "creationRot" "2"
     ∧ Entity.get e "wRot" = coordinate (field creationMessage "attributes") "creationRot" "3").
Proof.
  intros H He. apply onCreateEntity_ret in H. cbn zeta in H. subst st'.
  cbn in He. rewrite lookup_insert_eq in He. injection He as <-.
  unfold Entity.get. cbn [Entity.props]. split; intros Hin _.
  - destruct (creation_props_position (field creationMessage "attributes") _
                (creation_header st entityViewID client creationMessage) Hin)
      as (-> & -> & ->).
    done.
  - destruct (creation_props_rotation (field creationMessage "attributes") _
                (creation_header st entityViewID client creationMessage) Hin)
      as (-> & -> & -> & ->).
    done.
Qed.

Lemma creationPos_and_creationRot_set_the_pose_witness :
  networkedEntities (after (OnCreateEntity "e2" bob spawn_message) sample_room) !! "e2"
  = Some spawned
  ∧ Entity.get spawned "xPos" = VNum (Number.of_Z 1)
  ∧ Entity.get spawned "yPos" = VNum (Number.parse "2.5")
  ∧ Entity.get spawned "zPos" = VNum Number.NaN.
Proof.
  assert (onCreateEntity "e2" bob spawn_message sample_room
          = (Ret tt, after (OnCreateEntity "e2" bob spawn_message) sample_room)) as Hrun
    by (vm_compute; reflexivity).
  assert (networkedEntities (after (OnCreateEntity "e2" bob spawn_message) sample_room)
            !! "e2" = Some spawned) as He
    by (vm_compute; reflexivity).
  split; [exact He|].
  destruct (proj1 (creationPos_and_creationRot_set_the_pose _ _ _ _ _ _ Hrun He))
    as (Hx & Hy & Hz).
  - vm_compute. apply list_elem_of_further, list_elem_of_here.
  - repeat constructor.
  - rewrite Hx, Hy, Hz. vm_compute. by repeat split.
Defined.

(** A [createEntity] that throws (a message that is [null], an attribute
    whose value is [null] or [undefined], a position that is [null]) has
    stored nothing: no entity, no index entry, and nothing of the
    attributes that came before the fault. *)
Theorem createEntity_failure_stores_nothing (st : Room) (entityViewID : string)
    (client : Client.t) (creationMessage : JsVal) (e : Exn) (st' : Room) :
  onCreateEntity entityViewID client creationMessage st = (Throw e, st') → st' = st.
Proof.
  intros H.
  destruct (onCreateEntity_run st entityViewID client creationMessage)
    as [[x Hthrow]|(e0 & _ & Hret)].
  - rewrite Hthrow in H. by simplify_eq.
  - by rewrite Hret in H.
Qed.

Lemma createEntity_failure_stores_nothing_witness :
  onCreateEntity "e2" bob null_attribute_message sample_room = (Throw TypeError, sample_room)
  ∧ onCreateEntity "e2" bob VNull sample_room = (Throw TypeError, sample_room).
Proof.
  assert (∀ msg,
            fst (onCreateEntity "e2" bob msg sample_room) = Throw TypeError →
            onCreateEntity "e2" bob msg sample_room = (Throw TypeError, sample_room)) as H.
  { intros msg Hfst.
    destruct (onCreateEntity "e2" bob msg sample_room) as [r st'] eqn:Hrun.
    cbn in Hfst. subst r.
    by rewrite (createEntity_failure_stores_nothing _ _ _ _ _ _ Hrun). }
  split; apply H; vm_compute; reflexivity.
Defined.

(** ** A join undone by a leave *)

Lemma onJoin_users st client options :
  networkedUsers (snd (onJoin client options st)) = networkedUsers st
  ∨ ∃ u, networkedUsers (snd (onJoin client options st))
         = <[Client.sessionId client := u]> (networkedUsers st).
Proof.
  unfold onJoin, mbind, M_bind, emit, modify, liftO, gets.
  destruct (read_fields options profile_fields); cbn; [|by left].
  destruct (account_taken _ _); cbn; [by left|right; eauto].
Qed.

(** A client whose session names no user and whose id has no entry in the
    Ownership Index joins and then leaves with consent: whether the join
    was admitted, rejected for its account or failed on its options, the
    users, the entities, the index and the clock are afterwards what they
    were before the join. *)
Theorem join_then_consented_leave_restores_room (st : Room) (client : Client.t)
    (options : JsVal) :
  networkedUsers st !! Client.sessionId client = None →
  clientEntities st !! Client.id client = None →
  contents (after (OnLeave client true) (after (OnJoin client options) st)) = contents st.
Proof.
  intros Hu Hi. unfold after at 1. cbn [handle].
  rewrite bind_ret_snd, onLeave_run. cbn zeta. rewrite bind_ret_snd.
  set (st1 := after (OnJoin client options) st).
  assert (networkedEntities st1 = networkedEntities st) as He1
    by (by apply (onJoin_frame networkedEntities)).
  assert (clientEntities st1 = clientEntities st) as Hi1
    by (by apply (onJoin_frame clientEntities)).
  assert (serverTime st1 = serverTime st) as Ht1
    by (by apply (onJoin_frame serverTime)).
  assert (delete (Client.sessionId client) (networkedUsers st1) = networkedUsers st) as Hu1.
  { destruct (onJoin_users st client options) as [H|[u H]]; unfold st1, after; cbn [handle];
      rewrite H.
    - by apply delete_id.
    - by apply delete_insert_id. }
  set (st2 := with_trace _ _).
  assert (networkedEntities st2 = networkedEntities st
          ∧ clientEntities st2 = clientEntities st
          ∧ serverTime st2 = serverTime st
          ∧ delete (Client.sessionId client) (networkedUsers st2) = networkedUsers st)
    as (He2 & Hi2 & Ht2 & Hu2).
  { unfold st2. destruct (networkedUsers st1 !! Client.sessionId client); cbn;
      rewrite ?delete_insert_eq; done. }
  destruct (onLeave_catch_run st2 client) as (st' & Hrun & Hu' & Hi' & He' & _).
  rewrite Hrun. cbn [snd]. unfold contents.
  assert (serverTime st' = serverTime st2) as Ht'.
  { pose proof (onLeave_catch_frame serverTime) as Hk.
    specialize (Hk ltac:(done) ltac:(done) ltac:(done) ltac:(done) client st2).
    by rewrite Hrun in Hk. }
  rewrite He', Hu', Hi', Ht', Hi2, Hi, He2, Hu2, Ht2.
  by rewrite delete_id.
Qed.

Lemma join_then_consented_leave_restores_room_witness :
  contents
    (after (OnLeave carol true)
       (after (OnJoin carol (VObj [("account", VStr "0xC")])) sample_room))
  = contents sample_room.
Proof.
  by apply (join_then_consented_leave_restores_room sample_room carol
              (VObj [("account", VStr "0xC")])).
Defined.

(** ** The configuration of the room *)

Lemma after_configuration ev st : configuration (after ev st) = configuration st.
Proof.
  unfold after.
  destruct ev as [client options|client consented|client settled|client|client request
                 |client data|client msg|client removeId|entityViewID client msg|dt];
    cbn [handle].
  - by apply onJoin_frame.
  - rewrite bind_ret_snd. by apply onLeave_frame.
  - by apply onLeave_resume_frame.
  - by apply onPing_frame.
  - by apply onCustomMethod_frame.
  - by apply onEntityUpdateMessage_frame.
  - by apply setAttribute_frame.
  - by apply onRemoveEntity_frame.
  - by apply onCreateEntity_frame.
  - by apply onSimulationInterval_frame.
Qed.

(** What [onCreate] sets up stays for the life of the room: after any
    events the room admits 25 clients, holds the options it was created
    with, has the id given in [options.roomId] unless that is [null] or
    [undefined] (an empty id or the number 0 is taken), and has the logic
    module of [options.logic] if its import succeeded, none otherwise. *)
Theorem configuration_is_fixed_at_creation (defaultRoomId : JsVal)
    (importError : option string) (options : JsVal) (st0 : Room) (evs : list Event) :
  onCreate defaultRoomId importError options = Ret st0 →
  configuration (after_all evs st0)
  = (match importError with
     | None => Some (LogicModule (field options "logic"))
     | Some _ => None
     end,
     25%nat, options,
     if nullish (field options "roomId") then defaultRoomId else field options "roomId").
Proof.
  intros Hcreate.
  assert (configuration (after_all evs st0) = configuration st0) as ->.
  { clear Hcreate. revert st0. induction evs as [|ev evs IH]; intros st0; [done|].
    cbn [after_all fold_left]. unfold after_all in IH. rewrite IH.
    apply after_configuration. }
  unfold onCreate, mbind, outcome_bind, mret, outcome_ret in Hcreate.
  destruct (js_get options "roomId") as [id|] eqn:Hid; [|done].
  destruct (js_get options "logic") as [logic|] eqn:Hlogic; [|done].
  apply js_get_ret in Hid as ->. apply js_get_ret in Hlogic as ->.
  injection Hcreate as <-. unfold configuration. cbn.
  by destruct (nullish (field options "roomId")).
Qed.

Lemma configuration_is_fixed_at_creation_witness :
  configuration
    (after_all
       [OnJoin alice (VObj [("account", VStr "0xA")]);
        OnCreateEntity "e1" alice (VObj []);
        OnEntityUpdate bob [VStr "e1"; VStr "maxClients"; VStr "99"];
        OnTick (Number.of_Z 50)]
       (mkRoom ∅ ∅ ∅ Number.zero None 25 (VObj [("roomId", VStr "")]) (VStr "")
          [Log Info "*********************** PACVERSE ROOM CREATED ***********************";
           Log Info "***********************";
           Log Error "Cannot find module"; Log Debug "NO Custom Logic Set"]))
  = (None, 25%nat, VObj [("roomId", VStr "")], VStr "").
Proof.
  by apply (configuration_is_fixed_at_creation (VStr "room-1") (Some "Cannot find module")
              (VObj [("roomId", VStr "")])).
Defined.

(** ** No change without a stamp *)

Section Elsewhere.
  (** Views that do not look at the entity under [key0]. *)
  Context {V : Type} (view : Room → V) (key0 : string).
  Hypothesis view_key : ∀ st e', view (with_entities <[key0 := e']> st) = view st.

Lemma entity_assign_else p v : keeps view (entity_assign key0 p v).
Proof.
  intros st. unfold entity_assign, mbind, M_bind, read_entity.
  destruct (networkedEntities st !! key0); [apply view_key|done].
Qed.

Lemma entity_attributes_set_else k v : keeps view (entity_attributes_set key0 k v).
Proof.
  intros st. unfold entity_attributes_set, mbind, M_bind, read_entity.
  destruct (networkedEntities st !! key0) as [e|]; [|done].
  destruct (Entity.attributes e); [|done]. destruct (nullish v); [done|apply view_key].
Qed.

Lemma entity_attributes_set_all_else a keys :
  keeps view (entity_attributes_set_all key0 a keys).
Proof.
  induction keys as [|k keys IH]; cbn [entity_attributes_set_all].
  - apply keeps_ret.
  - repeat keeps_step; [apply entity_attributes_set_else | done].
Qed.

Lemma update_round_else data startIndex i :
  keeps view (update_round key0 data startIndex i).
Proof.
  unfold update_round. repeat keeps_step;
    first [ apply entity_attributes_get_keeps | apply entity_attributes_set_else
          | apply entity_assign_else ].
Qed.

Lemma update_loop_else fuel data startIndex i :
  keeps view (update_loop fuel key0 data startIndex i).
Proof.
  revert i. induction fuel as [|fuel IH]; intros i.
  - apply keeps_ret.
  - rewrite update_loop_S. destruct (negb _); [apply keeps_ret|].
    apply keeps_bind; [apply update_round_else | done].
Qed.

End Elsewhere.

(** Setting attributes leaves the fields of the entity alone. *)
Lemma entity_attributes_set_all_props key a keys :
  keeps (λ st, Entity.props <$> networkedEntities st !! key)
    (entity_attributes_set_all key a keys).
Proof.
  induction keys as [|k keys IH]; cbn [entity_attributes_set_all].
  - apply keeps_ret.
  - repeat keeps_step; [|done].
    intros st. unfold entity_attributes_set, mbind, M_bind, read_entity.
    destruct (networkedEntities st !! key) as [e|] eqn:He; [|cbn; by rewrite He].
    destruct (Entity.attributes e); cbn; [|by rewrite He].
    destruct (nullish _); cbn; [by rewrite He|].
    by rewrite lookup_insert_eq.
Qed.

(** The stamp that ends an update, when it returns. *)
Lemma stamp_ret st key st' :
  (t ← now; entity_assign key "timestamp" t) st = (Ret tt, st') →
  ∃ e e', networkedEntities st !! key = Some e
    ∧ st' = with_entities <[key := e']> st
    ∧ Entity.props e' = <["timestamp" := clock st]> (Entity.props e).
Proof.
  intros H. destruct (networkedEntities st !! key) as [e|] eqn:He.
  - rewrite (stamp_run _ _ _ He) in H. injection H as <-. by eexists _, _.
  - erewrite bind_run in H by reflexivity.
    unfold entity_assign in H. erewrite bind_throw in H; [done|].
    unfold read_entity. by rewrite He.
Qed.

Lemma onEntityUpdate_stamps st clientID data st' :
  onEntityUpdate clientID data st = (Ret tt, st') →
  ∀ id e, networkedEntities st' !! id = Some e →
    networkedEntities st !! id = Some e ∨ Entity.timestamp e = clock st.
Proof.
  unfold onEntityUpdate, key_of. intros H id e Hid.
  apply bind_ret_inv in H as (key & st0 & Hkey & H).
  assert (st0 = st) as -> by (unfold liftO in Hkey; by destruct (js_toString _); simplify_eq).
  erewrite bind_run in H by reflexivity.
  destruct (negb _); [injection H as <-; by left|].
  destruct (at_index data 0) as [| | | |key0| |]; try (by unfold throw in H).
  assert (key0 = key) as -> by (unfold liftO in Hkey; cbn in Hkey; by simplify_eq).
  apply bind_ret_inv in H as ([] & st1 & Hloop & H).
  apply stamp_ret in H as (e1 & e' & He1 & -> & Hprops).
  assert (serverTime st1 = serverTime st) as Htime.
  { change st1 with (snd (Ret tt, st1)). rewrite <- Hloop. by apply update_loop_frame. }
  cbn in Hid. destruct (decide (id = key)) as [->|Hne].
  - right. rewrite lookup_insert_eq in Hid. injection Hid as <-.
    unfold Entity.timestamp, Entity.get. rewrite Hprops, lookup_insert_eq.
    unfold clock. by rewrite Htime.
  - left. rewrite lookup_insert_ne in Hid by done. rewrite <- Hid. symmetry.
    change st1 with (snd (Ret tt, st1)). rewrite <- Hloop.
    apply (update_loop_else (λ st, networkedEntities st !! id)).
    intros. cbn. by rewrite lookup_insert_ne.
Qed.

Lemma setAttribute_stamps st client msg st' :
  setAttribute client msg st = (Ret tt, st') →
  ∀ id e, networkedEntities st' !! id = Some e →
    networkedEntities st !! id = Some e ∨ Entity.timestamp e = clock st.
Proof.
  intros H id e Hid. unfold setAttribute in H.
  destruct (nullish msg) eqn:Hmsg; [injection H as <-; by left|].
  rewrite !(js_get_total _ _ Hmsg) in H.
  do 3 erewrite bind_run in H by reflexivity.
  destruct (_ || _); [injection H as <-; by left|].
  destruct (truthy (field msg "entityId")).
  - unfold key_of in H. apply bind_ret_inv in H as (key & st0 & Hkey & H).
    assert (st0 = st) as -> by (unfold liftO in Hkey; by destruct (js_toString _); simplify_eq).
    erewrite bind_run in H by reflexivity.
    destruct (networkedEntities st !! key) as [e0|] eqn:He0;
      [rewrite bool_decide_eq_true_2 in H by eauto
      |rewrite bool_decide_eq_false_2 in H by (by intros [? ?]); injection H as <-; by left].
    cbn [negb] in H. erewrite bind_run in H by reflexivity.
    erewrite bind_run in H by apply (entity_assign_run _ _ _ _ _ He0).
    destruct (decide (id = key)) as [->|Hne].
    + right.
      match type of H with
      | _ ?st1 = _ =>
          pose proof (entity_attributes_set_all_props key (field msg "attributesToSet")
                        (own_keys (field msg "attributesToSet")) st1) as Hk
      end.
      rewrite H in Hk. cbn in Hk. rewrite Hid, lookup_insert_eq in Hk. cbn in Hk.
      injection Hk as Hk. unfold Entity.timestamp, Entity.get. rewrite Hk.
      cbn. by rewrite lookup_insert_eq.
    + left. rewrite <- Hid. symmetry.
      change st' with (snd (Ret tt, st')). rewrite <- H.
      rewrite (entity_attributes_set_all_else (λ st, networkedEntities st !! id) key)
        by (intros; cbn; by rewrite lookup_insert_ne).
      cbn. by rewrite lookup_insert_ne.
  - left. rewrite <- Hid. symmetry.
    match type of H with
    | ?m st = _ =>
        assert (keeps networkedEntities m) as Hk;
          [|specialize (Hk st); rewrite H in Hk; cbn [snd] in Hk; by rewrite Hk]
    end.
    repeat keeps_step; try (apply keeps_modify; reflexivity).
    + by apply user_assign_keeps.
    + by apply user_attributes_set_all_keeps.
Qed.

Lemma onLeave_catch_stays st client id e :
  networkedEntities (snd (onLeave_catch client st)) !! id = Some e →
  networkedEntities st !! id = Some e.
Proof.
  destruct (onLeave_catch_run st client) as (st' & -> & _ & _ & He & _).
  cbn [snd]. rewrite He.
  destruct (clientEntities st !! Client.id client); [|done].
  rewrite fold_delete_lookup. by destruct (bool_decide _).
Qed.

(** Whenever a handler returns, every entity of the room is either as it
    was before the event or carries the reading of the clock as its time
    stamp: no [entityUpdate], [setAttribute] or [createEntity] that
    returns changes or adds an entity without stamping it, whatever
    fields the message names ([timestamp] included), and no other event
    changes an entity at all. *)
Theorem no_change_without_a_stamp (st : Room) (ev : Event) (id : string) (e : Entity.t) :
  fst (handle ev st) = Ret tt →
  networkedEntities (after ev st) !! id = Some e →
  networkedEntities st !! id = Some e ∨ Entity.timestamp e = clock st.
Proof.
  unfold after. intros Hret Hid.
  destruct (handle ev st) as [r st'] eqn:Hrun. cbn in Hret, Hid. subst r.
  destruct ev as [client options|client consented|client settled|client|client request
                 |client data|client msg|client removeId|entityViewID client msg|dt];
    cbn [handle] in Hrun.
  - left. rewrite <- Hid. change st' with (snd (Ret tt, st')). rewrite <- Hrun.
    by rewrite (onJoin_frame networkedEntities).
  - left. pose proof (bind_ret_snd (onLeave client consented) tt st) as Hsnd.
    rewrite Hrun in Hsnd. cbn [snd] in Hsnd. subst st'.
    rewrite onLeave_run in Hid. cbn zeta in Hid.
    destruct consented.
    + rewrite bind_ret_snd in Hid. apply onLeave_catch_stays in Hid.
      by destruct (networkedUsers st !! Client.sessionId client).
    + by destruct (networkedUsers st !! Client.sessionId client).
  - left. destruct settled as [newClient|]; cbn [onLeave_resume] in Hrun.
    + by injection Hrun as <-.
    + apply (onLeave_catch_stays st client). by rewrite Hrun.
  - left. rewrite <- Hid. change st' with (snd (Ret tt, st')). rewrite <- Hrun.
    by rewrite (onPing_frame networkedEntities).
  - left. rewrite <- Hid. change st' with (snd (Ret tt, st')). rewrite <- Hrun.
    by rewrite (onCustomMethod_frame networkedEntities).
  - unfold onEntityUpdateMessage, key_of in Hrun.
    apply bind_ret_inv in Hrun as (key & st0 & Hkey & Hrun).
    assert (st0 = st) as ->
      by (unfold liftO in Hkey; by destruct (js_toString _); simplify_eq).
    erewrite bind_run in Hrun by reflexivity.
    destruct (negb _); [injection Hrun as <-; by left|].
    by apply (onEntityUpdate_stamps _ _ _ _ Hrun).
  - by apply (setAttribute_stamps _ _ _ _ Hrun).
  - left. unfold onRemoveEntity in Hrun.
    destruct removeId as [| | | |key| |];
      try (by unfold mret, M_ret in Hrun; simplify_eq).
    erewrite bind_run in Hrun by reflexivity.
    destruct (bool_decide _); injection Hrun as <-; [|done].
    cbn in Hid. by apply lookup_delete_Some in Hid as [_ ?].
  - apply onCreateEntity_ret in Hrun. cbn zeta in Hrun. subst st'. cbn in Hid.
    destruct (decide (id = entityViewID)) as [->|Hne].
    + right. rewrite lookup_insert_eq in Hid. injection Hid as <-.
      unfold Entity.timestamp, Entity.get. cbn [Entity.props].
      rewrite creation_props_other
        by (intros Hq; repeat (apply elem_of_cons in Hq as [Hq|Hq]; [discriminate Hq|]);
            by apply elem_of_nil in Hq).
      unfold creation_header. by rewrite lookup_insert_eq.
    + left. by rewrite lookup_insert_ne in Hid.
  - left. rewrite <- Hid. change st' with (snd (Ret tt, st')). rewrite <- Hrun.
    by rewrite (onSimulationInterval_frame networkedEntities).
Qed.

Lemma no_change_without_a_stamp_witness :
  fst (handle (OnEntityUpdate bob [VStr "e1"; VStr "timestamp"; VStr "0"; VStr "xPos"])
         sample_room) = Ret tt
  ∧ (networkedEntities sample_room !! "e1" = Some restamped
     ∨ Entity.timestamp restamped = clock sample_room).
Proof.
  assert (fst (handle (OnEntityUpdate bob [VStr "e1"; VStr "timestamp"; VStr "0"; VStr "xPos"])
                 sample_room) = Ret tt) as Hret by (vm_compute; reflexivity).
  split; [exact Hret|].
  apply (no_change_without_a_stamp sample_room
           (OnEntityUpdate bob [VStr "e1"; VStr "timestamp"; VStr "0"; VStr "xPos"])
           "e1" restamped Hret).
  vm_compute. reflexivity.
Defined.

(** ** What can change in a user record *)

Lemma write_same_field p st key u u' :
  networkedUsers st !! key = Some u → User.get u' p = User.get u p →
  user_field p (with_users <[key := u']> st) = user_field p st.
Proof.
  intros Hu Hp. unfold user_field. cbn.
  rewrite fmap_insert, Hp. apply insert_id. by rewrite lookup_fmap, Hu.
Qed.

Lemma user_assign_field p key q v : q ≠ p → keeps (user_field p) (user_assign key q v).
Proof.
  intros Hq st. unfold user_assign. destruct (networkedUsers st !! key) as [u|] eqn:Hu;
    [|done].
  cbn. apply (write_same_field _ _ _ u); [done|].
  unfold User.get, User.assign. cbn. by rewrite lookup_insert_ne.
Qed.

Lemma user_attributes_set_all_field p key a keys :
  keeps (user_field p) (user_attributes_set_all key a keys).
Proof.
  induction keys as [|k keys IH]; cbn [user_attributes_set_all].
  - apply keeps_ret.
  - repeat keeps_step; [|done].
    intros st. unfold user_attributes_set.
    destruct (networkedUsers st !! key) as [u|] eqn:Hu; [|done].
    destruct (nullish _); [done|]. cbn. by apply (write_same_field _ _ _ u).
Qed.

Lemma setAttribute_field p client msg :
  p ≠ "timestamp" → keeps (user_field p) (setAttribute client msg).
Proof.
  intros Hp. unfold setAttribute. repeat keeps_step.
  - by apply entity_assign_frame.
  - by apply entity_attributes_set_all_frame.
  - by apply user_assign_field.
  - apply user_attributes_set_all_field.
Qed.

Lemma user_field_lookup p st st' k u u' :
  user_field p st' = user_field p st →
  networkedUsers st !! k = Some u → networkedUsers st' !! k = Some u' →
  User.get u' p = User.get u p.
Proof.
  intros Hv Hu Hu'.
  assert (user_field p st' !! k = user_field p st !! k) as H by (by rewrite Hv).
  unfold user_field in H. rewrite !lookup_fmap, Hu, Hu' in H. by injection H.
Qed.

(** A user record is fixed by its join.  Whatever happens afterwards, short
    of a new join under the same session, every field of the record other
    than [timestamp] and [connected] keeps its value ([account] and the
    profile cannot be changed, by [setAttribute] or otherwise), and
    [connected] either keeps its value or becomes [false]: nothing, the
    reconnection included, sets it back to [true]. *)
Theorem user_record_is_fixed_by_its_join (st : Room) (ev : Event) (k : string)
    (u u' : User.t) :
  is_join_of k ev = false →
  networkedUsers st !! k = Some u →
  networkedUsers (after ev st) !! k = Some u' →
  (∀ p, p ≠ "timestamp" → p ≠ "connected" → User.get u' p = User.get u p)
  ∧ (User.connected u' = User.connected u ∨ User.connected u' = VBool false).
Proof.
  intros Hjoin Hu Hu'.
  assert (networkedUsers (after ev st) = networkedUsers st →
          (∀ p, p ≠ "timestamp" → p ≠ "connected" → User.get u' p = User.get u p)
          ∧ (User.connected u' = User.connected u ∨ User.connected u' = VBool false))
    as Hsame.
  { intros H. rewrite H, Hu in Hu'. injection Hu' as <-. split; [done|by left]. }
  assert (∀ client st1,
            networkedUsers st1 !! k = Some u →
            networkedUsers (snd (onLeave_catch client st1)) !! k = Some u' → u' = u)
    as Hcatch.
  { intros client st1 H1 H2.
    destruct (onLeave_catch_run st1 client) as (st2 & Hrun & Hdel & _).
    rewrite Hrun in H2. cbn [snd] in H2. rewrite Hdel in H2.
    apply lookup_delete_Some in H2 as [_ H2]. rewrite H1 in H2. by injection H2. }
  unfold after in *.
  destruct ev as [client options|client consented|client settled|client|client request
                 |client data|client msg|client removeId|entityViewID client msg|dt];
    cbn [handle is_join_of] in *.
  - apply String.eqb_neq in Hjoin.
    destruct (onJoin_users st client options) as [H|[u0 H]]; [by apply Hsame|].
    rewrite H, lookup_insert_ne in Hu' by done. rewrite Hu in Hu'. injection Hu' as <-.
    split; [done|by left].
  - rewrite bind_ret_snd, onLeave_run in Hu'. cbn zeta in Hu'.
    destruct (decide (k = Client.sessionId client)) as [->|Hne].
    + rewrite Hu in Hu'. destruct consented.
      * rewrite bind_ret_snd in Hu'.
        destruct (onLeave_catch_run
                    (with_trace (λ t, t ++ [leave_log client])
                       (with_users
                          <[Client.sessionId client := User.assign u "connected" (VBool false)]>
                          st)) client) as (st2 & Hrun & Hdel & _).
        rewrite Hrun in Hu'. cbn [snd] in Hu'. rewrite Hdel in Hu'.
        by rewrite lookup_delete_eq in Hu'.
      * cbn in Hu'. rewrite lookup_insert_eq in Hu'. injection Hu' as <-. split.
        -- intros p _ Hp. unfold User.get, User.assign. cbn. by rewrite lookup_insert_ne.
        -- right. unfold User.connected, User.get, User.assign. cbn.
           by rewrite lookup_insert_eq.
    + set (st1 := with_trace _ _) in Hu'.
      assert (networkedUsers st1 !! k = Some u) as H1.
      { unfold st1. destruct (networkedUsers st !! Client.sessionId client); cbn;
          by rewrite ?lookup_insert_ne. }
      destruct consented.
      * rewrite bind_ret_snd in Hu'. rewrite (Hcatch client st1 H1 Hu').
        split; [done|by left].
      * change (networkedUsers st1 !! k = Some u') in Hu'.
        rewrite H1 in Hu'. injection Hu' as <-. split; [done|by left].
  - destruct settled as [newClient|]; cbn [onLeave_resume] in *.
    + by apply Hsame.
    + rewrite (Hcatch client st Hu Hu'). split; [done|by left].
  - apply Hsame. by apply onPing_frame.
  - apply Hsame. by apply onCustomMethod_frame.
  - apply Hsame. by apply onEntityUpdateMessage_frame.
  - split.
    + intros p Hp _.
      apply (user_field_lookup p st (snd (setAttribute client msg st)) k u u'); [|done..].
      by apply setAttribute_field.
    + left.
      apply (user_field_lookup "connected" st (snd (setAttribute client msg st)) k u u');
        [|done..].
      by apply setAttribute_field.
  - apply Hsame. by apply onRemoveEntity_frame.
  - apply Hsame. by apply onCreateEntity_frame.
  - apply Hsame. by apply onSimulationInterval_frame.
Qed.

Lemma user_record_is_fixed_by_its_join_witness :
  User.account rewritten_user = VStr "0xA"
  ∧ User.connected rewritten_user = VBool false.
Proof.
  assert (networkedUsers away !! "alice" = Some away_user) as Hu
    by (vm_compute; reflexivity).
  assert (networkedUsers (after rewrite_user away) !! "alice" = Some rewritten_user) as Hu'
    by (vm_compute; reflexivity).
  destruct (user_record_is_fixed_by_its_join away rewrite_user "alice" away_user
              rewritten_user eq_refl Hu Hu') as [Hfields Hconnected].
  split.
  - unfold User.account. rewrite Hfields by done. vm_compute. reflexivity.
  - destruct Hconnected as [->| ->]; [vm_compute|]; reflexivity.
Defined.

(** ** The account of a user who is away *)

Lemma json_field_strict_eq a b : a ≠ VNull → strict_eq (json_field a) b = strict_eq a b.
Proof. by destruct a. Qed.

(** While the room waits for a user to reconnect, and after the user has
    reconnected, the record still holds the account: unless that account
    is [null] (which the scan of [onJoin] reads as [undefined]), a join
    with that account under any session is answered with [WalletNotPass]
    and stores nothing, so a user who lost the connection cannot come back
    with a new session before the wait has expired. *)
Theorem account_stays_taken_while_away (st : Room) (client newClient : Client.t)
    (u : User.t) (options account : JsVal) (settled : list Event) :
  networkedUsers st !! Client.sessionId client = Some u →
  js_get options "account" = Ret account →
  User.account u ≠ VNull →
  strict_eq (User.account u) account = true →
  settled = [] ∨ settled = [OnLeaveSettled client (Reconnected client)] →
  let away := after_all (OnLeave client false :: settled) st in
  onJoin newClient options away
  = (Ret tt,
     with_trace (λ t, t ++ join_trace newClient "WalletNotPass" (PVal (VStr ""))) away).
Proof.
  intros Hu Ha Hnn Heq Hsettled away.
  rewrite (onJoin_run _ _ _ _ Ha).
  assert (account_taken (networkedUsers away) (joining_user newClient options) = true) as ->;
    [|done].
  apply account_taken_spec.
  exists (Client.sessionId client), (User.assign u "connected" (VBool false)). split.
  - assert (networkedUsers (after (OnLeave client false) st) !! Client.sessionId client
            = Some (User.assign u "connected" (VBool false))) as H.
    { unfold after. cbn [handle]. rewrite bind_ret_snd, onLeave_run. cbn zeta.
      rewrite Hu. cbn. by rewrite lookup_insert_eq. }
    unfold away. by destruct Hsettled as [->| ->].
  - destruct (joining_user_fields newClient options) as (_ & -> & _).
    rewrite (js_get_ret _ _ _ Ha) in Heq.
    assert (User.account (User.assign u "connected" (VBool false)) = User.account u) as ->.
    { unfold User.account, User.get, User.assign. cbn. by rewrite lookup_insert_ne. }
    by rewrite json_field_strict_eq.
Qed.

Lemma account_stays_taken_while_away_witness :
  onJoin carol (VObj [("account", VStr "0xA")])
    (after_all [OnLeave alice false; OnLeaveSettled alice (Reconnected alice)] sample_room)
  = (Ret tt,
     with_trace (λ t, t ++ join_trace carol "WalletNotPass" (PVal (VStr "")))
       (after_all [OnLeave alice false; OnLeaveSettled alice (Reconnected alice)]
          sample_room)).
Proof.
  apply (account_stays_taken_while_away sample_room alice carol sample_user
           (VObj [("account", VStr "0xA")]) (VStr "0xA")
           [OnLeaveSettled alice (Reconnected alice)]);
    [reflexivity|reflexivity|discriminate|reflexivity|by right].
Defined.

(** ** An update touches one entity *)

Lemma entity_at_else id key st e' :
  key ≠ id → entity_at id (with_entities <[key := e']> st) = entity_at id st.
Proof. intros Hne. unfold entity_at. cbn. by rewrite lookup_insert_ne. Qed.

Lemma onEntityUpdate_else clientID data id :
  js_toString (at_index data 0) ≠ Ret id →
  keeps (entity_at id) (onEntityUpdate clientID data).
Proof.
  intros Hkey st. unfold onEntityUpdate, key_of.
  destruct (js_toString (at_index data 0)) as [key|] eqn:Hk;
    [|by erewrite bind_throw by reflexivity].
  erewrite bind_run by reflexivity. erewrite bind_run by reflexivity.
  destruct (negb _); [done|].
  assert (key ≠ id) as Hne by congruence.
  destruct (at_index data 0) as [| | | |key0| |]; try done.
  assert (key0 = key) as -> by (cbn in Hk; congruence).
  apply (keeps_bind (entity_at id)).
  - apply update_loop_else. intros. by apply entity_at_else.
  - intros _. apply keeps_bind; [apply keeps_gets|intros t].
    apply entity_assign_else. intros. by apply entity_at_else.
Qed.

(** An [entityUpdate] or a [setAttribute] changes no entity other than the
    one its id converts to, whether the handler returns or throws half
    way. *)
Theorem update_touches_only_its_target (st : Room) (client : Client.t) (id : string) :
  (∀ data, js_toString (at_index data 0) ≠ Ret id →
     entity_at id (after (OnEntityUpdate client data) st) = entity_at id st)
  ∧ (∀ msg, js_toString (field msg "entityId") ≠ Ret id →
       entity_at id (after (OnSetAttribute client msg) st) = entity_at id st).
Proof.
  split.
  - intros data Hkey. unfold after. cbn [handle]. unfold onEntityUpdateMessage, key_of.
    destruct (js_toString (at_index data 0)) as [key|] eqn:Hk;
      [|by erewrite bind_throw by reflexivity].
    erewrite bind_run by reflexivity. erewrite bind_run by reflexivity.
    destruct (negb _); [done|].
    apply onEntityUpdate_else. by rewrite Hk.
  - intros msg Hkey. unfold after. cbn [handle]. unfold setAttribute.
    destruct (nullish msg) eqn:Hmsg; [done|].
    rewrite !(js_get_total _ _ Hmsg).
    do 3 erewrite bind_run by reflexivity.
    destruct (_ || _); [done|].
    destruct (truthy (field msg "entityId")).
    + unfold key_of.
      destruct (js_toString (field msg "entityId")) as [key|] eqn:Hk;
        [|by erewrite bind_throw by reflexivity].
      erewrite bind_run by reflexivity. erewrite bind_run by reflexivity.
      destruct (negb _); [done|].
      assert (key ≠ id) as Hne by congruence.
      apply (keeps_bind (entity_at id)); [apply keeps_gets|intros t].
      apply keeps_bind; [|intros _].
      * apply entity_assign_else. intros. by apply entity_at_else.
      * apply entity_attributes_set_all_else. intros. by apply entity_at_else.
    + match goal with
      | |- entity_at id (snd (?m st)) = _ =>
          assert (keeps networkedEntities m) as Hk;
            [|unfold entity_at; by rewrite Hk]
      end.
      repeat keeps_step; try (apply keeps_modify; reflexivity).
      * by apply user_assign_keeps.
      * by apply user_attributes_set_all_keeps.
Qed.

Lemma update_touches_only_its_target_witness :
  entity_at "e1"
    (after (OnEntityUpdate bob (odd_update "e2" [("hp", "7")] "score"))
       (after (OnCreateEntity "e2" bob spawn_message) sample_room))
  = Some sample_entity.
Proof.
  rewrite (proj1 (update_touches_only_its_target
                    (after (OnCreateEntity "e2" bob spawn_message) sample_room) bob "e1")).
  - vm_compute. reflexivity.
  - discriminate.
Defined.

(** ** The two ways into the purge *)

Lemma onLeave_catch_contents st1 st2 client :
  contents st1 = contents st2 →
  contents (snd (onLeave_catch client st1)) = contents (snd (onLeave_catch client st2)).
Proof.
  unfold contents. intros [= He Hu Hi Ht].
  destruct (onLeave_catch_run st1 client) as (st1' & Hrun1 & Hu1 & Hi1 & He1 & _).
  destruct (onLeave_catch_run st2 client) as (st2' & Hrun2 & Hu2 & Hi2 & He2 & _).
  assert (serverTime st1' = serverTime st1) as Ht1.
  { change st1' with (snd (Ret tt, st1')). rewrite <- Hrun1.
    by apply (onLeave_catch_frame serverTime). }
  assert (serverTime st2' = serverTime st2) as Ht2.
  { change st2' with (snd (Ret tt, st2')). rewrite <- Hrun2.
    by apply (onLeave_catch_frame serverTime). }
  rewrite Hrun1, Hrun2. cbn [snd].
  by rewrite He1, He2, Hu1, Hu2, Hi1, Hi2, Ht1, Ht2, He, Hu, Hi, Ht.
Qed.

(** A leave without consent whose wait expires before anything else
    happens leaves the users, the entities, the index and the clock
    exactly as a consented leave would have: the two ways into the purge
    differ in what they log only. *)
Theorem expired_wait_purges_like_a_consented_leave (st : Room) (client : Client.t) :
  contents (after (OnLeaveSettled client Expired) (after (OnLeave client false) st))
  = contents (after (OnLeave client true) st).
Proof.
  unfold after. cbn [handle onLeave_resume].
  rewrite !bind_ret_snd, !onLeave_run. cbn zeta. rewrite bind_ret_snd. cbn [snd].
  by apply onLeave_catch_contents.
Qed.

(** ** The purge spares the entities of the others *)








(** ** What a join stores *)

Lemma assign_all_other u fields p :
  p ∉ fields.*1 → User.get (User.assign_all u fields) p = User.get u p.
Proof.
  unfold User.assign_all. revert u. induction fields as [|[k v] fields IH]; intros u Hp;
    cbn [fold_left]; [done|].
  cbn in Hp. apply not_elem_of_cons in Hp as [Hne Hp].
  rewrite IH by done. unfold User.get, User.assign. cbn. by rewrite lookup_insert_ne.
Qed.

Lemma assign_all_attributes u fields :
  User.attributes (User.assign_all u fields) = User.attributes u.
Proof.
  unfold User.assign_all. revert u. induction fields as [|[k v] fields IH]; intros u;
    cbn [fold_left]; [done|].
  by rewrite IH.
Qed.

(** A join that is admitted stores, under the session id, a record whose
    [id] and [sessionId] are those of the client and whose fourteen
    profile fields are the properties of that name of the options
    ([undefined] where the options have none).  Nothing else of the
    options reaches the record: every other field, [connected] and
    [timestamp] included, and the attribute map are as the constructor of
    the record left them. *)
Theorem join_assigns_the_listed_fields_only (st : Room) (client : Client.t)
    (options account : JsVal) :
  js_get options "account" = Ret account →
  account_taken (networkedUsers st) (joining_user client options) = false →
  ∃ u,
    networkedUsers (after (OnJoin client options) st) !! Client.sessionId client = Some u
    ∧ User.get u "id" = VStr (Client.id client)
    ∧ User.get u "sessionId" = VStr (Client.sessionId client)
    ∧ (∀ p, p ∈ profile_fields → User.get u p = field options p)
    ∧ (∀ p, p ∉ "id" :: "sessionId" :: profile_fields → User.get u p = User.get User.new p)
    ∧ User.attributes u = User.attributes User.new.
Proof.
  intros Ha Hfree. exists (joining_user client options). split; [|split; [|split; [|split; [|split]]]].
  - unfold after. cbn [handle]. rewrite (onJoin_run _ _ _ _ Ha), Hfree. cbn.
    by rewrite lookup_insert_eq.
  - by destruct (joining_user_fields client options) as (_ & _ & _ & ->).
  - by destruct (joining_user_fields client options) as (_ & _ & -> & _).
  - intros p Hp. unfold profile_fields in Hp.
    repeat (apply elem_of_cons in Hp as [->|Hp]; [vm_compute; reflexivity|]).
    by apply elem_of_nil in Hp.
  - intros p Hp. unfold joining_user. apply assign_all_other.
    cbn [fmap list_fmap fst]. by rewrite <- list_fmap_compose, list_fmap_id.
  - apply assign_all_attributes.
Qed.

Lemma join_assigns_the_listed_fields_only_witness :
  ∃ u,
    networkedUsers
      (after (OnJoin carol
                (VObj [("account", VStr "0xC"); ("userName", VStr "carol");
                       ("connected", VBool false); ("timestamp", VStr "1")]))
         sample_room) !! "carol" = Some u
    ∧ User.get u "userName" = VStr "carol"
    ∧ User.get u "headMat" = VUndefined
    ∧ User.connected u = VBool true
    ∧ User.timestamp u = VUndefined.
Proof.
  destruct (join_assigns_the_listed_fields_only sample_room carol
              (VObj [("account", VStr "0xC"); ("userName", VStr "carol");
                     ("connected", VBool false); ("timestamp", VStr "1")]) (VStr "0xC")
              eq_refl) as (u & Hu & _ & _ & Hprofile & Hother & _).
  - vm_compute. reflexivity.
  - exists u. split; [exact Hu|]. unfold User.connected, User.timestamp.
    rewrite (Hprofile "userName"), (Hprofile "headMat"), (Hother "connected"),
      (Hother "timestamp").
    + repeat split; vm_compute; reflexivity.
    + unfold profile_fields. intros Hq.
      repeat (apply elem_of_cons in Hq as [Hq|Hq]; [discriminate Hq|]).
      by apply elem_of_nil in Hq.
    + unfold profile_fields. intros Hq.
      repeat (apply elem_of_cons in Hq as [Hq|Hq]; [discriminate Hq|]).
      by apply elem_of_nil in Hq.
    + unfold profile_fields.
      repeat (apply list_elem_of_here || apply list_elem_of_further).
    + unfold profile_fields.
      repeat (apply list_elem_of_here || apply list_elem_of_further).
Defined.

(** * The item controller *)

(** [saveItem] has no working update path: once the lookup finds an item,
    the handler fails on the undeclared [furnitureService] before it sends
    anything. *)
Lemma saveItem_found {D} (itemService : Item.Service D) body account db item db1 :
  js_get body "account" = Ret account →
  Item.findItemByAccount itemService account db = (inr item, db1) →
  truthy item = true →
  Item.saveItem itemService body db
  = (inl (Item.ReferenceError "furnitureService"), db1, [Item.ConsoleLog body]).
Proof. intros Ha Hfind Hitem. unfold Item.saveItem. by rewrite Ha, Hfind, Hitem. Qed.

Lemma in_memory_finds_what_it_added : Item.finds_what_it_added Item.in_memory.
Proof.
  intros body db result db' Hadd. cbn in Hadd. injection Hadd as _ <-.
  eexists _, _. split; [reflexivity|]. by rewrite lookup_insert_eq.
Qed.

(** An item can be saved once.  Over any item service that finds what it
    has added: after a [saveItem] that was fulfilled, [loadItem] for the
    same account answers with an item, and another [saveItem] for that
    account, whatever else its body holds, sends no answer: its promise is
    rejected with a ReferenceError ([furnitureService] is not defined), and
    neither [addItem] nor an update is called. *)
Theorem saved_item_loads_but_cannot_be_saved_again {D} (itemService : Item.Service D)
    (body again : JsVal) (db db' : D) (outputs : list Item.Output) :
  Item.finds_what_it_added itemService →
  Item.saveItem itemService body db = (inr tt, db', outputs) →
  js_get again "account" = Ret (field body "account") →
  ∃ item db'',
    truthy item = true
    ∧ Item.findItemByAccount itemService (field body "account") db' = (inr item, db'')
    ∧ Item.loadItem itemService again db' = (inr tt, db'', [Item.Json item])
    ∧ Item.saveItem itemService again db'
      = (inl (Item.ReferenceError "furnitureService"), db'', [Item.ConsoleLog again]).
Proof.
  intros Hlaw Hsave Hagain. unfold Item.saveItem in Hsave.
  destruct (js_get body "account") as [account|] eqn:Ha; [|done].
  destruct (Item.findItemByAccount itemService account db) as [[failure|found] db1];
    [done|].
  destruct (negb (truthy found)); [|done].
  destruct (Item.addItem itemService body db1) as [[failure|result] db2] eqn:Hadd; [done|].
  injection Hsave as <- _.
  destruct (Hlaw _ _ _ _ Hadd) as (item & db'' & Hfind & Hitem).
  exists item, db''. split; [done|]. split; [done|]. split.
  - unfold Item.loadItem. by rewrite Hagain, Hfind.
  - apply (saveItem_found itemService again (field body "account") _ item db''
             Hagain Hfind Hitem).
Qed.

Lemma saved_item_loads_but_cannot_be_saved_again_witness :
  Item.saveItem Item.in_memory (VObj [("account", VStr "0xA"); ("sofa", VStr "red")]) ∅
  = (inr tt,
     {[ "0xA" := Item.document (VObj [("account", VStr "0xA"); ("sofa", VStr "red")]) ]},
     [Item.ConsoleLog (VObj [("account", VStr "0xA"); ("sofa", VStr "red")]);
      Item.Json (Item.document (VObj [("account", VStr "0xA"); ("sofa", VStr "red")]))])
  ∧ Item.saveItem Item.in_memory (VObj [("account", VStr "0xA"); ("sofa", VStr "blue")])
      {[ "0xA" := Item.document (VObj [("account", VStr "0xA"); ("sofa", VStr "red")]) ]}
    = (inl (Item.ReferenceError "furnitureService"),
       {[ "0xA" := Item.document (VObj [("account", VStr "0xA"); ("sofa", VStr "red")]) ]},
       [Item.ConsoleLog (VObj [("account", VStr "0xA"); ("sofa", VStr "blue")])]).
Proof.
  assert (Item.saveItem Item.in_memory
            (VObj [("account", VStr "0xA"); ("sofa", VStr "red")]) ∅
          = (inr tt,
             {[ "0xA" := Item.document (VObj [("account", VStr "0xA"); ("sofa", VStr "red")]) ]},
             [Item.ConsoleLog (VObj [("account", VStr "0xA"); ("sofa", VStr "red")]);
              Item.Json (Item.document (VObj [("account", VStr "0xA"); ("sofa", VStr "red")]))]))
    as Hsave by (vm_compute; reflexivity).
  split; [exact Hsave|].
  destruct (saved_item_loads_but_cannot_be_saved_again Item.in_memory _
              (VObj [("account", VStr "0xA"); ("sofa", VStr "blue")]) _ _ _
              in_memory_finds_what_it_added Hsave eq_refl)
    as (item & db'' & _ & Hfind & _ & Hagain).
  rewrite Hagain. cbn in Hfind. by injection Hfind as _ <-.
Defined.
